(** * The prettier printer back end: a shallow embedding

    This development embeds the parts of [src/printer.js] (the JavaScript
    translator) and [src/printer-handlebars.js] (the template translator)
    that the properties proved at the end of the file are about.

    Conventions.
    - A JavaScript string is the list of its UTF-16 code units ([jsstring]).
    - A JavaScript value that the printers only read is a tree ([value]);
      numbers are IEEE doubles ([float]).
    - A thrown exception is an [Err] of the [result] monad.
    - What the translators take from modules that are not among the sources
      is a field of [Externals]; what they take from the JavaScript engine
      is a field of [Engine].
    - [printMethod], the one routine that writes to a node, is modelled over
      an explicit object store (module [Store]). *)

From Stdlib Require Import ZArith NArith Lia Bool Ascii String Floats.
From stdpp Require Import base list gmap.

Set Warnings "-register-all".
Local Open Scope string_scope.
Local Open Scope list_scope.
Local Open Scope N_scope.

(** ** JavaScript strings *)

Definition jsstring := list N.

(** The code units of an ASCII literal of the source text. *)
Fixpoint lit (s : string) : jsstring :=
  match s with
  | EmptyString => []
  | String a r => N_of_ascii a :: lit r
  end.

Fixpoint jseqb (a b : jsstring) : bool :=
  match a, b with
  | [], [] => true
  | x :: a', y :: b' => (x =? y) && jseqb a' b'
  | _, _ => false
  end.

Definition DQUOTE : N := 34.
Definition SQUOTE : N := 39.
Definition BACKSLASH : N := 92.

(** How often a code unit occurs in a string. *)
Fixpoint occurrences (c : N) (s : jsstring) : nat :=
  match s with
  | [] => 0%nat
  | x :: s' => if x =? c then S (occurrences c s') else occurrences c s'
  end.

Module JSString.

(** [String.prototype.includes] with a search string. *)
Fixpoint startsWith (needle s : jsstring) : bool :=
  match needle, s with
  | [], _ => true
  | x :: needle', y :: s' => (x =? y) && startsWith needle' s'
  | _ :: _, [] => false
  end.

Fixpoint includes (s needle : jsstring) : bool :=
  startsWith needle s ||
  match s with
  | [] => false
  | _ :: s' => includes s' needle
  end.

(** [needle] occurs in [s] as a contiguous sequence. *)
Definition contains (s needle : jsstring) : Prop :=
  exists pre post : jsstring, s = pre ++ needle ++ post.

(** WhiteSpace and LineTerminator code units, the class [\s] of a regular
    expression and the characters [String.prototype.trim] strips. *)
Definition isSpace (c : N) : bool :=
  (c =? 9) || (c =? 10) || (c =? 11) || (c =? 12) || (c =? 13) ||
  (c =? 32) || (c =? 160) || (c =? 5760) ||
  ((8192 <=? c) && (c <=? 8202)) ||
  (c =? 8232) || (c =? 8233) || (c =? 8239) || (c =? 8287) ||
  (c =? 12288) || (c =? 65279).

Fixpoint trimStart (s : jsstring) : jsstring :=
  match s with
  | c :: s' => if isSpace c then trimStart s' else s
  | [] => []
  end.

Definition trimEnd (s : jsstring) : jsstring := rev (trimStart (rev s)).

Definition trim (s : jsstring) : jsstring := trimEnd (trimStart s).

(** [s.replace(/\s+/g, " ")]: every maximal run of white space becomes one
    space. [inRun] tells that the previous unit was white space. *)
Fixpoint collapseSpaces (inRun : bool) (s : jsstring) : jsstring :=
  match s with
  | [] => []
  | c :: s' =>
      if isSpace c
      then (if inRun then [] else [32]) ++ collapseSpaces true s'
      else c :: collapseSpaces false s'
  end.

End JSString.

(** ** [JSON.stringify] on a string (QuoteJSONString of ECMA-262) *)

Module JSON.

Definition hexDigit (n : N) : N := if n <? 10 then 48 + n else 87 + n.

(** [\uXXXX] with lower-case hexadecimal digits. *)
Definition UnicodeEscape (c : N) : jsstring :=
  [BACKSLASH; 117; hexDigit ((c / 4096) mod 16); hexDigit ((c / 256) mod 16);
   hexDigit ((c / 16) mod 16); hexDigit (c mod 16)].

Definition isLeadingSurrogate (c : N) : bool := (55296 <=? c) && (c <=? 56319).
Definition isTrailingSurrogate (c : N) : bool := (56320 <=? c) && (c <=? 57343).

(** One code unit that is not part of a surrogate decision. *)
Definition quoteCodeUnit (c : N) : jsstring :=
  if c =? 8 then [BACKSLASH; 98]
  else if c =? 9 then [BACKSLASH; 116]
  else if c =? 10 then [BACKSLASH; 110]
  else if c =? 12 then [BACKSLASH; 102]
  else if c =? 13 then [BACKSLASH; 114]
  else if c =? DQUOTE then [BACKSLASH; DQUOTE]
  else if c =? BACKSLASH then [BACKSLASH; BACKSLASH]
  else if c <? 32 then UnicodeEscape c
  else [c].

(** The body of the quoted string. With [wellFormed] (ECMAScript 2019 and
    later) a surrogate that is not half of a pair is escaped; engines older
    than that copy it. *)
Fixpoint quoteBody (wellFormed : bool) (s : jsstring) : jsstring :=
  match s with
  | [] => []
  | c :: rest =>
      if wellFormed && isLeadingSurrogate c then
        match rest with
        | d :: rest' =>
            if isTrailingSurrogate d
            then c :: d :: quoteBody wellFormed rest'
            else UnicodeEscape c ++ quoteBody wellFormed rest
        | [] => UnicodeEscape c
        end
      else if wellFormed && isTrailingSurrogate c
      then UnicodeEscape c ++ quoteBody wellFormed rest
      else quoteCodeUnit c ++ quoteBody wellFormed rest
  end.

Definition stringify (wellFormed : bool) (s : jsstring) : jsstring :=
  DQUOTE :: quoteBody wellFormed s ++ [DQUOTE].

End JSON.

(** ** JavaScript values read by the printers *)

Inductive value : Type :=
| VUndef
| VNull
| VBool (b : bool)
| VNum (x : float)
| VStr (s : jsstring)
| VArr (elements : list value)
| VObj (fields : list (jsstring * value)).

(** ToBoolean. *)
Definition truthy (v : value) : bool :=
  match v with
  | VUndef | VNull => false
  | VBool b => b
  | VNum x => negb (PrimFloat.is_zero x || PrimFloat.is_nan x)
  | VStr s => negb (bool_decide (s = []))
  | VArr _ | VObj _ => true
  end.

Fixpoint assoc (k : jsstring) (fs : list (jsstring * value)) : value :=
  match fs with
  | [] => VUndef
  | (k', v) :: fs' => if jseqb k k' then v else assoc k fs'
  end.

(** [v.k] for a named field of a node; a value that is no object has none
    of the fields the printers ask for. *)
Definition getField (v : value) (k : string) : value :=
  match v with
  | VObj fs => assoc (lit k) fs
  | _ => VUndef
  end.

(** [v === "s"] against a string literal of the source. *)
Definition isStr (v : value) (s : string) : bool :=
  match v with
  | VStr t => jseqb t (lit s)
  | _ => false
  end.

(** A [switch] label list: [case "A": case "B":]. *)
Definition caseOf (t : value) (labels : list string) : bool :=
  existsb (isStr t) labels.

(** [a === b] on primitive values. Tree values carry no identity, so two
    objects never compare equal here. *)
Definition strictEq (a b : value) : bool :=
  match a, b with
  | VUndef, VUndef | VNull, VNull => true
  | VBool x, VBool y => eqb x y
  | VNum x, VNum y => PrimFloat.eqb x y
  | VStr x, VStr y => jseqb x y
  | _, _ => false
  end.

(** ** Exceptions *)

Inductive error : Type :=
| AssertionError                           (* assert.ok, assert.strictEqual *)
| TypeAssertion (expected : string)        (* namedTypes.X.assert(value) *)
| TypeError                                (* a read through undefined or null *)
| InvalidDocument                          (* a builder given a non-document *)
| UnknownType (t : value)                  (* "unknown type: " + ... *)
| UnprintableType (t : value)              (* "unprintable type: " + ... *)
| ModuleSpecifierAbstract
| UnsupportedHandlebarsType (t : value)    (* "unsupported handlebars type: " + ... *)
| UnsupportedAttributeType (t : value)     (* "unsupported handlebars attribute type: " + ... *)
| OutOfFuel.

Inductive result (A : Type) : Type :=
| Ok (a : A)
| Err (e : error).
Arguments Ok {A} a.
Arguments Err {A} e.

Definition bind {A B} (r : result A) (k : A -> result B) : result B :=
  match r with
  | Ok a => k a
  | Err e => Err e
  end.

Notation "'let!' x ':=' r 'in' k" := (bind r (fun x => k))
  (at level 10, x name, r at level 100, k at level 200).

Fixpoint mapM {A B} (f : A -> result B) (l : list A) : result (list B) :=
  match l with
  | [] => Ok []
  | a :: l' => let! b := f a in let! bs := mapM f l' in Ok (b :: bs)
  end.

Definition is_Err {A} (r : result A) : Prop :=
  match r with Err _ => True | Ok _ => False end.

(** [v.k] where [v] may be anything: reading through [undefined] or [null]
    throws. *)
Definition getProp (v : value) (k : string) : result value :=
  match v with
  | VUndef | VNull => Err TypeError
  | _ => Ok (getField v k)
  end.

(** A field whose elements are visited. *)
Definition asList (v : value) : result (list value) :=
  match v with
  | VArr l => Ok l
  | _ => Err TypeError
  end.

(** A field on which a string method is called. *)
Definition asString (v : value) : result jsstring :=
  match v with
  | VStr s => Ok s
  | _ => Err TypeError
  end.

(** ** The document model *)

Inductive LineKind : Type := Plain | Soft | Hard | Literal.

(** Modelled from the spec: the builder modules ([pp.js], [doc-builders.js])
    are not among the sources. A Document is atomic text, a concatenation,
    a breakable line, an indentation or a group; [line] is the Plain point
    (a space when flat), and the template builders indent by the configured
    width ([None]). *)
Inductive Doc : Type :=
| Text (s : jsstring)
| Concat (parts : list Doc)
| Line (kind : LineKind)
| Indent (extraWidth : option Z) (contents : Doc)
| Group (contents : Doc) (exclusive : bool).

Definition txt (s : string) : Doc := Text (lit s).

Definition concat (parts : list Doc) : Doc := Concat parts.
Definition line : Doc := Line Plain.
Definition softline : Doc := Line Soft.
Definition hardline : Doc := Line Hard.
Definition literalline : Doc := Line Literal.
Definition group (d : Doc) : Doc := Group d false.
Definition multilineGroup (d : Doc) : Doc := Group d true.

Fixpoint intersperse (sep : Doc) (l : list Doc) : list Doc :=
  match l with
  | [] => []
  | [d] => [d]
  | d :: l' => d :: sep :: intersperse sep l'
  end.

Definition join (sep : Doc) (l : list Doc) : Doc := concat (intersperse sep l).

(** A string is a Document; any other value put among the parts of a
    builder is rejected. *)
Definition asDoc (v : value) : result Doc :=
  match v with
  | VStr s => Ok (Text s)
  | _ => Err InvalidDocument
  end.

Definition isBlank (s : jsstring) : bool := forallb JSString.isSpace s.

(** Modelled from the spec: [getFirstString] of [pp.js], the text a document
    begins with, that is its first atom holding more than white space. *)
Fixpoint getFirstString (d : Doc) : option jsstring :=
  match d with
  | Text s => if isBlank s then None else Some s
  | Concat parts =>
      (fix first (l : list Doc) : option jsstring :=
         match l with
         | [] => None
         | p :: l' =>
             match getFirstString p with
             | Some s => Some s
             | None => first l'
             end
         end) parts
  | Line _ => None
  | Indent _ c => getFirstString c
  | Group c _ => getFirstString c
  end.

(** [getFirstString(d) === "{"]. *)
Definition firstStringIs (d : Doc) (s : string) : bool :=
  match getFirstString d with
  | Some t => jseqb t (lit s)
  | None => false
  end.

(** Modelled from the spec: [isEmpty] of [pp.js], the empty text. *)
Definition isEmpty (d : Doc) : bool :=
  match d with
  | Text [] => true
  | _ => false
  end.

(** ** Paths *)

Inductive name : Type :=
| Field (f : string)
| Index (i : nat).

(** Modelled from the spec: [fast-path.js] is not among the sources. A Path
    is the stack of the values entered during the descent, each with the
    field name or list index it was reached by; the innermost frame is the
    head of [frames]. *)
Record Path : Type := mkPath {
  root : value;
  frames : list (name * value)
}.

Definition FastPath_from (ast : value) : Path := mkPath ast [].

Definition getValue (p : Path) : value :=
  match frames p with
  | (_, v) :: _ => v
  | [] => root p
  end.

Definition getName (p : Path) : option name :=
  match frames p with
  | (k, _) :: _ => Some k
  | [] => None
  end.

Definition push (p : Path) (k : name) (v : value) : Path :=
  mkPath (root p) ((k, v) :: frames p).

(** Entering [value[name1][name2]...]. *)
Fixpoint descend (p : Path) (names : list string) : result Path :=
  match names with
  | [] => Ok p
  | k :: names' =>
      let! v := getProp (getValue p) k in
      descend (push p (Field k) v) names'
  end.

(** [path.call(fn, name1, ...)]. *)
Definition call {A} (p : Path) (fn : Path -> result A) (names : list string)
  : result A :=
  let! q := descend p names in fn q.

(** The paths of the elements of the list the path stands on. *)
Definition elementPaths (q : Path) (l : list value) : list Path :=
  imap (fun i v => push q (Index i) v) l.

(** The element paths of a list whose first element has index [k]. *)
Fixpoint pathsFrom (q : Path) (k : nat) (l : list value) : list Path :=
  match l with
  | [] => []
  | v :: l' => push q (Index k) v :: pathsFrom q (S k) l'
  end.

(** [path.map(fn, name1, ...)]; [path.each] with a callback that pushes
    onto an array is the same traversal. *)
Definition map_ {A} (p : Path) (fn : Path -> result A) (names : list string)
  : result (list A) :=
  let! q := descend p names in
  let! l := asList (getValue q) in
  mapM fn (elementPaths q l).

(** All the values on the stack, innermost first. *)
Definition stackValues (p : Path) : list value :=
  (snd <$> frames p) ++ [root p].

(** ** What the JavaScript engine supplies *)

Record Engine : Type := mkEngine {
  (** whether [JSON.stringify] escapes lone surrogates *)
  wellFormedStringify : bool;
  (** Number::toString, the shortest decimal that reads back *)
  NumberToString : float -> jsstring;
  (** StringToNumber, the value of a numeric string and NaN otherwise *)
  StringToNumber : jsstring -> float
}.

(** The result of reading [v.length]: the number of elements of a list or
    of code units of a string, or whatever the field [length] holds. *)
Inductive jslength : Type :=
| Len (n : nat)
| NoLen (v : value).

Definition lengthOf (v : value) : result jslength :=
  match v with
  | VUndef | VNull => Err TypeError
  | VArr l => Ok (Len (length l))
  | VStr s => Ok (Len (length s))
  | _ => Ok (NoLen (getField v "length"))
  end.

Section EngineOps.

Context (js : Engine).

Definition COMMA : N := 44.

(** ToString of ECMA-262; an array joins its elements with commas and
    leaves [undefined] and [null] elements empty. *)
Fixpoint ToString (v : value) : jsstring :=
  match v with
  | VUndef => lit "undefined"
  | VNull => lit "null"
  | VBool true => lit "true"
  | VBool false => lit "false"
  | VNum x => NumberToString js x
  | VStr s => s
  | VArr l =>
      let element (x : value) : jsstring :=
        match x with
        | VUndef | VNull => []
        | _ => ToString x
        end in
      (fix joined (l : list value) : jsstring :=
         match l with
         | [] => []
         | [x] => element x
         | x :: l' => element x ++ COMMA :: joined l'
         end) l
  | VObj _ => lit "[object Object]"
  end.

(** ToNumber of ECMA-262. *)
Definition ToNumber (v : value) : float :=
  match v with
  | VUndef => PrimFloat.nan
  | VNull => PrimFloat.zero
  | VBool true => PrimFloat.one
  | VBool false => PrimFloat.zero
  | VNum x => x
  | VStr s => StringToNumber js s
  | VArr _ => StringToNumber js (ToString v)
  | VObj _ => PrimFloat.nan
  end.

(** [len ? a : b]. *)
Definition lengthTruthy (len : jslength) : bool :=
  match len with
  | Len n => negb (Nat.eqb n 0)
  | NoLen v => truthy v
  end.

(** [len > 0], and the loop condition [0 < len]. *)
Definition lengthPositive (len : jslength) : bool :=
  match len with
  | Len n => negb (Nat.eqb n 0)
  | NoLen v => PrimFloat.ltb PrimFloat.zero (ToNumber v)
  end.

End EngineOps.

(** The configuration after [normalizeOptions]. *)
Record Options : Type := mkOptions {
  tabWidth : Z;
  wrapColumn : Z;
  quote : value;
  objectCurlySpacing : bool;
  inputSourceMap : value;
  sourceMapName : value;
  sourceRoot : value
}.

(** * The template translator, [src/printer-handlebars.js] *)

Module Handlebars.

(** The builder of [doc-builders.js] that differs from the one of
    [pp.js]: it takes no width. *)
Definition indent (d : Doc) : Doc := Indent None d.

Definition voidTags : list string :=
  ["area"; "base"; "br"; "col"; "embed"; "hr"; "img"; "input"; "link";
   "meta"; "param"; "source"; "track"; "wbr"].

(** The properties every object literal inherits from [Object.prototype];
    all of them hold functions or objects. *)
Definition ObjectPrototype : list string :=
  ["constructor"; "toString"; "toLocaleString"; "valueOf"; "hasOwnProperty";
   "isPrototypeOf"; "propertyIsEnumerable"; "__proto__"; "__defineGetter__";
   "__defineSetter__"; "__lookupGetter__"; "__lookupSetter__"].

(** The kinds [printPath] has a rule for. *)
Definition ruleKinds : list string :=
  ["Program"; "AttrNode"; "ElementNode"; "TextNode"; "MustacheStatement";
   "MustacheCommentStatement"; "PathExpression"].

(** The kinds [printPath] of [src/unnamed/part_000] has a rule for. *)
Definition ruleKinds_part_000 : list string :=
  ["Program"; "MustacheCommentStatement"].

(** The self-closing form of a void element: the tag alone, closed by [>],
    and no closing tag. *)
Definition voidForm (tag attributes children : Doc) : Doc :=
  group (concat [txt "<"; tag; attributes; txt ">"; indent children; hardline]).

(** The form of an element with a closing tag. *)
Definition pairedForm (tag attributes children : Doc) : Doc :=
  group (concat [txt "<"; tag; attributes; txt ">"; indent children;
                 concat [softline; txt "</"; tag; txt ">"]]).

Section Printer.

Context (js : Engine).

(** Whether [voidTags[key]] is truthy. *)
Definition voidTagsAt (key : value) : bool :=
  let k := ToString js key in
  existsb (fun t => jseqb k (lit t)) voidTags
  || existsb (fun t => jseqb k (lit t)) ObjectPrototype.

Definition printChildren (childProp : string) (path : Path)
    (print : Path -> result Doc) : result Doc :=
  let! children := map_ path print [childProp] in
  Ok (concat children).

Definition printAttributes (path : Path) (print : Path -> result Doc)
  : result Doc :=
  let node := getValue path in
  let! len := lengthOf (getField node "attributes") in
  let! printed := map_ path print ["attributes"] in
  Ok (concat [
    if lengthTruthy len then txt " " else txt "";
    indent (join line printed)
  ]).

Definition printPath (path : Path) (options : Options)
    (print : Path -> result Doc) : result Doc :=
  let n := getValue path in
  if negb (truthy n) then Ok (txt "")
  else
    match n with
    | VStr s => Ok (Text s)
    | _ =>
      let t := getField n "type" in
      if caseOf t ["Program"] then
        printChildren "body" path print
      else if caseOf t ["AttrNode"] then
        let value := getField n "value" in
        let! vtype := getProp value "type" in
        if isStr vtype "TextNode" then
          let! loc := getProp value "loc" in
          let! start := getProp loc "start" in
          let! startLine := getProp start "line" in
          let! end_ := getProp loc "end" in
          let! endLine := getProp end_ "line" in
          let! sameSpot :=
            if strictEq startLine endLine then
              let! startColumn := getProp start "column" in
              let! endColumn := getProp end_ "column" in
              Ok (strictEq startColumn endColumn)
            else Ok false in
          if sameSpot then asDoc (getField n "name")
          else
            let! name := asDoc (getField n "name") in
            let! chars := asDoc (getField value "chars") in
            Ok (concat [name; Text [61; DQUOTE]; chars; Text [DQUOTE]])
        else Err (UnsupportedAttributeType vtype)
      else if caseOf t ["ElementNode"] then
        let selfClose :=
          if voidTagsAt (getField n "name") then txt ">" else txt " />" in
        let! children := printChildren "children" path print in
        let! attributes := printAttributes path print in
        let! len := lengthOf (getField n "children") in
        let! tag := asDoc (getField n "tag") in
        Ok (group (concat [
          txt "<";
          tag;
          attributes;
          if lengthTruthy len then txt ">" else selfClose;
          indent children;
          if lengthTruthy len
          then concat [softline; txt "</"; tag; txt ">"]
          else hardline
        ]))
      else if caseOf t ["TextNode"] then
        let! chars := asString (getField n "chars") in
        Ok (Text (JSString.trim (JSString.collapseSpaces false chars)))
      else if caseOf t ["MustacheStatement"] then
        let! inner := call path print ["path"] in
        Ok (group (concat [txt "{{"; inner; txt "}}"]))
      else if caseOf t ["MustacheCommentStatement"] then
        let! value := asString (getField n "value") in
        let text := JSString.trim value in
        let hasBraces :=
          JSString.includes text (lit "{{")
          || JSString.includes text (lit "}}") in
        let open := if hasBraces then txt "{{!--" else txt "{{!" in
        let close := if hasBraces then txt "--}}" else txt "}}" in
        Ok (group (concat [open; line; Text text; line; close]))
      else if caseOf t ["PathExpression"] then
        let! parts := asList (getField n "parts") in
        let! docs := mapM asDoc parts in
        Ok (join (txt ".") docs)
      else
        Err (UnsupportedHandlebarsType t)
    end.

(** [printPath] of [src/unnamed/part_000], a shorter variant of the same
    translator with the rules for [Program] and for the comment only. *)
Definition printPath_part_000 (path : Path) (options : Options)
    (print : Path -> result Doc) : result Doc :=
  let n := getValue path in
  if negb (truthy n) then Ok (txt "")
  else
    match n with
    | VStr s => Ok (Text s)
    | _ =>
      let t := getField n "type" in
      if caseOf t ["Program"] then
        printChildren "body" path print
      else if caseOf t ["MustacheCommentStatement"] then
        let! value := asString (getField n "value") in
        let text := JSString.trim value in
        let hasBraces :=
          JSString.includes text (lit "{{")
          || JSString.includes text (lit "}}") in
        let open := if hasBraces then txt "{{!--" else txt "{{!" in
        let close := if hasBraces then txt "--}}" else txt "}}" in
        Ok (group (concat [open; line; Text text; line; close]))
      else
        Err (UnsupportedHandlebarsType t)
    end.

(** The translator applied to a whole tree: the [print] it hands to
    itself is the translator again. [fuel] bounds the depth. *)
Fixpoint printAll (options : Options) (fuel : nat) (path : Path)
  : result Doc :=
  match fuel with
  | O => Err OutOfFuel
  | S fuel' => printPath path options (printAll options fuel')
  end.

End Printer.

End Handlebars.

(** * The JavaScript translator, [src/printer.js] *)

(** The collaborators of the translator that are not among the sources. *)
Record Externals : Type := mkExternals {
  (** [ast-types]: whether its registry defines a node kind of this name *)
  namedTypes : jsstring -> bool;
  (** [fast-path.js] *)
  needsParens : Path -> bool;
  (** [util.js] *)
  getParentExportDeclaration : Path -> value;
  isExportDeclaration : value -> bool;
  (** [comments.js] *)
  printComments : Path -> (Path -> result Doc) -> result Doc;
  (** the renderer, [pp.print] *)
  pp_print : Z -> Doc -> result value;
  (** the methods [Printer.print] calls on what it printed, and [util.js] *)
  lines_toString : Doc -> Options -> result value;
  lines_getSourceMap : Doc -> value -> value -> result value;
  composeSourceMaps : value -> value -> result value;
  (** the rules of [genericPrintNoParens] that are not embedded below, by
      node kind *)
  otherRules : value -> Path -> Options -> (Path -> result Doc) -> result Doc
}.

Record PrintResult : Type := mkPrintResult {
  code : jsstring;
  map : option value
}.

Module Printer.

(** [pp.indent(n, contents)]. *)
Definition indent (n : Z) (d : Doc) : Doc := Indent (Some n) d.

(** [pp.fromString] ([pp.js] is not among the sources): the conversion of
    what a node field holds to text. *)
Definition fromString (js : Engine) (v : value) : Doc := Text (ToString js v).

(** [builtInTypes.object.check]. *)
Definition isObject (v : value) : bool :=
  match v with
  | VArr _ | VObj _ => true
  | _ => false
  end.

Definition new_PrintResult (code sourceMap : value) : result PrintResult :=
  let! code := match code with
               | VStr s => Ok s
               | _ => Err (TypeAssertion "string")
               end in
  if truthy sourceMap then
    if isObject sourceMap then Ok (mkPrintResult code (Some sourceMap))
    else Err (TypeAssertion "object")
  else Ok (mkPrintResult code None).

Definition emptyPrintResult : result PrintResult :=
  new_PrintResult (VStr (lit "")) VUndef.

(** The kinds with a rule that is left to [otherRules]. The rules of the
    method kinds among them write to the node; they are the subject of
    module [Store]. *)
Definition otherKinds : list string :=
  ["Program"; "ParenthesizedExpression"; "AssignmentExpression";
   "BinaryExpression"; "LogicalExpression"; "AssignmentPattern";
   "MemberExpression"; "MetaProperty"; "BindExpression"; "Path";
   "Identifier"; "SpreadElement"; "SpreadElementPattern"; "RestProperty";
   "SpreadProperty"; "SpreadPropertyPattern"; "RestElement";
   "FunctionDeclaration"; "FunctionExpression"; "ArrowFunctionExpression";
   "MethodDefinition"; "YieldExpression"; "AwaitExpression";
   "ModuleDeclaration"; "ImportSpecifier"; "ExportSpecifier";
   "ExportBatchSpecifier"; "ImportNamespaceSpecifier";
   "ImportDefaultSpecifier"; "ExportDeclaration";
   "ExportDefaultDeclaration"; "ExportNamedDeclaration";
   "ExportAllDeclaration"; "ExportNamespaceSpecifier";
   "ExportDefaultSpecifier"; "BlockStatement"; "ReturnStatement";
   "PropertyPattern"; "ObjectProperty"; "Property"; "ClassMethod";
   "ObjectMethod"; "Decorator"; "ArrayExpression"; "ArrayPattern";
   "SequenceExpression"; "ThisExpression"; "Super"; "NullLiteral";
   "RegExpLiteral"; "UnaryExpression"; "UpdateExpression";
   "ConditionalExpression"; "WithStatement"; "IfStatement"; "ForStatement";
   "WhileStatement"; "ForInStatement"; "ForOfStatement";
   "ForAwaitStatement"; "DoWhileStatement"; "DoExpression";
   "BreakStatement"; "ContinueStatement"; "LabeledStatement";
   "TryStatement"; "CatchClause"; "ThrowStatement"; "SwitchStatement";
   "SwitchCase"; "DebuggerStatement"; "JSXAttribute"; "JSXIdentifier";
   "JSXNamespacedName"; "JSXMemberExpression"; "JSXSpreadAttribute";
   "JSXExpressionContainer"; "JSXElement"; "JSXOpeningElement";
   "JSXClosingElement"; "JSXText"; "JSXEmptyExpression";
   "TypeAnnotatedIdentifier"; "ClassBody"; "ClassPropertyDefinition";
   "ClassProperty"; "ClassDeclaration"; "ClassExpression";
   "TemplateElement"; "TemplateLiteral"; "TaggedTemplateExpression";
   "CommentBlock"; "Block"; "CommentLine"; "Line"; "TypeAnnotation";
   "TupleTypeAnnotation"; "ExistentialTypeParam"; "ExistsTypeAnnotation";
   "EmptyTypeAnnotation"; "AnyTypeAnnotation"; "MixedTypeAnnotation";
   "ArrayTypeAnnotation"; "BooleanTypeAnnotation";
   "NumericLiteralTypeAnnotation"; "BooleanLiteralTypeAnnotation";
   "DeclareClass"; "DeclareFunction"; "DeclareModule";
   "DeclareModuleExports"; "DeclareVariable";
   "DeclareExportAllDeclaration"; "DeclareExportDeclaration";
   "FunctionTypeAnnotation"; "FunctionTypeParam"; "GenericTypeAnnotation";
   "DeclareInterface"; "InterfaceDeclaration"; "ClassImplements";
   "InterfaceExtends"; "IntersectionTypeAnnotation";
   "NullableTypeAnnotation"; "NullLiteralTypeAnnotation";
   "ThisTypeAnnotation"; "NumberTypeAnnotation"; "ObjectTypeCallProperty";
   "ObjectTypeIndexer"; "ObjectTypeProperty"; "QualifiedTypeIdentifier";
   "StringLiteralTypeAnnotation"; "NumberLiteralTypeAnnotation";
   "StringTypeAnnotation"; "DeclareTypeAlias"; "TypeAlias";
   "TypeCastExpression"; "TypeParameterDeclaration";
   "TypeParameterInstantiation"; "TypeParameter"; "TypeofTypeAnnotation";
   "UnionTypeAnnotation"; "VoidTypeAnnotation"; "NullTypeAnnotation";
   "InferredPredicate"; "DeclaredPredicate"].

(** The kinds whose rule is embedded in [genericPrintNoParens] below. *)
Definition embeddedKinds : list string :=
  ["File"; "Noop"; "EmptyStatement"; "ExpressionStatement";
   "ImportDeclaration"; "CallExpression"; "ObjectExpression"; "ObjectPattern";
   "ObjectTypeAnnotation"; "BooleanLiteral"; "NumericLiteral";
   "StringLiteral"; "Literal"; "Directive"; "DirectiveLiteral";
   "ModuleSpecifier"; "NewExpression"; "VariableDeclaration";
   "VariableDeclarator"].

(** The dispatch table: every kind with a rule that builds a document. *)
Definition ruleKinds : list string := embeddedKinds ++ otherKinds.

(** The abstract supertypes, which have a [case] that throws. *)
Definition abstractKinds : list string :=
  ["Node"; "Printable"; "SourceLocation"; "Position"; "Statement";
   "Function"; "Pattern"; "Expression"; "Declaration"; "Specifier";
   "NamedSpecifier"; "Comment"; "MemberTypeAnnotation"; "Type"].

Definition swapQuotes (str : jsstring) : jsstring :=
  (fun m => if m =? DQUOTE then SQUOTE
            else if m =? SQUOTE then DQUOTE
            else m) <$> str.

(** *** The shape of an import clause *)

Definition isNamedSpecifier (v : value) : Prop :=
  getField v "type" = VStr (lit "ImportSpecifier").

Definition isDefaultOrNamespace (v : value) : Prop :=
  getField v "type" = VStr (lit "ImportDefaultSpecifier")
  \/ getField v "type" = VStr (lit "ImportNamespaceSpecifier").

(** A default or namespace specifier stands after a named one. *)
Definition misordered (l : list value) : Prop :=
  exists l1 n l2 d l3,
    l = l1 ++ n :: l2 ++ d :: l3
    /\ isNamedSpecifier n /\ isDefaultOrNamespace d.

(** The separator before the item of index [k]. *)
Definition sepAt (k : nat) : list Doc :=
  match k with
  | O => []
  | S _ => [txt ", "]
  end.

(** Items, each a run of parts, separated by commas; the first item has
    index [k]. *)
Fixpoint commaFrom (k : nat) (items : list (list Doc)) : list Doc :=
  match items with
  | [] => []
  | item :: items' => sepAt k ++ item ++ commaFrom (S k) items'
  end.

(** The specifiers of an import: the default and namespace ones bare, then
    the named ones between one pair of braces. *)
Definition importClause (leftBrace rightBrace : Doc) (bare named : list Doc)
  : list Doc :=
  commaFrom 0
    (((fun d => [d]) <$> bare)
     ++ match named with
        | [] => []
        | first :: others => [leftBrace; first] :: ((fun d => [d]) <$> others)
        end)
  ++ match named with
     | [] => []
     | _ :: _ => [rightBrace]
     end.

Section Translator.

Context (js : Engine) (ext : Externals).

(** [namedTypes.X.check(v)]; reading [check] of a kind the registry
    lacks throws. *)
Definition check (X : string) (v : value) : result bool :=
  if namedTypes ext (lit X) then Ok (isStr (getField v "type") X)
  else Err TypeError.

(** [namedTypes.X && namedTypes.X.check(v)]. *)
Definition checkIfDefined (X : string) (v : value) : bool :=
  namedTypes ext (lit X) && isStr (getField v "type") X.

(** [namedTypes.Node.check(v)]: an object whose [type] names a kind of
    the registry. *)
Definition Node_check (v : value) : bool :=
  match getField v "type" with
  | VStr t => namedTypes ext t
  | _ => false
  end.

(** Modelled from the spec: [getNode] and [getParentNode] of
    [fast-path.js], the nearest enclosing nodes; values on the stack
    that are no nodes (lists, scalars) are passed over. *)
Definition getNodeHelper (path : Path) (count : nat) : value :=
  nth count (List.filter Node_check (stackValues path)) VNull.

Definition getNode (path : Path) : value := getNodeHelper path 0.
Definition getParentNode (path : Path) : value := getNodeHelper path 1.

Definition nodeStr (str : value) (options : Options) : result jsstring :=
  let! str := match str with
              | VStr s => Ok s
              | _ => Err (TypeAssertion "string")
              end in
  let stringify := JSON.stringify (wellFormedStringify js) in
  if isStr (quote options) "auto" then
    let double := stringify str in
    let single := swapQuotes (stringify (swapQuotes str)) in
    Ok (if (length single <? length double)%nat then single else double)
  else if isStr (quote options) "single" then
    Ok (swapQuotes (stringify (swapQuotes str)))
  else
    Ok (stringify str).

(** The function also asks [util.isTrailingCommaEnabled] for a flag that
    it does not use. *)
Definition printArgumentsList (path : Path) (options : Options)
    (print : Path -> result Doc) : result Doc :=
  let! printed := map_ path print ["arguments"] in
  let args :=
    if Nat.eqb (length printed) 0 then txt ""
    else if Nat.eqb (length printed) 1
            && firstStringIs (nth 0 printed (txt "")) "{"
    then
      nth 0 printed (txt "")
    else
      concat [
        indent (tabWidth options)
          (concat [softline; join (concat [txt ","; line]) printed]);
        softline
      ] in
  Ok (multilineGroup (concat [txt "("; args; txt ")"])).

(** The callback of [path.each] in the [ImportDeclaration] rule, run
    over the specifier paths in order; [found] is
    [foundImportSpecifier]. *)
Fixpoint importSpecifiers (options : Options) (print : Path -> result Doc)
    (specifierPaths : list Path) (found : bool) (parts : list Doc)
  : result (bool * list Doc) :=
  match specifierPaths with
  | [] => Ok (found, parts)
  | specifierPath :: rest =>
      let parts :=
        match getName specifierPath with
        | Some (Index (S _)) => parts ++ [txt ", "]
        | _ => parts
        end in
      let value := getValue specifierPath in
      let! isDefault := check "ImportDefaultSpecifier" value in
      let! isDefaultOrNamespace :=
        if isDefault then Ok true
        else check "ImportNamespaceSpecifier" value in
      let! state :=
        if isDefaultOrNamespace then
          if found then Err AssertionError else Ok (found, parts)
        else
          let! isNamed := check "ImportSpecifier" value in
          if isNamed then
            if found then Ok (found, parts)
            else Ok (true, parts ++
                       [if objectCurlySpacing options then txt "{ " else txt "{"])
          else Err (TypeAssertion "ImportSpecifier") in
      let! printed := print specifierPath in
      importSpecifiers options print rest (fst state) (snd state ++ [printed])
  end.

Definition genericPrintNoParens (path : Path) (options : Options)
    (print : Path -> result Doc) : result Doc :=
  let n := getValue path in
  if negb (truthy n) then Ok (txt "")
  else
    match n with
    | VStr s => Ok (Text s)
    | _ =>
      let t := getField n "type" in
      if caseOf t ["File"] then
        call path print ["program"]

      else if caseOf t ["Noop"; "EmptyStatement"] then
        Ok (txt "")

      else if caseOf t ["ExpressionStatement"] then
        let! expression := call path print ["expression"] in
        Ok (concat [expression; txt ";"])

      else if caseOf t ["ImportDeclaration"] then
        let parts := [txt "import "] in
        let importKind := getField n "importKind" in
        let parts :=
          if truthy importKind && negb (isStr importKind "value")
          then parts ++ [Text (ToString js importKind ++ lit " ")]
          else parts in
        let specifiers := getField n "specifiers" in
        let! some :=
          if truthy specifiers then
            let! len := lengthOf specifiers in Ok (lengthPositive js len)
          else Ok false in
        let! parts :=
          if some then
            let! q := descend path ["specifiers"] in
            let! l := asList (getValue q) in
            let! state :=
              importSpecifiers options print (elementPaths q l) false parts in
            let parts :=
              if fst state
              then snd state ++
                     [if objectCurlySpacing options then txt " }" else txt "}"]
              else snd state in
            Ok (parts ++ [txt " from "])
          else Ok parts in
        let! source := call path print ["source"] in
        Ok (concat (parts ++ [source; txt ";"]))

      else if caseOf t ["CallExpression"] then
        let! callee := call path print ["callee"] in
        let! arguments := printArgumentsList path options print in
        Ok (concat [callee; arguments])

      else if caseOf t ["ObjectExpression"; "ObjectPattern";
                        "ObjectTypeAnnotation"] then
        let isTypeAnnotation := isStr t "ObjectTypeAnnotation" in
        let separator := if isTypeAnnotation then txt ";" else txt "," in
        let leftBrace := if truthy (getField n "exact") then txt "{|" else txt "{" in
        let rightBrace := if truthy (getField n "exact") then txt "|}" else txt "}" in
        let fields :=
          (if isTypeAnnotation then ["indexers"; "callProperties"] else [])
          ++ ["properties"] in
        let! groups :=
          mapM (fun field =>
                  map_ path (fun childPath =>
                               let! printed := print childPath in
                               Ok (group printed)) [field]) fields in
        let props := List.concat groups in
        if bool_decide (length props = 0%nat) then Ok (txt "{}")
        else
          let! typeAnnotation := call path print ["typeAnnotation"] in
          Ok (multilineGroup (concat [
            leftBrace;
            indent (tabWidth options)
              (concat [line; join (concat [separator; line]) props]);
            line;
            rightBrace;
            typeAnnotation
          ]))

      else if caseOf t ["BooleanLiteral"; "NumericLiteral"; "StringLiteral";
                        "Literal"] then
        match getField n "value" with
        | VStr _ as v => let! s := nodeStr v options in Ok (Text s)
        | v => Ok (fromString js v)
        end

      else if caseOf t ["Directive"] then
        call path print ["value"]

      else if caseOf t ["DirectiveLiteral"] then
        let! s := nodeStr (getField n "value") options in
        Ok (fromString js (VStr s))

      else if caseOf t ["ModuleSpecifier"] then
        if truthy (getField n "local") then Err ModuleSpecifierAbstract
        else
          let! s := nodeStr (getField n "value") options in
          Ok (fromString js (VStr s))

      else if caseOf t ["NewExpression"] then
        let! callee := call path print ["callee"] in
        let parts := [txt "new "; callee] in
        if truthy (getField n "arguments") then
          let! arguments := printArgumentsList path options print in
          Ok (concat (parts ++ [arguments]))
        else Ok (concat parts)

      else if caseOf t ["VariableDeclaration"] then
        let! printed := map_ path print ["declarations"] in
        let parentNode := getParentNode path in
        let! isFor := check "ForStatement" parentNode in
        let! isForIn :=
          if isFor then Ok true else check "ForInStatement" parentNode in
        let inLoopHead :=
          isForIn
          || checkIfDefined "ForOfStatement" parentNode
          || checkIfDefined "ForAwaitStatement" parentNode in
        let! kind := asDoc (getField n "kind") in
        let! first := match printed with
                      | p :: _ => Ok p
                      | [] => Err InvalidDocument
                      end in
        let parts := [
          kind;
          txt " ";
          first;
          indent (tabWidth options)
            (concat ((fun p => concat [txt ","; line; p]) <$> tail printed))
        ] in
        let parts := if inLoopHead then parts else parts ++ [txt ";"] in
        Ok (multilineGroup (concat parts))

      else if caseOf t ["VariableDeclarator"] then
        if truthy (getField n "init") then
          let! id := call path print ["id"] in
          let! init := call path print ["init"] in
          Ok (concat [id; txt " = "; init])
        else call path print ["id"]

      else if caseOf t otherKinds then
        otherRules ext t path options print

      else if caseOf t abstractKinds then
        Err (UnprintableType t)

      else
        Err (UnknownType t)
    end.

Definition genericPrint (path : Path) (options : Options)
    (printPath : Path -> result Doc) : result Doc :=
  let node := getValue path in
  let! linesWithoutParens := genericPrintNoParens path options printPath in
  if negb (truthy node) || isEmpty linesWithoutParens
  then Ok linesWithoutParens
  else
    let withLine (printed : list Doc) : list Doc :=
      flat_map (fun d => [d; line]) printed in
    let decorators := getField node "decorators" in
    let! own :=
      if truthy decorators then
        let! len := lengthOf decorators in
        Ok (lengthPositive js len
            && negb (truthy (getParentExportDeclaration ext path)))
      else Ok false in
    if own then
      let! printed := map_ path printPath ["decorators"] in
      Ok (concat (withLine printed ++ [linesWithoutParens]))
    else
      let declaration := getField node "declaration" in
      let! exported :=
        if isExportDeclaration ext node && truthy declaration then
          let! d := getProp declaration "decorators" in Ok (truthy d)
        else Ok false in
      if exported then
        let! printed := map_ path printPath ["declaration"; "decorators"] in
        Ok (concat (withLine printed ++ [linesWithoutParens]))
      else if needsParens ext path then
        Ok (concat [txt "("; linesWithoutParens; txt ")"])
      else
        Ok (concat [linesWithoutParens]).

(** ** The [Printer] object

    [options] is the normalized configuration and [explicitTabWidth]
    what the constructor read from the caller's. The recursion of
    [print] through the callback it passes on is bounded by [fuel]. *)
Section PrinterObject.

Context (explicitTabWidth : value) (options : Options).

Fixpoint printWithComments (fuel : nat) (path : Path) : result Doc :=
  match fuel with
  | O => Err OutOfFuel
  | S fuel' =>
      let printRootGenerically (p : Path) : result Doc :=
        genericPrint p options (printWithComments fuel') in
      let maybeReprint := printRootGenerically in
      let print (p : Path) : result Doc :=
        if negb (truthy explicitTabWidth) then
          let! loc := getProp (getNode p) "loc" in
          let lines := getField loc "lines" in
          if truthy loc && truthy lines
             && truthy (getField lines "guessTabWidth")
          then
            (* the field holds data, and calling it throws *)
            Err TypeError
          else maybeReprint p
        else maybeReprint p in
      printComments ext path print
  end.

Fixpoint printGenerically (fuel : nat) (path : Path) : result Doc :=
  match fuel with
  | O => Err OutOfFuel
  | S fuel' =>
      printComments ext path
        (fun p => genericPrint p options (printGenerically fuel'))
  end.

Definition Printer_print (fuel : nat) (ast : value) : result PrintResult :=
  if negb (truthy ast) then emptyPrintResult
  else
    let! lines := printWithComments fuel (FastPath_from ast) in
    let! code := lines_toString ext lines options in
    let! generated :=
      lines_getSourceMap ext lines (sourceMapName options)
        (sourceRoot options) in
    let! composed := composeSourceMaps ext (inputSourceMap options) generated in
    new_PrintResult code composed.

Definition Printer_printGenerically (fuel : nat) (ast : value)
  : result PrintResult :=
  if negb (truthy ast) then emptyPrintResult
  else
    let path := FastPath_from ast in
    let! res := printGenerically fuel path in
    let! text := pp_print ext (wrapColumn options) res in
    new_PrintResult text VUndef.

End PrinterObject.

End Translator.

End Printer.

(** * [printMethod] over an object store

    [printMethod] assigns to a field of the node it prints, so here the
    nodes live in a store and a value that is an object is a reference into
    it. A computation takes the store and returns it with its result; what
    was written before an exception stays written. *)

Module Store.

Definition loc := positive.

Inductive sval : Type :=
| SUndef
| SNull
| SBool (b : bool)
| SNum (x : float)
| SStr (s : jsstring)
| SRef (l : loc).

Inductive object : Type :=
| Obj (fields : gmap (list N) sval)
| Arr (elements : list sval).

Definition store := gmap loc object.

Definition M (A : Type) : Type := store -> result A * store.

Definition ret {A} (a : A) : M A := fun σ => (Ok a, σ).
Definition throw {A} (e : error) : M A := fun σ => (Err e, σ).

Definition bindM {A B} (m : M A) (k : A -> M B) : M B :=
  fun σ =>
    match m σ with
    | (Ok a, σ') => k a σ'
    | (Err e, σ') => (Err e, σ')
    end.

Notation "'let*' x ':=' m 'in' k" := (bindM m (fun x => k))
  (at level 10, x name, m at level 100, k at level 200).

Fixpoint mapM_ {A B} (f : A -> M B) (l : list A) : M (list B) :=
  match l with
  | [] => ret []
  | a :: l' => let* b := f a in let* bs := mapM_ f l' in ret (b :: bs)
  end.

Definition truthy (v : sval) : bool :=
  match v with
  | SUndef | SNull => false
  | SBool b => b
  | SNum x => negb (PrimFloat.is_zero x || PrimFloat.is_nan x)
  | SStr s => negb (bool_decide (s = []))
  | SRef _ => true
  end.

Definition isStr (v : sval) (s : string) : bool :=
  match v with
  | SStr t => jseqb t (lit s)
  | _ => false
  end.

(** [v.k] in the store [σ], for a field of a node. *)
Definition fieldOf (σ : store) (v : sval) (k : string) : sval :=
  match v with
  | SRef l =>
      match σ !! l with
      | Some (Obj fs) => default SUndef (fs !! lit k)
      | _ => SUndef
      end
  | _ => SUndef
  end.

Definition getField (v : sval) (k : string) : M sval :=
  fun σ => (Ok (fieldOf σ v k), σ).

(** [v.k] where [v] may be [undefined] or [null]. *)
Definition getProp (v : sval) (k : string) : M sval :=
  match v with
  | SUndef | SNull => throw TypeError
  | _ => getField v k
  end.

(** [v.k = w]. *)
Definition setField (v : sval) (k : string) (w : sval) : M unit :=
  fun σ =>
    match v with
    | SUndef | SNull => (Err TypeError, σ)
    | SRef l =>
        match σ !! l with
        | Some (Obj fs) => (Ok tt, <[l := Obj (<[lit k := w]> fs)]> σ)
        | _ => (Ok tt, σ)
        end
    | _ => (Ok tt, σ)
    end.

Definition elementsOf (v : sval) : M (list sval) :=
  fun σ =>
    match v with
    | SRef l =>
        match σ !! l with
        | Some (Arr elements) => (Ok elements, σ)
        | _ => (Err TypeError, σ)
        end
    | _ => (Err TypeError, σ)
    end.

(** Paths, as in the tree model. *)
Record Path : Type := mkPath {
  root : sval;
  frames : list (name * sval)
}.

Definition getValue (p : Path) : sval :=
  match frames p with
  | (_, v) :: _ => v
  | [] => root p
  end.

Definition getName (p : Path) : option name :=
  match frames p with
  | (k, _) :: _ => Some k
  | [] => None
  end.

Definition push (p : Path) (k : name) (v : sval) : Path :=
  mkPath (root p) ((k, v) :: frames p).

Fixpoint descend (p : Path) (names : list string) : M Path :=
  match names with
  | [] => ret p
  | k :: names' =>
      let* v := getProp (getValue p) k in
      descend (push p (Field k) v) names'
  end.

Definition call {A} (p : Path) (fn : Path -> M A) (names : list string) : M A :=
  let* q := descend p names in fn q.

Definition elementPaths (q : Path) (l : list sval) : list Path :=
  imap (fun i v => push q (Index i) v) l.

Definition map_ {A} (p : Path) (fn : Path -> M A) (names : list string)
  : M (list A) :=
  let* q := descend p names in
  let* l := elementsOf (getValue q) in
  mapM_ fn (elementPaths q l).

Definition stackValues (p : Path) : list sval :=
  (snd <$> frames p) ++ [root p].

Section PrintMethod.

Context (ext : Externals).

Definition Node_check (σ : store) (v : sval) : bool :=
  match fieldOf σ v "type" with
  | SStr t => namedTypes ext t
  | _ => false
  end.

Definition getNode (path : Path) : M sval :=
  fun σ => (Ok (nth 0 (List.filter (Node_check σ) (stackValues path)) SNull), σ).

(** [namedTypes.FunctionExpression.assert(v)]. *)
Definition assertFunctionExpression (v : sval) : M unit :=
  if namedTypes ext (lit "FunctionExpression") then
    let* t := getField v "type" in
    if isStr t "FunctionExpression" then ret tt
    else throw (TypeAssertion "FunctionExpression")
  else throw TypeError.

(** The callback of [path.each] over [defaults] in
    [printFunctionParams]: [i] is the index of the default. *)
Fixpoint printDefaults (print : Path -> M Doc) (defaults : list Path)
    (printed : list Doc) : M (list Doc) :=
  match defaults with
  | [] => ret printed
  | defExprPath :: rest =>
      match getName defExprPath with
      | Some (Index i) =>
          match printed !! i with
          | Some p =>
              if negb (isEmpty p) && truthy (getValue defExprPath) then
                let* d := print defExprPath in
                printDefaults print rest
                  (<[i := concat [p; txt " = "; d]]> printed)
              else printDefaults print rest printed
          | None => printDefaults print rest printed
          end
      | _ => printDefaults print rest printed
      end
  end.

Definition printFunctionParams (path : Path) (print : Path -> M Doc)
  : M Doc :=
  let fun_ := getValue path in
  let* printed := map_ path print ["params"] in
  let* defaults := getProp fun_ "defaults" in
  let* printed :=
    if truthy defaults then
      let* q := descend path ["defaults"] in
      let* l := elementsOf (getValue q) in
      printDefaults print (elementPaths q l) printed
    else ret printed in
  let* rest := getField fun_ "rest" in
  let* printed :=
    if truthy rest then
      let* r := call path print ["rest"] in
      ret (printed ++ [concat [txt "..."; r]])
    else ret printed in
  ret (group (join (concat [txt ","; line]) printed)).

Definition printReturnType (path : Path) (print : Path -> M Doc) : M Doc :=
  let n := getValue path in
  let* returnType := call path print ["returnType"] in
  let* predicate := getField n "predicate" in
  if truthy predicate then
    let* rt := getField n "returnType" in
    let* printedPredicate := call path print ["predicate"] in
    ret (concat [returnType;
                 if truthy rt then txt " " else txt ": ";
                 printedPredicate])
  else ret (concat [returnType]).

Definition printMethod (path : Path) (options : Options)
    (print : Path -> M Doc) : M Doc :=
  let* node := getNode path in
  let* kind := getProp node "kind" in
  let* type := getField node "type" in
  let* _ :=
    if isStr type "ObjectMethod" || isStr type "ClassMethod" then
      setField node "value" node
    else
      let* value := getField node "value" in
      assertFunctionExpression value in
  let* value := getField node "value" in
  let* async := getProp value "async" in
  let parts := if truthy async then [txt "async "] else [] in
  let* parts :=
    if negb (truthy kind) || isStr kind "init" || isStr kind "method"
       || isStr kind "constructor"
    then
      let* generator := getField value "generator" in
      ret (if truthy generator then parts ++ [txt "*"] else parts)
    else if isStr kind "get" || isStr kind "set" then
      ret (parts ++ [match kind with SStr s => Text s | _ => txt "" end;
                     txt " "])
    else throw AssertionError in
  let* key := call path print ["key"] in
  let* computed := getField node "computed" in
  let key := if truthy computed then concat [txt "["; key; txt "]"] else key in
  let* typeParameters := call path print ["value"; "typeParameters"] in
  let* params := call path (fun valuePath => printFunctionParams valuePath print)
                   ["value"] in
  let* returnType := call path (fun p => printReturnType p print) ["value"] in
  let* body := call path print ["value"; "body"] in
  ret (concat (parts ++ [key; typeParameters; txt "("; params; txt ")";
                         returnType; txt " "; body])).

Definition printObjectMethod (path : Path) (options : Options)
    (print : Path -> M Doc) : M Doc :=
  let objMethod := getValue path in
  let* async := getProp objMethod "async" in
  let parts := if truthy async then [txt "async "] else [] in
  let* generator := getField objMethod "generator" in
  let parts := if truthy generator then parts ++ [txt "*"] else parts in
  let* method := getField objMethod "method" in
  let* kind := getField objMethod "kind" in
  if truthy method || isStr kind "get" || isStr kind "set" then
    printMethod path options print
  else
    let* key := call path print ["key"] in
    let* computed := getField objMethod "computed" in
    let parts :=
      if truthy computed then parts ++ [txt "["; key; txt "]"]
      else parts ++ [key] in
    let* params := printFunctionParams path print in
    let* returnType := printReturnType path print in
    let* body := call path print ["body"] in
    ret (concat (parts ++ [txt "("; params; txt ")"; returnType; txt " ";
                           body])).

End PrintMethod.

(** The kinds whose [value] field [printMethod] assigns. *)
Definition isMethodKind (fs : gmap (list N) sval) : Prop :=
  fs !! lit "type" = Some (SStr (lit "ObjectMethod"))
  ∨ fs !! lit "type" = Some (SStr (lit "ClassMethod")).

(** [σ'] differs from [σ] at most in that some nodes of kind
    [ObjectMethod] or [ClassMethod] have themselves as [value]. *)
Definition onlyMethodValues (σ σ' : store) : Prop :=
  ∀ l : loc,
    σ' !! l = σ !! l
    ∨ ∃ fs, σ !! l = Some (Obj fs) ∧ isMethodKind fs
            ∧ σ' !! l = Some (Obj (<[lit "value" := SRef l]> fs)).

(** A computation that writes nothing else. *)
Definition preserves {A} (m : M A) : Prop :=
  ∀ σ : store, onlyMethodValues σ (m σ).2.

(** A callback that writes nothing else. *)
Definition respects (print : Path -> M Doc) : Prop :=
  ∀ p : Path, preserves (print p).

End Store.

(** * Sample inputs *)

Module Sample.

Definition js : Engine := mkEngine true (fun _ => lit "NaN") (fun _ => PrimFloat.nan).

Definition options : Options :=
  mkOptions 2 80 (VStr (lit "auto")) true VUndef VUndef VUndef.

(** A registry that knows every kind, a translator without comments,
    decorators or parentheses. *)
Definition ext : Externals :=
  mkExternals (fun _ => true) (fun _ => false) (fun _ => VNull)
    (fun _ => false) (fun path print => print path)
    (fun _ _ => Ok (VStr [])) (fun _ _ => Ok (VStr []))
    (fun _ _ _ => Ok VUndef) (fun _ _ => Ok VUndef)
    (fun _ _ _ _ => Ok (txt "")).

Definition node (kind : string) (fields : list (string * value)) : value :=
  VObj ((lit "type", VStr (lit kind))
        :: ((fun kv => (lit kv.1, kv.2)) <$> fields)).

Definition str (s : string) : value := VStr (lit s).

(** [{{! a {{b}} }}] *)
Definition comment : value :=
  node "MustacheCommentStatement" [("value", str " a {{b}} ")].

(** [<br>x</br>] as the parser records it, with [name] set as well. *)
Definition brWithChild : value :=
  node "ElementNode"
    [("tag", str "br"); ("name", str "br"); ("attributes", VArr []);
     ("children", VArr [node "TextNode" [("chars", str "x")]])].

(** [<br>] *)
Definition br : value :=
  node "ElementNode"
    [("tag", str "br"); ("name", str "br"); ("attributes", VArr []);
     ("children", VArr [])].

(** [for await (const x of xs) ...] and the declaration in its head. *)
Definition declaration : value :=
  node "VariableDeclaration"
    [("kind", str "const");
     ("declarations",
      VArr [node "VariableDeclarator" [("id", node "Identifier" [("name", str "x")])]])].

Definition forAwait : value :=
  node "ForAwaitStatement"
    [("left", declaration);
     ("right", node "Identifier" [("name", str "xs")]);
     ("body", node "EmptyStatement" [])].

Definition inForAwait : Path :=
  push (FastPath_from forAwait) (Field "left") declaration.

(** The same declaration as a statement of a program. *)
Definition inProgram : Path :=
  push (push (FastPath_from (node "Program" [("body", VArr [declaration])]))
          (Field "body") (VArr [declaration]))
    (Index 0) declaration.

(** A callback that prints a string as itself and a node as its [name]. *)
Definition printName (p : Path) : result Doc :=
  match getValue p with
  | VStr s => Ok (Text s)
  | v => asDoc (getField v "name")
  end.

Definition defaultSpecifier (name : string) : value :=
  node "ImportDefaultSpecifier" [("name", str name)].

Definition namedSpecifier (name : string) : value :=
  node "ImportSpecifier" [("name", str name)].

(** [import Foo, { a, b } from "m";] *)
Definition importOrdered : value :=
  node "ImportDeclaration"
    [("specifiers",
      VArr [defaultSpecifier "Foo"; namedSpecifier "a"; namedSpecifier "b"]);
     ("source", str "m")].

(** The same specifiers with the default one last. *)
Definition importMisordered : value :=
  node "ImportDeclaration"
    [("specifiers",
      VArr [namedSpecifier "a"; namedSpecifier "b"; defaultSpecifier "Foo"]);
     ("source", str "m")].

(** [{ m() {} }]'s method in a store: the node, its key, its parameter list
    and its body. *)
Definition methodStore : Store.store :=
  {[ 1%positive :=
       Store.Obj {[ lit "type" := Store.SStr (lit "ObjectMethod");
                    lit "kind" := Store.SStr (lit "method");
                    lit "method" := Store.SBool true;
                    lit "key" := Store.SRef 2%positive;
                    lit "params" := Store.SRef 3%positive;
                    lit "body" := Store.SRef 4%positive ]};
     2%positive :=
       Store.Obj {[ lit "type" := Store.SStr (lit "Identifier");
                    lit "name" := Store.SStr (lit "m") ]};
     3%positive := Store.Arr [];
     4%positive :=
       Store.Obj {[ lit "type" := Store.SStr (lit "BlockStatement");
                    lit "body" := Store.SRef 5%positive ]};
     5%positive := Store.Arr [] ]}.

Definition methodPath : Store.Path := Store.mkPath (Store.SRef 1%positive) [].

(** A callback that reads the store and writes nothing. *)
Definition printKind (p : Store.Path) : Store.M Doc :=
  fun σ =>
    (Ok (match Store.fieldOf σ (Store.getValue p) "type" with
         | Store.SStr s => Text s
         | _ => txt ""
         end), σ).

End Sample.

(** * More of the translators

    Functions and rules of [src/printer.js] beyond those above, and what
    the statements about them need. *)

(** [s.split(sep)] for a separator of one code unit: the segments between
    its occurrences, one more than there are occurrences. *)
Fixpoint split (sep : N) (s : jsstring) : list jsstring :=
  match s with
  | [] => [[]]
  | c :: s' =>
      if c =? sep then [] :: split sep s'
      else
        match split sep s' with
        | segment :: segments => (c :: segment) :: segments
        | [] => [[c]]
        end
  end.

(** The segments put together again around the separator. *)
Fixpoint joinWith (sep : N) (segments : list jsstring) : jsstring :=
  match segments with
  | [] => []
  | [segment] => segment
  | segment :: segments' => segment ++ sep :: joinWith sep segments'
  end.

(** Text in which white space occurs only as single plain spaces;
    [afterSpace] tells that the unit before the text is a space. *)
Fixpoint singleSpaced (afterSpace : bool) (s : jsstring) : bool :=
  match s with
  | [] => true
  | c :: s' =>
      if JSString.isSpace c
      then (c =? 32) && negb afterSpace && singleSpaced true s'
      else singleSpaced false s'
  end.

(** The units of a text that are no white space. *)
Definition inkOf (s : jsstring) : jsstring :=
  List.filter (fun c => negb (JSString.isSpace c)) s.

(** The height of a tree of values. *)
Fixpoint depth (v : value) : nat :=
  match v with
  | VArr l =>
      S ((fix deepest (l : list value) : nat :=
            match l with
            | [] => 0%nat
            | x :: l' => Nat.max (depth x) (deepest l')
            end) l)
  | VObj fs =>
      S ((fix deepest (fs : list (jsstring * value)) : nat :=
            match fs with
            | [] => 0%nat
            | (_, x) :: fs' => Nat.max (depth x) (deepest fs')
            end) fs)
  | _ => 0%nat
  end.

(** A run that did not stop for want of fuel. *)
Definition fueled {A} (r : result A) : Prop := r <> Err OutOfFuel.

(** [r2] is what [r1] is, unless [r1] stopped for want of fuel. *)
Definition refines {A} (r1 r2 : result A) : Prop :=
  r1 = Err OutOfFuel \/ r1 = r2.

(** ** Export declarations *)

Module Exports.

(** [v[0]]. *)
Definition first (v : value) : value :=
  match v with
  | VArr (x :: _) => x
  | VStr (c :: _) => VStr [c]
  | VObj fs => assoc (lit "0") fs
  | _ => VUndef
  end.

(** [len === 1]. *)
Definition lengthIsOne (len : jslength) : bool :=
  match len with
  | Len n => Nat.eqb n 1
  | NoLen v => strictEq v (VNum PrimFloat.one)
  end.

Section Exports.

(** [isDeclaration] is [namedTypes.Declaration.check], which holds of the
    nodes of every kind that [ast-types] derives from [Declaration]. *)
Context (js : Engine) (isDeclaration : value -> bool).

Definition printExportDeclaration (path : Path) (options : Options)
    (print : Path -> result Doc) : result Doc :=
  let decl := getValue path in
  let parts := [txt "export "] in
  let shouldPrintSpaces := objectCurlySpacing options in
  if negb (isDeclaration decl) then Err (TypeAssertion "Declaration")
  else
    let parts :=
      if truthy (getField decl "default")
         || isStr (getField decl "type") "ExportDefaultDeclaration"
      then parts ++ [txt "default "]
      else parts in
    if truthy (getField decl "declaration") then
      let! declaration := call path print ["declaration"] in
      Ok (concat (parts ++ [declaration]))
    else
      let specifiers := getField decl "specifiers" in
      let! some :=
        if truthy specifiers then
          let! len := lengthOf specifiers in Ok (lengthPositive js len)
        else Ok false in
      if some then
        let! len := lengthOf specifiers in
        let! batch :=
          if lengthIsOne len then
            let! t := getProp (first specifiers) "type" in
            Ok (isStr t "ExportBatchSpecifier")
          else Ok false in
        let! parts :=
          if batch then Ok (parts ++ [txt "*"])
          else
            let! printed := map_ path print ["specifiers"] in
            Ok (parts ++ [
              if shouldPrintSpaces then txt "{ " else txt "{";
              join (txt ", ") printed;
              if shouldPrintSpaces then txt " }" else txt "}"
            ]) in
        if truthy (getField decl "source") then
          let! source := call path print ["source"] in
          Ok (concat (parts ++ [txt " from "; source]))
        else Ok (concat parts)
      else Ok (concat parts).

End Exports.

End Exports.

(** A method node whose [kind] is not one of a method. *)
Definition oddMethodStore : Store.store :=
  {[ 1%positive :=
       Store.Obj {[ lit "type" := Store.SStr (lit "ClassMethod");
                    lit "kind" := Store.SStr (lit "static") ]} ]}.

(** A computation over the store that writes nothing. *)
Definition readsOnly {A} (m : Store.M A) : Prop :=
  forall σ : Store.store, (m σ).2 = σ.

(** ** Reading a string literal

    The value of the body of a string literal delimited by [delimiter]
    (the SV of ECMA-262, 2019 edition): what a parser reads back from the
    text [nodeStr] prints. A raw delimiter or a raw line feed or carriage
    return ends or breaks the literal ([None]). The escapes that
    [JSON.stringify] never writes (hexadecimal, octal and null escapes,
    line continuations) are not read ([None]). *)
Module StringLiteral.

(** After a backslash: [x], a digit or a line terminator. *)
Definition unread (e : N) : bool :=
  (e =? 120) || ((48 <=? e) && (e <=? 57))
  || (e =? 10) || (e =? 13) || (e =? 8232) || (e =? 8233).

Definition hexValue (c : N) : option N :=
  if (48 <=? c) && (c <=? 57) then Some (c - 48)
  else if (97 <=? c) && (c <=? 102) then Some (c - 87)
  else if (65 <=? c) && (c <=? 70) then Some (c - 55)
  else None.

Definition hex4 (a b c d : N) : option N :=
  match hexValue a, hexValue b, hexValue c, hexValue d with
  | Some a, Some b, Some c, Some d => Some (4096 * a + 256 * b + 16 * c + d)
  | _, _, _, _ => None
  end.

(** The character a single-character escape stands for. *)
Definition escaped (e : N) : N :=
  if e =? 98 then 8
  else if e =? 116 then 9
  else if e =? 110 then 10
  else if e =? 118 then 11
  else if e =? 102 then 12
  else if e =? 114 then 13
  else e.

Fixpoint decode (delimiter : N) (body : jsstring) : option jsstring :=
  match body with
  | [] => Some []
  | c :: rest =>
      if c =? BACKSLASH then
        match rest with
        | [] => None
        | e :: rest' =>
            if e =? 117 then
              match rest' with
              | h1 :: h2 :: h3 :: h4 :: rest'' =>
                  match hex4 h1 h2 h3 h4, decode delimiter rest'' with
                  | Some v, Some s => Some (v :: s)
                  | _, _ => None
                  end
              | _ => None
              end
            else if unread e then None
            else
              match decode delimiter rest' with
              | Some s => Some (escaped e :: s)
              | None => None
              end
        end
      else if (c =? delimiter) || (c =? 10) || (c =? 13) then None
      else
        match decode delimiter rest with
        | Some s => Some (c :: s)
        | None => None
        end
  end.

End StringLiteral.

Module Rules.

Section Rules.

Context (js : Engine) (ext : Externals).

(** The callback of [path.map] in [printStatementSequence], run over the
    statement paths in order; [printed] is the array it pushes onto. *)
Fixpoint statements (print : Path -> result Doc) (stmtPaths : list Path)
    (printed : list Doc) : result (list Doc) :=
  match stmtPaths with
  | [] => Ok printed
  | stmtPath :: rest =>
      let stmt := getValue stmtPath in
      (* Just in case the AST has been modified to contain falsy
         statements, it is safer simply to skip them. *)
      if negb (truthy stmt) then statements print rest printed
      (* Skip printing EmptyStatement nodes to avoid leaving stray
         semicolons lying around. *)
      else if isStr (getField stmt "type") "EmptyStatement"
      then statements print rest printed
      else
        let! d := print stmtPath in
        statements print rest (printed ++ [d])
  end.

(** The function also computes [inClassBody], which it does not use. *)
Definition printStatementSequence (path : Path) (options : Options)
    (print : Path -> result Doc) : result Doc :=
  let! l := asList (getValue path) in
  let! printed := statements print (elementPaths path l) [] in
  Ok (join hardline printed).

Definition adjustClause (clause : Doc) (options : Options) : Doc :=
  if firstStringIs clause "{" then concat [txt " "; clause]
  else Printer.indent (tabWidth options) (concat [hardline; clause]).

(** The rule of [IfStatement]. The keyword of the other branch is the text
    [" else"], or ["\nelse"] with a line feed in it. *)
Definition IfStatement (path : Path) (options : Options)
    (print : Path -> result Doc) : result Doc :=
  let n := getValue path in
  let! consequent := call path print ["consequent"] in
  let con := adjustClause consequent options in
  let! test := call path print ["test"] in
  let parts := [
    txt "if (";
    group (concat [
      Printer.indent (tabWidth options) (concat [softline; test]);
      softline
    ]);
    txt ")";
    con
  ] in
  if truthy (getField n "alternate") then
    let hasBraces := firstStringIs con "{" in
    let! alternate := call path print ["alternate"] in
    Ok (concat (parts ++ [
      if hasBraces then txt " else" else Text (10 :: lit "else");
      adjustClause alternate options
    ]))
  else Ok (concat parts).



(** The rule of [TemplateElement]: [join(literalline, n.value.raw.split("\n"))]. *)
Definition TemplateElement (path : Path) : result Doc :=
  let n := getValue path in
  let! raw := getProp (getField n "value") "raw" in
  let! raw := asString raw in
  Ok (join literalline (Text <$> split 10 raw)).

(** The callback of [path.each] over the quasis in the rule of
    [TemplateLiteral]; [expressions] are the printed expressions. *)
Fixpoint quasis (print : Path -> result Doc) (expressions : list Doc)
    (quasiPaths : list Path) (parts : list Doc) : result (list Doc) :=
  match quasiPaths with
  | [] => Ok parts
  | childPath :: rest =>
      let! printed := print childPath in
      let parts := parts ++ [printed] in
      let parts :=
        match getName childPath with
        | Some (Index i) =>
            match expressions !! i with
            | Some expression => parts ++ [txt "${"; expression; txt "}"]
            | None => parts
            end
        | _ => parts
        end in
      quasis print expressions rest parts
  end.

(** The rule of [TemplateLiteral]. *)
Definition TemplateLiteral (path : Path) (print : Path -> result Doc)
  : result Doc :=
  let! expressions := map_ path print ["expressions"] in
  let! q := descend path ["quasis"] in
  let! l := asList (getValue q) in
  let! parts := quasis print expressions (elementPaths q l) [txt "`"] in
  Ok (concat (parts ++ [txt "`"])).

End Rules.

(** Quasis and expressions in turn, an expression after each quasi as long
    as there is one. *)
Fixpoint interleave (quasis expressions : list Doc) : list Doc :=
  match quasis with
  | [] => []
  | q :: quasis' =>
      match expressions with
      | e :: expressions' =>
          q :: txt "${" :: e :: txt "}" :: interleave quasis' expressions'
      | [] => q :: interleave quasis' []
      end
  end.

(** The statements [printStatementSequence] prints. *)
Definition printable (p : Path) : bool :=
  truthy (getValue p)
  && negb (isStr (getField (getValue p) "type") "EmptyStatement").

End Rules.

(** * The whole translator over the object store

    All of [src/printer.js] in the store model of [printMethod], so that
    what a print call writes to the tree can be told. *)

(** The collaborators of [printer.js] that are not among the sources, as
    the store model needs them. Those that look at nodes read the store;
    [printComments] is handed the callback and runs in the store. *)
Record Host : Type := mkHost {
  (** [fast-path.js]: [path.needsParens()] *)
  path_needsParens : Store.store -> Store.Path -> bool;
  (** [util.js] *)
  util_getParentExportDeclaration : Store.store -> Store.Path -> Store.sval;
  util_isExportDeclaration : Store.store -> Store.sval -> bool;
  (** [comments.js] *)
  comments_printComments :
    Store.Path -> (Store.Path -> Store.M Doc) -> Store.M Doc;
  (** [ast-types]: the kinds that derive from [Declaration] and from
      [Literal] *)
  derivesDeclaration : jsstring -> bool;
  derivesLiteral : jsstring -> bool;
  (** [pp.js]: [fromString(sep).join(parts)] on documents and on a field
      of a node, [lines.indent(width)], [hasHardLine] *)
  pp_join : Doc -> list Doc -> result Doc;
  pp_joinField : Store.store -> Doc -> Store.sval -> result Doc;
  pp_indentMethod : Doc -> Z -> result Doc;
  pp_hasHardLine : Doc -> bool;
  (** [s.replace(/\n/, hardline)], which depends on what [hardline] of
      [pp.js] is as a string *)
  replaceNewline : jsstring -> jsstring;
  (** the engine: ToString of an object *)
  objectToString : Store.store -> Store.loc -> jsstring;
  (** [options.arrowParensAlways] *)
  arrowParensAlways : bool
}.

Module Whole.
Import Store.

(** The result of reading [v.length] in the store. *)
Inductive slength : Type :=
| SLen (n : nat)
| SNoLen (v : sval).

(** A rule of the dispatch table. *)
Definition Rule : Type := Path -> Options -> (Path -> M Doc) -> M Doc.

Definition lift {A} (r : result A) : M A := fun σ => (r, σ).

Definition read {A} (f : store -> A) : M A := fun σ => (Ok (f σ), σ).

(** [a === b]; two references are equal when they are the same object. *)
Definition strictEq (a b : sval) : bool :=
  match a, b with
  | SUndef, SUndef | SNull, SNull => true
  | SBool x, SBool y => eqb x y
  | SNum x, SNum y => PrimFloat.eqb x y
  | SStr x, SStr y => jseqb x y
  | SRef x, SRef y => bool_decide (x = y)
  | _, _ => false
  end.

Definition caseOf (t : sval) (labels : list string) : bool :=
  existsb (isStr t) labels.

(** The kind as the error messages show it. *)
Definition shown (t : sval) : value :=
  match t with
  | SUndef => VUndef
  | SNull => VNull
  | SBool b => VBool b
  | SNum x => VNum x
  | SStr s => VStr s
  | SRef _ => VObj []
  end.

Definition asDoc (v : sval) : result Doc :=
  match v with
  | SStr s => Ok (Text s)
  | _ => Err InvalidDocument
  end.

(** [/[a-z]$/.test(s)]. *)
Definition endsWithLetter (s : jsstring) : bool :=
  match last s with
  | Some c => (97 <=? c) && (c <=? 122)
  | None => false
  end.

(** [/\S/.test(s)] and [/\n/.test(s)]. *)
Definition hasInk (s : jsstring) : bool :=
  existsb (fun c => negb (JSString.isSpace c)) s.

Definition hasNewline (s : jsstring) : bool := existsb (N.eqb 10) s.

(** [v.length]. *)
Definition lengthOf (v : sval) : M slength :=
  fun σ =>
    match v with
    | SUndef | SNull => (Err TypeError, σ)
    | SStr s => (Ok (SLen (length s)), σ)
    | SRef l =>
        match σ !! l with
        | Some (Arr elements) => (Ok (SLen (length elements)), σ)
        | Some (Obj fs) => (Ok (SNoLen (default SUndef (fs !! lit "length"))), σ)
        | None => (Ok (SNoLen SUndef), σ)
        end
    | _ => (Ok (SNoLen SUndef), σ)
    end.

(** [v[0]]. *)
Definition first (v : sval) : M sval :=
  fun σ =>
    match v with
    | SUndef | SNull => (Err TypeError, σ)
    | SStr (c :: _) => (Ok (SStr [c]), σ)
    | SRef l =>
        match σ !! l with
        | Some (Arr (x :: _)) => (Ok x, σ)
        | Some (Obj fs) => (Ok (default SUndef (fs !! lit "0")), σ)
        | _ => (Ok SUndef, σ)
        end
    | _ => (Ok SUndef, σ)
    end.

(** [len === 0] and [len === 1]. *)
Definition lengthIsZero (len : slength) : bool :=
  match len with
  | SLen n => Nat.eqb n 0
  | SNoLen v => strictEq v (SNum PrimFloat.zero)
  end.

Definition lengthIsOne (len : slength) : bool :=
  match len with
  | SLen n => Nat.eqb n 1
  | SNoLen v => strictEq v (SNum PrimFloat.one)
  end.

Section Translator.

Context (js : Engine) (ext : Externals) (host : Host).

Definition ToString (σ : store) (v : sval) : jsstring :=
  match v with
  | SUndef => lit "undefined"
  | SNull => lit "null"
  | SBool true => lit "true"
  | SBool false => lit "false"
  | SNum x => NumberToString js x
  | SStr s => s
  | SRef l => objectToString host σ l
  end.

Definition ToNumber (σ : store) (v : sval) : float :=
  match v with
  | SUndef => PrimFloat.nan
  | SNull => PrimFloat.zero
  | SBool true => PrimFloat.one
  | SBool false => PrimFloat.zero
  | SNum x => x
  | SStr s => StringToNumber js s
  | SRef l => StringToNumber js (objectToString host σ l)
  end.

(** [len > 0]. *)
Definition lengthPositive (len : slength) : M bool :=
  read (fun σ =>
          match len with
          | SLen n => negb (Nat.eqb n 0)
          | SNoLen v => PrimFloat.ltb PrimFloat.zero (ToNumber σ v)
          end).

(** [v && v.length > 0]. *)
Definition nonEmpty (v : sval) : M bool :=
  if truthy v then
    let* len := lengthOf v in lengthPositive len
  else ret false.

(** [fromString(v, options)]. *)
Definition fromString (v : sval) : M Doc :=
  read (fun σ => Text (ToString σ v)).

(** [namedTypes.X.check(v)] and [namedTypes.X && namedTypes.X.check(v)]
    for a kind [X] from which no other derives. *)
Definition check (X : string) (v : sval) : M bool :=
  if namedTypes ext (lit X) then
    read (fun σ => isStr (fieldOf σ v "type") X)
  else throw TypeError.

Definition checkIfDefined (X : string) (v : sval) : M bool :=
  read (fun σ => namedTypes ext (lit X) && isStr (fieldOf σ v "type") X).

(** [namedTypes.Literal.check(v)] and [namedTypes.Declaration.check(v)]. *)
Definition checkDerived (X : string) (derives : jsstring -> bool) (v : sval)
  : M bool :=
  if namedTypes ext (lit X) then
    read (fun σ =>
            match fieldOf σ v "type" with
            | SStr t => derives t
            | _ => false
            end)
  else throw TypeError.

(** [getNodeHelper] of [fast-path.js], as in the tree model;
    [path.getParentNode(count)] is [getNodeHelper path (count + 1)]. *)
Definition getNodeHelper (path : Path) (count : nat) : M sval :=
  read (fun σ =>
          nth count (List.filter (Node_check ext σ) (stackValues path)) SNull).

Definition getParentNode (path : Path) (count : nat) : M sval :=
  getNodeHelper path (S count).

Definition nodeStr (str : sval) (options : Options) : M jsstring :=
  match str with
  | SStr s => lift (Printer.nodeStr js (VStr s) options)
  | _ => throw (TypeAssertion "string")
  end.

(** The callback of [path.map] in [printStatementSequence]. *)
Fixpoint statements (print : Path -> M Doc) (stmtPaths : list Path)
    (printed : list Doc) : M (list Doc) :=
  match stmtPaths with
  | [] => ret printed
  | stmtPath :: rest =>
      let stmt := getValue stmtPath in
      if negb (truthy stmt) then statements print rest printed
      else
        let* t := getField stmt "type" in
        if isStr t "EmptyStatement" then statements print rest printed
        else
          let* d := print stmtPath in
          statements print rest (printed ++ [d])
  end.

(** The function also computes [inClassBody], which it does not use. *)
Definition printStatementSequence (path : Path) (options : Options)
    (print : Path -> M Doc) : M Doc :=
  let* l := elementsOf (getValue path) in
  let* printed := statements print (elementPaths path l) [] in
  ret (join hardline printed).

(** The function also asks [util.isTrailingCommaEnabled] for a flag that
    it does not use. *)
Definition printArgumentsList (path : Path) (options : Options)
    (print : Path -> M Doc) : M Doc :=
  let* printed := map_ path print ["arguments"] in
  let args :=
    if Nat.eqb (length printed) 0 then txt ""
    else if Nat.eqb (length printed) 1
            && firstStringIs (nth 0 printed (txt "")) "{"
    then
      nth 0 printed (txt "")
    else
      concat [
        Printer.indent (tabWidth options)
          (concat [softline; join (concat [txt ","; line]) printed]);
        softline
      ] in
  ret (multilineGroup (concat [txt "("; args; txt ")"])).

Definition printExportDeclaration (path : Path) (options : Options)
    (print : Path -> M Doc) : M Doc :=
  let decl := getValue path in
  let parts := [txt "export "] in
  let shouldPrintSpaces := objectCurlySpacing options in
  let* isDeclaration :=
    checkDerived "Declaration" (derivesDeclaration host) decl in
  if negb isDeclaration then throw (TypeAssertion "Declaration")
  else
    let* default := getField decl "default" in
    let* type := getField decl "type" in
    let parts :=
      if truthy default || isStr type "ExportDefaultDeclaration"
      then parts ++ [txt "default "]
      else parts in
    let* declaration := getField decl "declaration" in
    if truthy declaration then
      let* declaration := call path print ["declaration"] in
      ret (concat (parts ++ [declaration]))
    else
      let* specifiers := getField decl "specifiers" in
      let* some := nonEmpty specifiers in
      if some then
        let* len := lengthOf specifiers in
        let* batch :=
          if lengthIsOne len then
            let* specifier := first specifiers in
            let* t := getProp specifier "type" in
            ret (isStr t "ExportBatchSpecifier")
          else ret false in
        let* parts :=
          if batch then ret (parts ++ [txt "*"])
          else
            let* printed := map_ path print ["specifiers"] in
            ret (parts ++ [
              if shouldPrintSpaces then txt "{ " else txt "{";
              join (txt ", ") printed;
              if shouldPrintSpaces then txt " }" else txt "}"
            ]) in
        let* source := getField decl "source" in
        if truthy source then
          let* source := call path print ["source"] in
          ret (concat (parts ++ [txt " from "; source]))
        else ret (concat parts)
      else ret (concat parts).

Definition printFlowDeclaration (path : Path) (parts : list Doc) : M Doc :=
  let* parentExportDecl :=
    read (fun σ => util_getParentExportDeclaration host σ path) in
  if truthy parentExportDecl then
    let* type := getField parentExportDecl "type" in
    if isStr type "DeclareExportDeclaration" then ret (concat parts)
    else throw AssertionError
  else
    (* If the parent node has type DeclareExportDeclaration, then it
       will be responsible for printing the "declare" token. Otherwise
       it needs to be printed with this non-exported declaration node. *)
    ret (concat (txt "declare " :: parts)).

Definition printClass (path : Path) (print : Path -> M Doc) : M (list Doc) :=
  let n := getValue path in
  let parts := [txt "class"] in
  let* id := getField n "id" in
  let* parts :=
    if truthy id then
      let* id := call path print ["id"] in
      let* typeParameters := call path print ["typeParameters"] in
      ret (parts ++ [txt " "; id; typeParameters])
    else ret parts in
  let* superClass := getField n "superClass" in
  let* parts :=
    if truthy superClass then
      let* superClass := call path print ["superClass"] in
      let* superTypeParameters := call path print ["superTypeParameters"] in
      ret (parts ++ [txt " extends "; superClass; superTypeParameters])
    else
      let* extends := getField n "extends" in
      let* some := nonEmpty extends in
      if some then
        let* printed := map_ path print ["extends"] in
        ret (parts ++ [txt " extends "; join (txt ", ") printed])
      else ret parts in
  let* implements := getField n "implements" in
  let* some := nonEmpty implements in
  let* parts :=
    if some then
      let* printed := map_ path print ["implements"] in
      let* joined := lift (pp_join host (txt ", ") printed) in
      ret (parts ++ [txt " implements "; joined])
    else ret parts in
  let* body := call path print ["body"] in
  ret (parts ++ [txt " "; body]).

(** ** The rules of [genericPrintNoParens], one per [case] *)

Definition case_File : Rule := fun path options print =>
  call path print ["program"].

Definition case_Program : Rule := fun path options print =>
  let n := getValue path in
  let* directives := getField n "directives" in
  let* parts :=
    if truthy directives then
      let* printed := map_ path print ["directives"] in
      ret (flat_map (fun d => [d; txt ";"; line]) printed)
    else ret [] in
  let* body :=
    call path (fun bodyPath => printStatementSequence bodyPath options print)
      ["body"] in
  (* Make sure the file always ends with a newline *)
  ret (concat (parts ++ [body; hardline])).

Definition case_EmptyStatement : Rule := fun path options print =>
  ret (txt "").

Definition case_ExpressionStatement : Rule := fun path options print =>
  let* expression := call path print ["expression"] in
  ret (concat [expression; txt ";"]).

Definition case_ParenthesizedExpression : Rule := fun path options print =>
  let* expression := call path print ["expression"] in
  ret (concat [txt "("; expression; txt ")"]).

Definition case_AssignmentExpression : Rule := fun path options print =>
  let n := getValue path in
  let* left := call path print ["left"] in
  let* operator := getField n "operator" in
  let* right := call path print ["right"] in
  let* operator := lift (asDoc operator) in
  ret (group (concat [left; txt " "; operator; txt " "; right])).

Definition case_BinaryExpression : Rule := fun path options print =>
  let n := getValue path in
  let* left := call path print ["left"] in
  let* operator := getField n "operator" in
  let* right := call path print ["right"] in
  let* operator := lift (asDoc operator) in
  ret (group (concat [
    left;
    txt " ";
    operator;
    Printer.indent (tabWidth options) (concat [line; right])
  ])).

Definition case_AssignmentPattern : Rule := fun path options print =>
  let* left := call path print ["left"] in
  let* right := call path print ["right"] in
  ret (concat [left; txt " = "; right]).

Definition case_MemberExpression : Rule := fun path options print =>
  let n := getValue path in
  let* object := call path print ["object"] in
  let* property := call path print ["property"] in
  let* computed := getField n "computed" in
  ret (concat (
    [object] ++
    if truthy computed then [txt "["; property; txt "]"]
    else [txt "."; property])).

Definition case_MetaProperty : Rule := fun path options print =>
  let* meta := call path print ["meta"] in
  let* property := call path print ["property"] in
  ret (concat [meta; txt "."; property]).

Definition case_BindExpression : Rule := fun path options print =>
  let n := getValue path in
  let* object := getField n "object" in
  let* parts :=
    if truthy object then
      let* object := call path print ["object"] in ret [object]
    else ret [] in
  let* callee := call path print ["callee"] in
  ret (concat (parts ++ [txt "::"; callee])).

Definition case_Path : Rule := fun path options print =>
  let n := getValue path in
  let* body := getField n "body" in
  let* joined := read (fun σ => pp_joinField host σ (txt ".") body) in
  lift joined.

Definition case_Identifier : Rule := fun path options print =>
  let n := getValue path in
  let* name := getField n "name" in
  let* optional := getField n "optional" in
  let* typeAnnotation := call path print ["typeAnnotation"] in
  let* name := lift (asDoc name) in
  ret (concat [
    name;
    if truthy optional then txt "?" else txt "";
    typeAnnotation
  ]).

Definition case_SpreadElement : Rule := fun path options print =>
  let* argument := call path print ["argument"] in
  ret (concat [txt "..."; argument]).

Definition case_FunctionDeclaration : Rule := fun path options print =>
  let n := getValue path in
  let* async := getField n "async" in
  let parts := if truthy async then [txt "async "] else [] in
  let parts := parts ++ [txt "function"] in
  let* generator := getField n "generator" in
  let parts := if truthy generator then parts ++ [txt "*"] else parts in
  let* id := getField n "id" in
  let* parts :=
    if truthy id then
      let* id := call path print ["id"] in ret (parts ++ [txt " "; id])
    else ret parts in
  let* typeParameters := call path print ["typeParameters"] in
  let* params := printFunctionParams path print in
  let* returnType := printReturnType path print in
  let* body := call path print ["body"] in
  ret (group (concat (parts ++ [
    typeParameters;
    group (concat [
      txt "(";
      Printer.indent (tabWidth options) (concat [softline; params]);
      softline;
      txt ")"
    ]);
    returnType;
    txt " ";
    body
  ]))).

(** [path.call(print, "params", 0)]. *)
Definition callFirst (path : Path) (print : Path -> M Doc) (name : string)
  : M Doc :=
  let* q := descend path [name] in
  let* x := first (getValue q) in
  print (push q (Index 0) x).

Definition case_ArrowFunctionExpression : Rule := fun path options print =>
  let n := getValue path in
  let* async := getField n "async" in
  let parts := if truthy async then [txt "async "] else [] in
  let* typeParameters := getField n "typeParameters" in
  let* parts :=
    if truthy typeParameters then
      let* typeParameters := call path print ["typeParameters"] in
      ret (parts ++ [typeParameters])
    else ret parts in
  let* bare :=
    if arrowParensAlways host then ret false
    else
      let* params := getField n "params" in
      let* len := lengthOf params in
      if negb (lengthIsOne len) then ret false
      else
        let* rest := getField n "rest" in
        if truthy rest then ret false
        else
          let* param := first params in
          let* type := getProp param "type" in
          if negb (isStr type "Identifier") then ret false
          else
            let* typeAnnotation := getField param "typeAnnotation" in
            let* predicate := getField n "predicate" in
            let* returnType := getField n "returnType" in
            ret (negb (truthy typeAnnotation) && negb (truthy predicate)
                 && negb (truthy returnType)) in
  let* parts :=
    if bare then
      let* param := callFirst path print "params" in
      ret (parts ++ [param])
    else
      let* params := printFunctionParams path print in
      let* returnType := printReturnType path print in
      ret (parts ++ [txt "("; params; txt ")"; returnType]) in
  let* body := call path print ["body"] in
  ret (concat (parts ++ [txt " => "; body])).

Definition case_MethodDefinition : Rule := fun path options print =>
  let n := getValue path in
  let* static := getField n "static" in
  let parts := if truthy static then [txt "static "] else [] in
  let* method := printMethod ext path options print in
  ret (concat (parts ++ [method])).

Definition case_YieldExpression : Rule := fun path options print =>
  let n := getValue path in
  let parts := [txt "yield"] in
  let* delegate := getField n "delegate" in
  let parts := if truthy delegate then parts ++ [txt "*"] else parts in
  let* argument := getField n "argument" in
  if truthy argument then
    let* argument := call path print ["argument"] in
    ret (concat (parts ++ [txt " "; argument]))
  else ret (concat parts).

Definition case_AwaitExpression : Rule := fun path options print =>
  let n := getValue path in
  let parts := [txt "await"] in
  let* all := getField n "all" in
  let parts := if truthy all then parts ++ [txt "*"] else parts in
  let* argument := getField n "argument" in
  if truthy argument then
    let* argument := call path print ["argument"] in
    ret (concat (parts ++ [txt " "; argument]))
  else ret (concat parts).

Definition case_ModuleDeclaration : Rule := fun path options print =>
  let n := getValue path in
  let* id := call path print ["id"] in
  let parts := [txt "module"; id] in
  let* source := getField n "source" in
  let* parts :=
    if truthy source then
      let* body := getField n "body" in
      if truthy body then throw AssertionError
      else
        let* source := call path print ["source"] in
        ret (parts ++ [txt "from"; source])
    else
      let* body := call path print ["body"] in
      ret (parts ++ [body]) in
  lift (pp_join host (txt " ") parts).

(** The rules of [ImportSpecifier] and [ExportSpecifier]: the two names
    of the specifier are the fields [first] and [second]. *)
Definition specifier (first second : string) : Rule :=
  fun path options print =>
  let n := getValue path in
  let* one := getField n first in
  if truthy one then
    let* printed := call path print [first] in
    let* other := getField n second in
    let* renamed :=
      if truthy other then
        let* otherName := getField other "name" in
        let* oneName := getField one "name" in
        ret (negb (strictEq otherName oneName))
      else ret false in
    if renamed then
      let* other := call path print [second] in
      ret (concat [printed; txt " as "; other])
    else ret (concat [printed])
  else
    let* id := getField n "id" in
    if truthy id then
      let* id := call path print ["id"] in
      let* name := getField n "name" in
      if truthy name then
        let* name := call path print ["name"] in
        ret (concat [id; txt " as "; name])
      else ret (concat [id])
    else ret (concat []).

Definition case_ImportSpecifier : Rule := specifier "imported" "local".

Definition case_ExportSpecifier : Rule := specifier "local" "exported".

Definition case_ExportBatchSpecifier : Rule := fun path options print =>
  ret (txt "*").

Definition case_ImportNamespaceSpecifier : Rule := fun path options print =>
  let n := getValue path in
  let parts := [txt "* as "] in
  let* local := getField n "local" in
  if truthy local then
    let* local := call path print ["local"] in
    ret (concat (parts ++ [local]))
  else
    let* id := getField n "id" in
    if truthy id then
      let* id := call path print ["id"] in
      ret (concat (parts ++ [id]))
    else ret (concat parts).

Definition case_ImportDefaultSpecifier : Rule := fun path options print =>
  let n := getValue path in
  let* local := getField n "local" in
  if truthy local then call path print ["local"]
  else call path print ["id"].

Definition case_ExportAllDeclaration : Rule := fun path options print =>
  let n := getValue path in
  let parts := [txt "export *"] in
  let* exported := getField n "exported" in
  let* parts :=
    if truthy exported then
      let* exported := call path print ["exported"] in
      ret (parts ++ [txt " as "; exported])
    else ret parts in
  let* source := call path print ["source"] in
  ret (concat (parts ++ [txt " from "; source])).

Definition case_ExportNamespaceSpecifier : Rule := fun path options print =>
  let* exported := call path print ["exported"] in
  ret (concat [txt "* as "; exported]).

Definition case_ExportDefaultSpecifier : Rule := fun path options print =>
  call path print ["exported"].

(** The callback of [path.each] in the [ImportDeclaration] rule; [found]
    is [foundImportSpecifier]. *)
Fixpoint importSpecifiers (options : Options) (print : Path -> M Doc)
    (specifierPaths : list Path) (found : bool) (parts : list Doc)
  : M (bool * list Doc) :=
  match specifierPaths with
  | [] => ret (found, parts)
  | specifierPath :: rest =>
      let parts :=
        match getName specifierPath with
        | Some (Index (S _)) => parts ++ [txt ", "]
        | _ => parts
        end in
      let value := getValue specifierPath in
      let* isDefault := check "ImportDefaultSpecifier" value in
      let* isDefaultOrNamespace :=
        if isDefault then ret true
        else check "ImportNamespaceSpecifier" value in
      let* state :=
        if isDefaultOrNamespace then
          if found then throw AssertionError else ret (found, parts)
        else
          let* isNamed := check "ImportSpecifier" value in
          if isNamed then
            if found then ret (found, parts)
            else ret (true, parts ++
                        [if objectCurlySpacing options then txt "{ " else txt "{"])
          else throw (TypeAssertion "ImportSpecifier") in
      let* printed := print specifierPath in
      importSpecifiers options print rest (fst state) (snd state ++ [printed])
  end.

Definition case_ImportDeclaration : Rule := fun path options print =>
  let n := getValue path in
  let parts := [txt "import "] in
  let* importKind := getField n "importKind" in
  let* parts :=
    if truthy importKind && negb (isStr importKind "value") then
      let* kind := read (fun σ => ToString σ importKind) in
      ret (parts ++ [Text (kind ++ lit " ")])
    else ret parts in
  let* specifiers := getField n "specifiers" in
  let* some := nonEmpty specifiers in
  let* parts :=
    if some then
      let* q := descend path ["specifiers"] in
      let* l := elementsOf (getValue q) in
      let* state :=
        importSpecifiers options print (elementPaths q l) false parts in
      let parts :=
        if fst state
        then snd state ++
               [if objectCurlySpacing options then txt " }" else txt "}"]
        else snd state in
      ret (parts ++ [txt " from "])
    else ret parts in
  let* source := call path print ["source"] in
  ret (concat (parts ++ [source; txt ";"])).

Definition case_BlockStatement : Rule := fun path options print =>
  let n := getValue path in
  let* naked :=
    call path (fun bodyPath => printStatementSequence bodyPath options print)
      ["body"] in
  let* directives := getField n "directives" in
  let* directives :=
    if truthy directives then
      let* printed := map_ path print ["directives"] in
      ret ((fun d =>
              Printer.indent (tabWidth options)
                (concat [line; d; txt ";"; line])) <$> printed)
    else ret [] in
  ret (concat (txt "{" :: directives
               ++ [Printer.indent (tabWidth options) (concat [hardline; naked]);
                   hardline; txt "}"])).

Definition case_ReturnStatement : Rule := fun path options print =>
  let n := getValue path in
  let parts := [txt "return"] in
  let* arg := call path print ["argument"] in
  let* argument := getField n "argument" in
  let* parts :=
    if truthy argument then
      let* isJSX := checkIfDefined "JSXElement" argument in
      if isJSX && pp_hasHardLine host arg then
        ret (parts ++ [
          txt " (";
          Printer.indent (tabWidth options) (concat [hardline; arg]);
          hardline;
          txt ")"
        ])
      else ret (parts ++ [txt " "; arg])
    else ret parts in
  ret (concat (parts ++ [txt ";"])).

Definition case_CallExpression : Rule := fun path options print =>
  let* callee := call path print ["callee"] in
  let* arguments := printArgumentsList path options print in
  ret (concat [callee; arguments]).

Definition case_ObjectExpression : Rule := fun path options print =>
  let n := getValue path in
  let* t := getField n "type" in
  let isTypeAnnotation := isStr t "ObjectTypeAnnotation" in
  let separator := if isTypeAnnotation then txt ";" else txt "," in
  let* exact := getField n "exact" in
  let leftBrace := if truthy exact then txt "{|" else txt "{" in
  let rightBrace := if truthy exact then txt "|}" else txt "}" in
  let fields :=
    (if isTypeAnnotation then ["indexers"; "callProperties"] else [])
    ++ ["properties"] in
  let* groups :=
    mapM_ (fun field =>
             map_ path (fun childPath =>
                          let* printed := print childPath in
                          ret (group printed)) [field]) fields in
  let props := List.concat groups in
  if bool_decide (length props = 0%nat) then ret (txt "{}")
  else
    let* typeAnnotation := call path print ["typeAnnotation"] in
    ret (multilineGroup (concat [
      leftBrace;
      Printer.indent (tabWidth options)
        (concat [line; join (concat [separator; line]) props]);
      line;
      rightBrace;
      typeAnnotation
    ])).

Definition case_PropertyPattern : Rule := fun path options print =>
  let* key := call path print ["key"] in
  let* pattern := call path print ["pattern"] in
  ret (concat [key; txt ": "; pattern]).

Definition case_ObjectProperty : Rule := fun path options print =>
  let n := getValue path in
  let* method := getField n "method" in
  let* kind := getField n "kind" in
  if truthy method || isStr kind "get" || isStr kind "set" then
    printMethod ext path options print
  else
    let* key := call path print ["key"] in
    let* computed := getField n "computed" in
    let parts :=
      if truthy computed then [txt "["; key; txt "]"] else [key] in
    let* shorthand := getField n "shorthand" in
    if negb (truthy shorthand) then
      let* value := call path print ["value"] in
      ret (concat (parts ++ [txt ": "; value]))
    else ret (concat parts).

Definition case_ClassMethod : Rule := fun path options print =>
  let n := getValue path in
  let* static := getField n "static" in
  let parts := if truthy static then [txt "static "] else [] in
  let* method := printObjectMethod ext path options print in
  ret (concat (parts ++ [method])).

Definition case_ObjectMethod : Rule := fun path options print =>
  printObjectMethod ext path options print.

Definition case_Decorator : Rule := fun path options print =>
  let* expression := call path print ["expression"] in
  ret (concat [txt "@"; expression]).

Definition case_ArrayExpression : Rule := fun path options print =>
  let n := getValue path in
  let* elements := map_ path print ["elements"] in
  let parts := [
    multilineGroup (concat [
      txt "[";
      Printer.indent (tabWidth options)
        (concat [line; join (concat [txt ","; line]) elements]);
      line;
      txt "]"
    ])
  ] in
  let* typeAnnotation := getField n "typeAnnotation" in
  if truthy typeAnnotation then
    let* typeAnnotation := call path print ["typeAnnotation"] in
    ret (concat (parts ++ [typeAnnotation]))
  else ret (concat parts).

Definition case_SequenceExpression : Rule := fun path options print =>
  let* expressions := map_ path print ["expressions"] in
  ret (join (txt ", ") expressions).

Definition case_ThisExpression : Rule := fun path options print =>
  ret (txt "this").

Definition case_Super : Rule := fun path options print =>
  ret (txt "super").

Definition case_NullLiteral : Rule := fun path options print =>
  ret (txt "null").

Definition case_RegExpLiteral : Rule := fun path options print =>
  let n := getValue path in
  let* extra := getField n "extra" in
  let* raw := getProp extra "raw" in
  fromString raw.

Definition case_Literal : Rule := fun path options print =>
  let n := getValue path in
  let* value := getField n "value" in
  match value with
  | SStr _ => let* s := nodeStr value options in ret (Text s)
  | _ => fromString value
  end.

Definition case_Directive : Rule := fun path options print =>
  call path print ["value"].

Definition case_DirectiveLiteral : Rule := fun path options print =>
  let n := getValue path in
  let* value := getField n "value" in
  let* s := nodeStr value options in
  ret (Text s).

Definition case_ModuleSpecifier : Rule := fun path options print =>
  let n := getValue path in
  let* local := getField n "local" in
  if truthy local then throw ModuleSpecifierAbstract
  else
    (* The Esprima ModuleSpecifier type is just a string-valued
       Literal identifying the imported-from module. *)
    let* value := getField n "value" in
    let* s := nodeStr value options in
    ret (Text s).

Definition case_UnaryExpression : Rule := fun path options print =>
  let n := getValue path in
  let* operator := getField n "operator" in
  let* spaced := read (fun σ => endsWithLetter (ToString σ operator)) in
  let* argument := call path print ["argument"] in
  let* operator := lift (asDoc operator) in
  ret (concat ([operator] ++ (if spaced : bool then [txt " "] else [])
               ++ [argument])).

Definition case_UpdateExpression : Rule := fun path options print =>
  let n := getValue path in
  let* argument := call path print ["argument"] in
  let* operator := getField n "operator" in
  let* prefix := getField n "prefix" in
  let* operator := lift (asDoc operator) in
  ret (concat (if truthy prefix then [operator; argument]
               else [argument; operator])).

Definition case_ConditionalExpression : Rule := fun path options print =>
  let* test := call path print ["test"] in
  let* consequent := call path print ["consequent"] in
  let* alternate := call path print ["alternate"] in
  ret (concat [txt "("; test; txt " ? "; consequent; txt " : "; alternate;
               txt ")"]).

Definition case_NewExpression : Rule := fun path options print =>
  let n := getValue path in
  let* callee := call path print ["callee"] in
  let parts := [txt "new "; callee] in
  let* args := getField n "arguments" in
  if truthy args then
    let* arguments := printArgumentsList path options print in
    ret (concat (parts ++ [arguments]))
  else ret (concat parts).

Definition case_VariableDeclaration : Rule := fun path options print =>
  let n := getValue path in
  let* printed := map_ path print ["declarations"] in
  let* kind := getField n "kind" in
  (* We generally want to terminate all variable declarations with a
     semicolon, except when they are children of for loops. *)
  let* parentNode := getParentNode path 0 in
  let* isFor := check "ForStatement" parentNode in
  let* isForIn :=
    if isFor then ret true else check "ForInStatement" parentNode in
  let* isForOf :=
    if isForIn then ret true else checkIfDefined "ForOfStatement" parentNode in
  let* inLoopHead :=
    if isForOf then ret true
    else checkIfDefined "ForAwaitStatement" parentNode in
  let* kind := lift (asDoc kind) in
  let* first := match printed with
                | p :: _ => ret p
                | [] => throw InvalidDocument
                end in
  let parts := [
    kind;
    txt " ";
    first;
    Printer.indent (tabWidth options)
      (concat ((fun p => concat [txt ","; line; p]) <$> tail printed))
  ] in
  let parts := if inLoopHead : bool then parts else parts ++ [txt ";"] in
  ret (multilineGroup (concat parts)).

Definition case_VariableDeclarator : Rule := fun path options print =>
  let n := getValue path in
  let* init := getField n "init" in
  if truthy init then
    let* id := call path print ["id"] in
    let* init := call path print ["init"] in
    ret (concat [id; txt " = "; init])
  else call path print ["id"].

Definition case_WithStatement : Rule := fun path options print =>
  let* object := call path print ["object"] in
  let* body := call path print ["body"] in
  ret (concat [txt "with ("; object; txt ") "; body]).

Definition case_IfStatement : Rule := fun path options print =>
  let n := getValue path in
  let* consequent := call path print ["consequent"] in
  let con := Rules.adjustClause consequent options in
  let* test := call path print ["test"] in
  let parts := [
    txt "if (";
    group (concat [
      Printer.indent (tabWidth options) (concat [softline; test]);
      softline
    ]);
    txt ")";
    con
  ] in
  let* alternate := getField n "alternate" in
  if truthy alternate then
    let hasBraces := firstStringIs con "{" in
    let* alternate := call path print ["alternate"] in
    ret (concat (parts ++ [
      if hasBraces then txt " else" else Text (10 :: lit "else");
      Rules.adjustClause alternate options
    ]))
  else ret (concat parts).

Definition case_ForStatement : Rule := fun path options print =>
  (* TODO Get the for (;;) case right. *)
  let* init := call path print ["init"] in
  let* test := call path print ["test"] in
  let* update := call path print ["update"] in
  let* body := call path print ["body"] in
  ret (concat [
    txt "for (";
    group (concat [
      Printer.indent (tabWidth options) (concat [
        softline; init; txt ";"; line; test; txt ";"; line; update
      ]);
      softline
    ]);
    txt ")";
    Rules.adjustClause body options
  ]).

Definition case_WhileStatement : Rule := fun path options print =>
  let* test := call path print ["test"] in
  let* body := call path print ["body"] in
  ret (concat [txt "while ("; test; txt ")";
               Rules.adjustClause body options]).

Definition case_ForInStatement : Rule := fun path options print =>
  let n := getValue path in
  (* Note: esprima can't actually parse "for each (". *)
  let* each := getField n "each" in
  let* left := call path print ["left"] in
  let* right := call path print ["right"] in
  let* body := call path print ["body"] in
  ret (concat [
    if truthy each then txt "for each (" else txt "for (";
    left; txt " in "; right; txt ")";
    Rules.adjustClause body options
  ]).

(** The rules of [ForOfStatement] and [ForAwaitStatement]. *)
Definition forOf (keyword : string) : Rule := fun path options print =>
  let* left := call path print ["left"] in
  let* right := call path print ["right"] in
  let* body := call path print ["body"] in
  ret (concat [txt keyword; left; txt " of "; right; txt ")";
               Rules.adjustClause body options]).

Definition case_ForOfStatement : Rule := forOf "for (".

Definition case_ForAwaitStatement : Rule := forOf "for await (".

Definition case_DoWhileStatement : Rule := fun path options print =>
  let* body := call path print ["body"] in
  let clause := Rules.adjustClause body options in
  let doBody := concat [txt "do"; clause] in
  let hasBraces := firstStringIs clause "{" in
  let parts :=
    [doBody] ++
    (if hasBraces then [txt " while"] else [concat [line; txt "while"]]) in
  let* test := call path print ["test"] in
  ret (concat (parts ++ [txt " ("; test; txt ");"])).

Definition case_DoExpression : Rule := fun path options print =>
  let* statements :=
    call path (fun bodyPath => printStatementSequence bodyPath options print)
      ["body"] in
  let* indented := lift (pp_indentMethod host statements (tabWidth options)) in
  ret (concat [Text (lit "do {" ++ [10]); indented; Text (10 :: lit "}")]).

(** The rules of [BreakStatement] and [ContinueStatement]. *)
Definition jump (keyword : string) : Rule := fun path options print =>
  let n := getValue path in
  let parts := [txt keyword] in
  let* label := getField n "label" in
  let* parts :=
    if truthy label then
      let* label := call path print ["label"] in
      ret (parts ++ [txt " "; label])
    else ret parts in
  ret (concat (parts ++ [txt ";"])).

Definition case_BreakStatement : Rule := jump "break".

Definition case_ContinueStatement : Rule := jump "continue".

Definition case_LabeledStatement : Rule := fun path options print =>
  let* label := call path print ["label"] in
  let* body := call path print ["body"] in
  ret (concat [label; Text (lit ":" ++ [10]); body]).

Definition case_TryStatement : Rule := fun path options print =>
  let n := getValue path in
  let* block := call path print ["block"] in
  let parts := [txt "try "; block] in
  let* handler := getField n "handler" in
  let* parts :=
    if truthy handler then
      let* handler := call path print ["handler"] in
      ret (parts ++ [txt " "; handler])
    else
      let* handlers := getField n "handlers" in
      if truthy handlers then
        let* printed := map_ path print ["handlers"] in
        ret (parts ++ flat_map (fun d => [txt " "; d]) printed)
      else ret parts in
  let* finalizer := getField n "finalizer" in
  if truthy finalizer then
    let* finalizer := call path print ["finalizer"] in
    ret (concat (parts ++ [txt " finally "; finalizer]))
  else ret (concat parts).

Definition case_CatchClause : Rule := fun path options print =>
  let n := getValue path in
  let* param := call path print ["param"] in
  let parts := [txt "catch ("; param] in
  let* guard := getField n "guard" in
  let* parts :=
    if truthy guard then
      (* Note: esprima does not recognize conditional catch clauses. *)
      let* guard := call path print ["guard"] in
      ret (parts ++ [txt " if "; guard])
    else ret parts in
  let* body := call path print ["body"] in
  ret (concat (parts ++ [txt ") "; body])).

Definition case_ThrowStatement : Rule := fun path options print =>
  let* argument := call path print ["argument"] in
  ret (concat [txt "throw "; argument; txt ";"]).

Definition case_SwitchStatement : Rule := fun path options print =>
  let* discriminant := call path print ["discriminant"] in
  let* cases := map_ path print ["cases"] in
  ret (concat [
    txt "switch (";
    discriminant;
    txt ") {";
    hardline;
    join hardline cases;
    hardline;
    txt "}"
  ]).

Definition case_SwitchCase : Rule := fun path options print =>
  let n := getValue path in
  let* test := getField n "test" in
  let* parts :=
    if truthy test then
      let* test := call path print ["test"] in
      ret [txt "case "; test; txt ":"]
    else ret [txt "default:"] in
  let* consequent := getField n "consequent" in
  let* len := lengthOf consequent in
  let* some := lengthPositive len in
  if some then
    let* statements :=
      call path
        (fun consequentPath =>
           printStatementSequence consequentPath options print)
        ["consequent"] in
    ret (concat (parts ++ [
      Printer.indent (tabWidth options) (concat [hardline; statements])
    ]))
  else ret (concat parts).

Definition case_DebuggerStatement : Rule := fun path options print =>
  ret (txt "debugger;").

(** *** JSX *)

Definition case_JSXAttribute : Rule := fun path options print =>
  let n := getValue path in
  let* name := call path print ["name"] in
  let* value := getField n "value" in
  if truthy value then
    let* value := call path print ["value"] in
    ret (concat [name; txt "="; value])
  else ret (concat [name]).

Definition case_JSXIdentifier : Rule := fun path options print =>
  let n := getValue path in
  let* name := getField n "name" in
  fromString name.

Definition case_JSXNamespacedName : Rule := fun path options print =>
  let* namespace := call path print ["namespace"] in
  let* name := call path print ["name"] in
  lift (pp_join host (txt ":") [namespace; name]).

Definition case_JSXMemberExpression : Rule := fun path options print =>
  let* object := call path print ["object"] in
  let* property := call path print ["property"] in
  lift (pp_join host (txt ".") [object; property]).

Definition case_JSXSpreadAttribute : Rule := fun path options print =>
  let* argument := call path print ["argument"] in
  ret (concat [txt "{..."; argument; txt "}"]).

Definition case_JSXExpressionContainer : Rule := fun path options print =>
  let* expression := call path print ["expression"] in
  ret (concat [txt "{"; expression; txt "}"]).

(** The callback of [path.map] over the children of a [JSXElement]. *)
Definition jsxChild (print : Path -> M Doc) (childPath : Path) : M Doc :=
  let child := getValue childPath in
  let* isLiteral := checkDerived "Literal" (derivesLiteral host) child in
  let* value := getField child "value" in
  match value with
  | SStr s =>
      if isLiteral && hasInk s then
        ret (Text (replaceNewline host (JSString.trim s)))
      else if isLiteral && hasNewline s then ret hardline
      else print childPath
  | _ => print childPath
  end.

Definition case_JSXElement : Rule := fun path options print =>
  let n := getValue path in
  let* openingLines := call path print ["openingElement"] in
  let* openingElement := getField n "openingElement" in
  let* selfClosing := getProp openingElement "selfClosing" in
  if truthy selfClosing then
    let* closingElement := getField n "closingElement" in
    if truthy closingElement then throw AssertionError
    else ret openingLines
  else
    let* children := map_ path (jsxChild print) ["children"] in
    let mostChildren := take (length children - 1) children in
    let lastChild := default (txt "") (last children) in
    let* closingLines := call path print ["closingElement"] in
    ret (concat [
      openingLines;
      Printer.indent (tabWidth options) (concat mostChildren);
      lastChild;
      closingLines
    ]).

Definition case_JSXOpeningElement : Rule := fun path options print =>
  let n := getValue path in
  let* name := call path print ["name"] in
  let* attributes :=
    map_ path (fun attr => let* d := print attr in ret (concat [txt " "; d]))
      ["attributes"] in
  let* selfClosing := getField n "selfClosing" in
  ret (group (concat [
    txt "<";
    name;
    concat attributes;
    if truthy selfClosing then txt "/>" else txt ">"
  ])).

Definition case_JSXClosingElement : Rule := fun path options print =>
  let* name := call path print ["name"] in
  ret (concat [txt "</"; name; txt ">"]).

Definition case_JSXText : Rule := fun path options print =>
  let n := getValue path in
  let* value := getField n "value" in
  fromString value.

Definition case_JSXEmptyExpression : Rule := fun path options print =>
  ret (txt "").

(** *** Classes and templates *)

Definition case_TypeAnnotatedIdentifier : Rule := fun path options print =>
  let* annotation := call path print ["annotation"] in
  let* identifier := call path print ["identifier"] in
  ret (concat [annotation; txt " "; identifier]).

Definition case_ClassBody : Rule := fun path options print =>
  let n := getValue path in
  let* body := getField n "body" in
  let* len := lengthOf body in
  if lengthIsZero len then ret (txt "{}")
  else
    let* statements :=
      call path (fun bodyPath => printStatementSequence bodyPath options print)
        ["body"] in
    ret (concat [
      txt "{";
      Printer.indent (tabWidth options) (concat [hardline; statements]);
      hardline;
      txt "}"
    ]).

Definition case_ClassPropertyDefinition : Rule := fun path options print =>
  let n := getValue path in
  let* definition := call path print ["definition"] in
  let parts := [txt "static "; definition] in
  let* node := getField n "definition" in
  let* isMethod := check "MethodDefinition" node in
  ret (concat (if isMethod : bool then parts else parts ++ [txt ";"])).

Definition case_ClassProperty : Rule := fun path options print =>
  let n := getValue path in
  let* static := getField n "static" in
  let parts := if truthy static then [txt "static "] else [] in
  let* key := call path print ["key"] in
  let* computed := getField n "computed" in
  let* variance := getField n "variance" in
  let key :=
    if truthy computed then concat [txt "["; key; txt "]"]
    else if isStr variance "plus" then concat [txt "+"; key]
    else if isStr variance "minus" then concat [txt "-"; key]
    else key in
  let parts := parts ++ [key] in
  let* typeAnnotation := getField n "typeAnnotation" in
  let* parts :=
    if truthy typeAnnotation then
      let* typeAnnotation := call path print ["typeAnnotation"] in
      ret (parts ++ [typeAnnotation])
    else ret parts in
  let* value := getField n "value" in
  let* parts :=
    if truthy value then
      let* value := call path print ["value"] in
      ret (parts ++ [txt " = "; value])
    else ret parts in
  ret (concat (parts ++ [txt ";"])).

Definition case_ClassDeclaration : Rule := fun path options print =>
  let* parts := printClass path print in
  ret (concat parts).

Definition case_TemplateElement : Rule := fun path options print =>
  let n := getValue path in
  let* value := getField n "value" in
  let* raw := getProp value "raw" in
  match raw with
  | SStr raw => ret (join literalline (Text <$> split 10 raw))
  | _ => throw TypeError
  end.

(** The callback of [path.each] over the quasis of a template literal. *)
Fixpoint quasis (print : Path -> M Doc) (expressions : list Doc)
    (quasiPaths : list Path) (parts : list Doc) : M (list Doc) :=
  match quasiPaths with
  | [] => ret parts
  | childPath :: rest =>
      let* printed := print childPath in
      let parts := parts ++ [printed] in
      let parts :=
        match getName childPath with
        | Some (Index i) =>
            match expressions !! i with
            | Some expression => parts ++ [txt "${"; expression; txt "}"]
            | None => parts
            end
        | _ => parts
        end in
      quasis print expressions rest parts
  end.

Definition case_TemplateLiteral : Rule := fun path options print =>
  let* expressions := map_ path print ["expressions"] in
  let* q := descend path ["quasis"] in
  let* l := elementsOf (getValue q) in
  let* parts := quasis print expressions (elementPaths q l) [txt "`"] in
  ret (concat (parts ++ [txt "`"])).

Definition case_TaggedTemplateExpression : Rule := fun path options print =>
  let* tag := call path print ["tag"] in
  let* quasi := call path print ["quasi"] in
  ret (concat [tag; quasi]).

(** The rules of the comment kinds. *)
Definition case_CommentBlock : Rule := fun path options print =>
  let n := getValue path in
  let* value := getField n "value" in
  let* text := fromString value in
  ret (concat [txt "/*"; text; txt "*/"]).

Definition case_CommentLine : Rule := fun path options print =>
  let n := getValue path in
  let* value := getField n "value" in
  let* text := fromString value in
  ret (concat [txt "//"; text]).

(** *** Type annotations *)

Definition case_TypeAnnotation : Rule := fun path options print =>
  let n := getValue path in
  let* typeAnnotation := getField n "typeAnnotation" in
  if truthy typeAnnotation then
    let* type := getField typeAnnotation "type" in
    let parts :=
      if negb (isStr type "FunctionTypeAnnotation") then [txt ": "] else [] in
    let* typeAnnotation := call path print ["typeAnnotation"] in
    ret (concat (parts ++ [typeAnnotation]))
  else ret (txt "").

Definition case_TupleTypeAnnotation : Rule := fun path options print =>
  let* types := map_ path print ["types"] in
  ret (concat [txt "["; join (txt ", ") types; txt "]"]).

(** The rules that print a fixed text. *)
Definition keyword (text : string) : Rule := fun path options print =>
  ret (txt text).

Definition case_ArrayTypeAnnotation : Rule := fun path options print =>
  let* elementType := call path print ["elementType"] in
  ret (concat [elementType; txt "[]"]).

(** [return "" + n.value]. *)
Definition case_NumericLiteralTypeAnnotation : Rule :=
  fun path options print =>
  let n := getValue path in
  let* value := getField n "value" in
  fromString value.

Definition case_DeclareClass : Rule := fun path options print =>
  let* parts := printClass path print in
  printFlowDeclaration path parts.

Definition case_DeclareFunction : Rule := fun path options print =>
  let* id := call path print ["id"] in
  printFlowDeclaration path [txt "function "; id; txt ";"].

Definition case_DeclareModule : Rule := fun path options print =>
  let* id := call path print ["id"] in
  let* body := call path print ["body"] in
  printFlowDeclaration path [txt "module "; id; txt " "; body].

Definition case_DeclareModuleExports : Rule := fun path options print =>
  let* typeAnnotation := call path print ["typeAnnotation"] in
  printFlowDeclaration path [txt "module.exports"; typeAnnotation; txt ";"].

Definition case_DeclareVariable : Rule := fun path options print =>
  let* id := call path print ["id"] in
  printFlowDeclaration path [txt "var "; id; txt ";"].

Definition case_DeclareExportAllDeclaration : Rule :=
  fun path options print =>
  let* source := call path print ["source"] in
  ret (concat [txt "declare export * from "; source]).

Definition case_DeclareExportDeclaration : Rule := fun path options print =>
  let* declaration := printExportDeclaration path options print in
  ret (concat [txt "declare "; declaration]).

Definition case_FunctionTypeAnnotation : Rule := fun path options print =>
  let n := getValue path in
  (* FunctionTypeAnnotation is ambiguous:
     declare function foo(a: B): void; OR
     var A: (a: B) => void; *)
  let* parent := getParentNode path 0 in
  let* variance := getProp parent "variance" in
  let* property :=
    if negb (truthy variance) then
      let* optional := getField parent "optional" in
      if negb (truthy optional) then check "ObjectTypeProperty" parent
      else ret false
    else ret false in
  let* callProperty :=
    if property then ret true else check "ObjectTypeCallProperty" parent in
  let* declared :=
    if callProperty then ret true
    else
      let* grandparent := getParentNode path 2 in
      check "DeclareFunction" grandparent in
  let isArrowFunctionTypeAnnotation := negb declared in
  let* needsColon :=
    if isArrowFunctionTypeAnnotation then check "TypeAnnotation" parent
    else ret false in
  let parts := if needsColon : bool then [txt ": "] else [] in
  let* typeParameters := call path print ["typeParameters"] in
  let* params := printFunctionParams path print in
  let parts := parts ++ [typeParameters; txt "("; params; txt ")"] in
  (* The returnType is not wrapped in a TypeAnnotation, so the colon
     needs to be added separately. *)
  let* returnType := getField n "returnType" in
  let* predicate := getField n "predicate" in
  if truthy returnType || truthy predicate then
    let* returnType := call path print ["returnType"] in
    let* predicate := call path print ["predicate"] in
    ret (concat (parts ++ [
      if isArrowFunctionTypeAnnotation then txt " => " else txt ": ";
      returnType;
      predicate
    ]))
  else ret (concat parts).

Definition case_FunctionTypeParam : Rule := fun path options print =>
  let n := getValue path in
  let* name := call path print ["name"] in
  let* optional := getField n "optional" in
  let* typeAnnotation := call path print ["typeAnnotation"] in
  ret (concat [
    name;
    if truthy optional then txt "?" else txt "";
    txt ": ";
    typeAnnotation
  ]).

(** The rules of [GenericTypeAnnotation], [ClassImplements] and
    [InterfaceExtends]. *)
Definition case_GenericTypeAnnotation : Rule := fun path options print =>
  let* id := call path print ["id"] in
  let* typeParameters := call path print ["typeParameters"] in
  ret (concat [id; typeParameters]).

(** The rule of [InterfaceDeclaration], which [DeclareInterface] falls
    through to with [declare] among its parts. *)
Definition interface (declare : bool) : Rule := fun path options print =>
  let n := getValue path in
  let parts := if declare then [txt "declare "] else [] in
  let* id := call path print ["id"] in
  let* typeParameters := call path print ["typeParameters"] in
  let parts := parts ++ [txt "interface "; id; typeParameters; txt " "] in
  let* extends := getField n "extends" in
  let* len := lengthOf extends in
  let* some := lengthPositive len in
  let* parts :=
    if some then
      let* printed := map_ path print ["extends"] in
      ret (parts ++ [txt "extends "; join (txt ", ") printed])
    else ret parts in
  let* body := call path print ["body"] in
  ret (concat (parts ++ [txt " "; body])).

Definition case_DeclareInterface : Rule := interface true.

Definition case_InterfaceDeclaration : Rule := interface false.

(** The rules of [IntersectionTypeAnnotation] and
    [UnionTypeAnnotation]. *)
Definition joinedTypes (separator : string) : Rule :=
  fun path options print =>
  let* types := map_ path print ["types"] in
  ret (join (txt separator) types).

Definition case_NullableTypeAnnotation : Rule := fun path options print =>
  let* typeAnnotation := call path print ["typeAnnotation"] in
  ret (concat [txt "?"; typeAnnotation]).

Definition case_ObjectTypeCallProperty : Rule := fun path options print =>
  call path print ["value"].

(** [n.variance === "plus" ? "+" : n.variance === "minus" ? "-" : ""]. *)
Definition varianceSign (variance : sval) : Doc :=
  if isStr variance "plus" then txt "+"
  else if isStr variance "minus" then txt "-"
  else txt "".

Definition case_ObjectTypeIndexer : Rule := fun path options print =>
  let n := getValue path in
  let* variance := getField n "variance" in
  let* id := call path print ["id"] in
  let* key := call path print ["key"] in
  let* value := call path print ["value"] in
  ret (concat [varianceSign variance; txt "["; id; txt ": "; key; txt "]: ";
               value]).

Definition case_ObjectTypeProperty : Rule := fun path options print =>
  let n := getValue path in
  let* variance := getField n "variance" in
  (* TODO: This is a bad hack and we need a better way to know
     when to emit an arrow function or not. *)
  let* isFunction :=
    if negb (truthy variance) then
      let* optional := getField n "optional" in
      if negb (truthy optional) then
        let* value := getField n "value" in
        let* type := getProp value "type" in
        ret (isStr type "FunctionTypeAnnotation")
      else ret false
    else ret false in
  let* static := getField n "static" in
  let* key := call path print ["key"] in
  let* optional := getField n "optional" in
  let* value := call path print ["value"] in
  ret (concat [
    if truthy static then txt "static " else txt "";
    varianceSign variance;
    key;
    if truthy optional then txt "?" else txt "";
    if isFunction : bool then txt "" else txt ": ";
    value
  ]).

Definition case_QualifiedTypeIdentifier : Rule := fun path options print =>
  let* qualification := call path print ["qualification"] in
  let* id := call path print ["id"] in
  ret (concat [qualification; txt "."; id]).

Definition case_StringLiteralTypeAnnotation : Rule :=
  fun path options print =>
  let n := getValue path in
  let* value := getField n "value" in
  let* s := nodeStr value options in
  ret (Text s).

Definition case_NumberLiteralTypeAnnotation : Rule :=
  fun path options print =>
  let n := getValue path in
  let* value := getField n "value" in
  match value with
  | SNum _ => fromString value
  | _ => throw AssertionError
  end.

Definition case_TypeAlias : Rule := fun path options print =>
  let n := getValue path in
  let* parent := getParentNode path 1 in
  let* type := getField n "type" in
  let* declared :=
    if isStr type "DeclareTypeAlias" then ret true
    else if truthy parent then
      let* parentType := getField parent "type" in
      ret (isStr parentType "DeclareModule")
    else ret false in
  let parts := if declared : bool then [txt "declare "] else [] in
  let* id := call path print ["id"] in
  let* typeParameters := call path print ["typeParameters"] in
  let* right := call path print ["right"] in
  ret (concat (parts ++ [txt "type "; id; typeParameters; txt " = "; right;
                         txt ";"])).

Definition case_TypeCastExpression : Rule := fun path options print =>
  let* expression := call path print ["expression"] in
  let* typeAnnotation := call path print ["typeAnnotation"] in
  ret (concat [txt "("; expression; typeAnnotation; txt ")"]).

Definition case_TypeParameterDeclaration : Rule := fun path options print =>
  let* params := map_ path print ["params"] in
  ret (concat [txt "<"; join (txt ", ") params; txt ">"]).

Definition case_TypeParameter : Rule := fun path options print =>
  let n := getValue path in
  let* variance := getField n "variance" in
  let parts :=
    if isStr variance "plus" then [txt "+"]
    else if isStr variance "minus" then [txt "-"]
    else [] in
  let* name := call path print ["name"] in
  let parts := parts ++ [name] in
  let* bound := getField n "bound" in
  let* parts :=
    if truthy bound then
      let* bound := call path print ["bound"] in ret (parts ++ [bound])
    else ret parts in
  let* default := getField n "default" in
  if truthy default then
    let* default := call path print ["default"] in
    ret (concat (parts ++ [txt "="; default]))
  else ret (concat parts).

Definition case_TypeofTypeAnnotation : Rule := fun path options print =>
  let* argument := call path print ["argument"] in
  ret (concat [txt "typeof "; argument]).

Definition case_DeclaredPredicate : Rule := fun path options print =>
  let* value := call path print ["value"] in
  ret (concat [txt "%checks("; value; txt ")"]).

Definition genericPrintNoParens (path : Path) (options : Options)
    (print : Path -> M Doc) : M Doc :=
  let n := getValue path in
  if negb (truthy n) then ret (txt "")
  else
    match n with
    | SStr s => ret (Text s)
    | _ =>
      let* t := getField n "type" in
      let rule : Rule :=
        if caseOf t ["File"] then case_File
        else if caseOf t ["Program"] then case_Program
        else if caseOf t ["Noop"; "EmptyStatement"] then case_EmptyStatement
        else if caseOf t ["ExpressionStatement"] then case_ExpressionStatement
        else if caseOf t ["ParenthesizedExpression"]
        then case_ParenthesizedExpression
        else if caseOf t ["AssignmentExpression"]
        then case_AssignmentExpression
        else if caseOf t ["BinaryExpression"; "LogicalExpression"]
        then case_BinaryExpression
        else if caseOf t ["AssignmentPattern"] then case_AssignmentPattern
        else if caseOf t ["MemberExpression"] then case_MemberExpression
        else if caseOf t ["MetaProperty"] then case_MetaProperty
        else if caseOf t ["BindExpression"] then case_BindExpression
        else if caseOf t ["Path"] then case_Path
        else if caseOf t ["Identifier"] then case_Identifier
        else if caseOf t ["SpreadElement"; "SpreadElementPattern";
                          "RestProperty"; "SpreadProperty";
                          "SpreadPropertyPattern"; "RestElement"]
        then case_SpreadElement
        else if caseOf t ["FunctionDeclaration"; "FunctionExpression"]
        then case_FunctionDeclaration
        else if caseOf t ["ArrowFunctionExpression"]
        then case_ArrowFunctionExpression
        else if caseOf t ["MethodDefinition"] then case_MethodDefinition
        else if caseOf t ["YieldExpression"] then case_YieldExpression
        else if caseOf t ["AwaitExpression"] then case_AwaitExpression
        else if caseOf t ["ModuleDeclaration"] then case_ModuleDeclaration
        else if caseOf t ["ImportSpecifier"] then case_ImportSpecifier
        else if caseOf t ["ExportSpecifier"] then case_ExportSpecifier
        else if caseOf t ["ExportBatchSpecifier"]
        then case_ExportBatchSpecifier
        else if caseOf t ["ImportNamespaceSpecifier"]
        then case_ImportNamespaceSpecifier
        else if caseOf t ["ImportDefaultSpecifier"]
        then case_ImportDefaultSpecifier
        else if caseOf t ["ExportDeclaration"; "ExportDefaultDeclaration";
                          "ExportNamedDeclaration"]
        then printExportDeclaration
        else if caseOf t ["ExportAllDeclaration"]
        then case_ExportAllDeclaration
        else if caseOf t ["ExportNamespaceSpecifier"]
        then case_ExportNamespaceSpecifier
        else if caseOf t ["ExportDefaultSpecifier"]
        then case_ExportDefaultSpecifier
        else if caseOf t ["ImportDeclaration"] then case_ImportDeclaration
        else if caseOf t ["BlockStatement"] then case_BlockStatement
        else if caseOf t ["ReturnStatement"] then case_ReturnStatement
        else if caseOf t ["CallExpression"] then case_CallExpression
        else if caseOf t ["ObjectExpression"; "ObjectPattern";
                          "ObjectTypeAnnotation"]
        then case_ObjectExpression
        else if caseOf t ["PropertyPattern"] then case_PropertyPattern
        else if caseOf t ["ObjectProperty"; "Property"]
        then case_ObjectProperty
        else if caseOf t ["ClassMethod"] then case_ClassMethod
        else if caseOf t ["ObjectMethod"] then case_ObjectMethod
        else if caseOf t ["Decorator"] then case_Decorator
        else if caseOf t ["ArrayExpression"; "ArrayPattern"]
        then case_ArrayExpression
        else if caseOf t ["SequenceExpression"] then case_SequenceExpression
        else if caseOf t ["ThisExpression"] then case_ThisExpression
        else if caseOf t ["Super"] then case_Super
        else if caseOf t ["NullLiteral"] then case_NullLiteral
        else if caseOf t ["RegExpLiteral"] then case_RegExpLiteral
        else if caseOf t ["BooleanLiteral"; "NumericLiteral"; "StringLiteral";
                          "Literal"]
        then case_Literal
        else if caseOf t ["Directive"] then case_Directive
        else if caseOf t ["DirectiveLiteral"] then case_DirectiveLiteral
        else if caseOf t ["ModuleSpecifier"] then case_ModuleSpecifier
        else if caseOf t ["UnaryExpression"] then case_UnaryExpression
        else if caseOf t ["UpdateExpression"] then case_UpdateExpression
        else if caseOf t ["ConditionalExpression"]
        then case_ConditionalExpression
        else if caseOf t ["NewExpression"] then case_NewExpression
        else if caseOf t ["VariableDeclaration"]
        then case_VariableDeclaration
        else if caseOf t ["VariableDeclarator"] then case_VariableDeclarator
        else if caseOf t ["WithStatement"] then case_WithStatement
        else if caseOf t ["IfStatement"] then case_IfStatement
        else if caseOf t ["ForStatement"] then case_ForStatement
        else if caseOf t ["WhileStatement"] then case_WhileStatement
        else if caseOf t ["ForInStatement"] then case_ForInStatement
        else if caseOf t ["ForOfStatement"] then case_ForOfStatement
        else if caseOf t ["ForAwaitStatement"] then case_ForAwaitStatement
        else if caseOf t ["DoWhileStatement"] then case_DoWhileStatement
        else if caseOf t ["DoExpression"] then case_DoExpression
        else if caseOf t ["BreakStatement"] then case_BreakStatement
        else if caseOf t ["ContinueStatement"] then case_ContinueStatement
        else if caseOf t ["LabeledStatement"] then case_LabeledStatement
        else if caseOf t ["TryStatement"] then case_TryStatement
        else if caseOf t ["CatchClause"] then case_CatchClause
        else if caseOf t ["ThrowStatement"] then case_ThrowStatement
        else if caseOf t ["SwitchStatement"] then case_SwitchStatement
        else if caseOf t ["SwitchCase"] then case_SwitchCase
        else if caseOf t ["DebuggerStatement"] then case_DebuggerStatement
        (* JSX extensions below. *)
        else if caseOf t ["JSXAttribute"] then case_JSXAttribute
        else if caseOf t ["JSXIdentifier"] then case_JSXIdentifier
        else if caseOf t ["JSXNamespacedName"] then case_JSXNamespacedName
        else if caseOf t ["JSXMemberExpression"]
        then case_JSXMemberExpression
        else if caseOf t ["JSXSpreadAttribute"] then case_JSXSpreadAttribute
        else if caseOf t ["JSXExpressionContainer"]
        then case_JSXExpressionContainer
        else if caseOf t ["JSXElement"] then case_JSXElement
        else if caseOf t ["JSXOpeningElement"] then case_JSXOpeningElement
        else if caseOf t ["JSXClosingElement"] then case_JSXClosingElement
        else if caseOf t ["JSXText"] then case_JSXText
        else if caseOf t ["JSXEmptyExpression"] then case_JSXEmptyExpression
        else if caseOf t ["TypeAnnotatedIdentifier"]
        then case_TypeAnnotatedIdentifier
        else if caseOf t ["ClassBody"] then case_ClassBody
        else if caseOf t ["ClassPropertyDefinition"]
        then case_ClassPropertyDefinition
        else if caseOf t ["ClassProperty"] then case_ClassProperty
        else if caseOf t ["ClassDeclaration"; "ClassExpression"]
        then case_ClassDeclaration
        else if caseOf t ["TemplateElement"] then case_TemplateElement
        else if caseOf t ["TemplateLiteral"] then case_TemplateLiteral
        else if caseOf t ["TaggedTemplateExpression"]
        then case_TaggedTemplateExpression
        (* These types are unprintable because they serve as abstract
           supertypes for other (printable) types. *)
        else if caseOf t Printer.abstractKinds
        then fun _ _ _ => throw (UnprintableType (shown t))
        else if caseOf t ["CommentBlock"; "Block"] then case_CommentBlock
        else if caseOf t ["CommentLine"; "Line"] then case_CommentLine
        (* Type Annotations for Facebook Flow, typically stripped out or
           transformed away before printing. *)
        else if caseOf t ["TypeAnnotation"] then case_TypeAnnotation
        else if caseOf t ["TupleTypeAnnotation"]
        then case_TupleTypeAnnotation
        else if caseOf t ["ExistentialTypeParam"; "ExistsTypeAnnotation"]
        then keyword "*"
        else if caseOf t ["EmptyTypeAnnotation"] then keyword "empty"
        else if caseOf t ["AnyTypeAnnotation"] then keyword "any"
        else if caseOf t ["MixedTypeAnnotation"] then keyword "mixed"
        else if caseOf t ["ArrayTypeAnnotation"]
        then case_ArrayTypeAnnotation
        else if caseOf t ["BooleanTypeAnnotation"] then keyword "boolean"
        else if caseOf t ["NumericLiteralTypeAnnotation";
                          "BooleanLiteralTypeAnnotation"]
        then case_NumericLiteralTypeAnnotation
        else if caseOf t ["DeclareClass"] then case_DeclareClass
        else if caseOf t ["DeclareFunction"] then case_DeclareFunction
        else if caseOf t ["DeclareModule"] then case_DeclareModule
        else if caseOf t ["DeclareModuleExports"]
        then case_DeclareModuleExports
        else if caseOf t ["DeclareVariable"] then case_DeclareVariable
        else if caseOf t ["DeclareExportAllDeclaration"]
        then case_DeclareExportAllDeclaration
        else if caseOf t ["DeclareExportDeclaration"]
        then case_DeclareExportDeclaration
        else if caseOf t ["FunctionTypeAnnotation"]
        then case_FunctionTypeAnnotation
        else if caseOf t ["FunctionTypeParam"] then case_FunctionTypeParam
        else if caseOf t ["GenericTypeAnnotation"]
        then case_GenericTypeAnnotation
        else if caseOf t ["DeclareInterface"] then case_DeclareInterface
        else if caseOf t ["InterfaceDeclaration"]
        then case_InterfaceDeclaration
        else if caseOf t ["ClassImplements"; "InterfaceExtends"]
        then case_GenericTypeAnnotation
        else if caseOf t ["IntersectionTypeAnnotation"]
        then joinedTypes " & "
        else if caseOf t ["NullableTypeAnnotation"]
        then case_NullableTypeAnnotation
        else if caseOf t ["NullLiteralTypeAnnotation"] then keyword "null"
        else if caseOf t ["ThisTypeAnnotation"] then keyword "this"
        else if caseOf t ["NumberTypeAnnotation"] then keyword "number"
        else if caseOf t ["ObjectTypeCallProperty"]
        then case_ObjectTypeCallProperty
        else if caseOf t ["ObjectTypeIndexer"] then case_ObjectTypeIndexer
        else if caseOf t ["ObjectTypeProperty"] then case_ObjectTypeProperty
        else if caseOf t ["QualifiedTypeIdentifier"]
        then case_QualifiedTypeIdentifier
        else if caseOf t ["StringLiteralTypeAnnotation"]
        then case_StringLiteralTypeAnnotation
        else if caseOf t ["NumberLiteralTypeAnnotation"]
        then case_NumberLiteralTypeAnnotation
        else if caseOf t ["StringTypeAnnotation"] then keyword "string"
        else if caseOf t ["DeclareTypeAlias"; "TypeAlias"]
        then case_TypeAlias
        else if caseOf t ["TypeCastExpression"] then case_TypeCastExpression
        else if caseOf t ["TypeParameterDeclaration";
                          "TypeParameterInstantiation"]
        then case_TypeParameterDeclaration
        else if caseOf t ["TypeParameter"] then case_TypeParameter
        else if caseOf t ["TypeofTypeAnnotation"]
        then case_TypeofTypeAnnotation
        else if caseOf t ["UnionTypeAnnotation"] then joinedTypes " | "
        else if caseOf t ["VoidTypeAnnotation"] then keyword "void"
        else if caseOf t ["NullTypeAnnotation"] then keyword "null"
        else if caseOf t ["InferredPredicate"] then keyword "%checks"
        else if caseOf t ["DeclaredPredicate"] then case_DeclaredPredicate
        (* Unhandled types below. *)
        else fun _ _ _ => throw (UnknownType (shown t)) in
      rule path options print
    end.

Definition genericPrint (path : Path) (options : Options)
    (printPath : Path -> M Doc) : M Doc :=
  let node := getValue path in
  let* linesWithoutParens := genericPrintNoParens path options printPath in
  if negb (truthy node) || isEmpty linesWithoutParens
  then ret linesWithoutParens
  else
    let withLine (printed : list Doc) : list Doc :=
      flat_map (fun d => [d; line]) printed in
    let* decorators := getField node "decorators" in
    let* some := nonEmpty decorators in
    let* own :=
      if some then
        (* If the parent node is an export declaration, it will be
           responsible for printing node.decorators. *)
        read (fun σ =>
                negb (truthy (util_getParentExportDeclaration host σ path)))
      else ret false in
    if own then
      let* printed := map_ path printPath ["decorators"] in
      ret (concat (withLine printed ++ [linesWithoutParens]))
    else
      let* isExport := read (fun σ => util_isExportDeclaration host σ node) in
      let* declaration := getField node "declaration" in
      let* exported :=
        if isExport && truthy declaration then
          let* d := getProp declaration "decorators" in ret (truthy d)
        else ret false in
      if exported then
        (* Export declarations are responsible for printing any decorators
           that logically apply to node.declaration. *)
        let* printed := map_ path printPath ["declaration"; "decorators"] in
        ret (concat (withLine printed ++ [linesWithoutParens]))
      else
        (* Nodes with decorators can't have parentheses, so we can avoid
           computing path.needsParens() except in this case. *)
        let* needsParens := read (fun σ => path_needsParens host σ path) in
        if needsParens : bool then
          ret (concat [txt "("; linesWithoutParens; txt ")"])
        else
          ret (concat [linesWithoutParens]).

(** ** The [Printer] object *)

Section PrinterObject.

Context (explicitTabWidth : sval) (options : Options).

Fixpoint printWithComments (fuel : nat) (path : Path) : M Doc :=
  match fuel with
  | O => throw OutOfFuel
  | S fuel' =>
      let printRootGenerically (p : Path) : M Doc :=
        genericPrint p options (printWithComments fuel') in
      let maybeReprint := printRootGenerically in
      let print (p : Path) : M Doc :=
        if negb (truthy explicitTabWidth) then
          let* node := getNode ext p in
          let* loc := getProp node "loc" in
          let* lines := getField loc "lines" in
          let* guessTabWidth := getField lines "guessTabWidth" in
          if truthy loc && truthy lines && truthy guessTabWidth then
            (* the field holds data, and calling it throws *)
            throw TypeError
          else maybeReprint p
        else maybeReprint p in
      comments_printComments host path print
  end.

Fixpoint printGenerically (fuel : nat) (path : Path) : M Doc :=
  match fuel with
  | O => throw OutOfFuel
  | S fuel' =>
      comments_printComments host path
        (fun p => genericPrint p options (printGenerically fuel'))
  end.

Definition Printer_print (fuel : nat) (ast : sval) : M PrintResult :=
  if negb (truthy ast) then lift Printer.emptyPrintResult
  else
    let* lines := printWithComments fuel (mkPath ast []) in
    let* code := lift (lines_toString ext lines options) in
    let* generated :=
      lift (lines_getSourceMap ext lines (sourceMapName options)
              (sourceRoot options)) in
    let* composed :=
      lift (composeSourceMaps ext (inputSourceMap options) generated) in
    lift (Printer.new_PrintResult code composed).

Definition Printer_printGenerically (fuel : nat) (ast : sval)
  : M PrintResult :=
  if negb (truthy ast) then lift Printer.emptyPrintResult
  else
    let path := mkPath ast [] in
    let* res := printGenerically fuel path in
    let* text := lift (pp_print ext (wrapColumn options) res) in
    lift (Printer.new_PrintResult text VUndef).

End PrinterObject.

End Translator.

End Whole.

(** ** Samples for the whole translator *)

Module WholeSample.

(** Collaborators that add nothing: no parentheses, no comments, no
    export parent. *)
Definition host : Host :=
  mkHost (fun _ _ => false) (fun _ _ => Store.SNull) (fun _ _ => false)
    (fun path print => print path)
    (fun _ => false) (fun _ => false)
    (fun sep parts => Ok (join sep parts)) (fun _ _ _ => Ok (txt ""))
    (fun d width => Ok (Printer.indent width d)) (fun _ => false)
    (fun s => s) (fun _ _ => lit "[object Object]") false.

(** [({ m() {} })] in a store: the object, its list of properties, and the
    method of [Sample.methodStore] moved behind them. *)
Definition objectStore : Store.store :=
  {[ 1%positive :=
       Store.Obj {[ lit "type" := Store.SStr (lit "ObjectExpression");
                    lit "properties" := Store.SRef 2%positive ]};
     2%positive := Store.Arr [Store.SRef 3%positive];
     3%positive :=
       Store.Obj {[ lit "type" := Store.SStr (lit "ObjectMethod");
                    lit "kind" := Store.SStr (lit "method");
                    lit "method" := Store.SBool true;
                    lit "key" := Store.SRef 4%positive;
                    lit "params" := Store.SRef 5%positive;
                    lit "body" := Store.SRef 6%positive ]};
     4%positive :=
       Store.Obj {[ lit "type" := Store.SStr (lit "Identifier");
                    lit "name" := Store.SStr (lit "m") ]};
     5%positive := Store.Arr [];
     6%positive :=
       Store.Obj {[ lit "type" := Store.SStr (lit "BlockStatement");
                    lit "body" := Store.SRef 7%positive ]};
     7%positive := Store.Arr [] ]}.

(** [f({})] as a tree. *)
Definition callWithEmptyObject : value :=
  Sample.node "CallExpression"
    [("callee", Sample.node "Identifier" [("name", Sample.str "f")]);
     ("arguments",
      VArr [Sample.node "ObjectExpression" [("properties", VArr [])]])].

End WholeSample.

(** * Properties *)

(** ** Strings *)

Lemma jseqb_eq (a b : jsstring) : jseqb a b = true <-> a = b.
Proof.
  revert b; induction a as [|x a IH]; intros [|y b]; simpl; try easy.
  rewrite andb_true_iff, N.eqb_eq, IH. split.
  - intros [-> ->]; reflexivity.
  - intros [= -> ->]; auto.
Qed.

Lemma jseqb_refl (a : jsstring) : jseqb a a = true.
Proof. apply jseqb_eq; reflexivity. Qed.

Lemma isStr_true (v : value) (s : string) :
  isStr v s = true <-> v = VStr (lit s).
Proof.
  destruct v; simpl; try (split; [discriminate | intros [=]]).
  rewrite jseqb_eq. split; [intros -> | intros [= ->]]; reflexivity.
Qed.

Lemma length_swapQuotes (s : jsstring) :
  length (Printer.swapQuotes s) = length s.
Proof. unfold Printer.swapQuotes. apply length_fmap. Qed.

Lemma swapQuotes_cons (c : N) (s : jsstring) :
  Printer.swapQuotes (c :: s) =
  (if c =? DQUOTE then SQUOTE else if c =? SQUOTE then DQUOTE else c)
    :: Printer.swapQuotes s.
Proof. reflexivity. Qed.

(** Swapping the quotes of a string changes the length of its quoted body
    by the difference of the two counts: every double quote costs two units
    before and one after, every single quote one before and two after. *)
Lemma length_quoteBody_swapQuotes (wf : bool) (s : jsstring) :
  (length (JSON.quoteBody wf (Printer.swapQuotes s)) + occurrences DQUOTE s
   = length (JSON.quoteBody wf s) + occurrences SQUOTE s)%nat.
Proof.
  remember (length s) as n eqn:Hn.
  assert (Hle : (length s <= n)%nat) by lia. clear Hn.
  revert s Hle. induction n as [|n IH]; intros [|c rest] Hle;
    simpl in Hle; try lia; try reflexivity.
  assert (IHrest := IH rest ltac:(lia)).
  rewrite swapQuotes_cons.
  destruct (c =? DQUOTE) eqn:Hdq.
  { apply N.eqb_eq in Hdq; subst c.
    destruct wf; simpl; lia. }
  destruct (c =? SQUOTE) eqn:Hsq.
  { apply N.eqb_eq in Hsq; subst c.
    destruct wf; simpl; lia. }
  cbn [JSON.quoteBody occurrences]. rewrite Hdq, Hsq.
  destruct (wf && JSON.isLeadingSurrogate c).
  - destruct rest as [|d rest']; [reflexivity|].
    rewrite swapQuotes_cons.
    assert (Hd : JSON.isTrailingSurrogate
                   (if d =? DQUOTE then SQUOTE
                    else if d =? SQUOTE then DQUOTE else d)
                 = JSON.isTrailingSurrogate d).
    { destruct (d =? DQUOTE) eqn:E1; [apply N.eqb_eq in E1; subst d; reflexivity|].
      destruct (d =? SQUOTE) eqn:E2; [apply N.eqb_eq in E2; subst d; reflexivity|].
      reflexivity. }
    rewrite Hd. destruct (JSON.isTrailingSurrogate d) eqn:Ht.
    + assert (E1 : (d =? DQUOTE) = false).
      { apply N.eqb_neq; intros ->; discriminate Ht. }
      assert (E2 : (d =? SQUOTE) = false).
      { apply N.eqb_neq; intros ->; discriminate Ht. }
      rewrite E1, E2. simpl in Hle.
      assert (IH' := IH rest' ltac:(lia)).
      cbn [length occurrences]. rewrite E1, E2. lia.
    + rewrite <- swapQuotes_cons. rewrite !length_app. lia.
  - destruct (wf && JSON.isTrailingSurrogate c); rewrite !length_app; lia.
Qed.

(** ** C1: the quote character under [auto] *)

(** C1. Under the quote configuration [auto] a string literal is printed
    with the single quote exactly when its single-quoted rendering is
    strictly shorter than its double-quoted one, which is exactly when the
    string holds strictly fewer single quotes (the occurrences the single
    rendering escapes) than double quotes (those the double rendering
    escapes); otherwise, and so on a tie, with the double quote. *)
Theorem nodeStr_auto_quote (js : Engine) (options : Options) (str : jsstring) :
  isStr (quote options) "auto" = true ->
  let double := JSON.stringify (wellFormedStringify js) str in
  let single :=
    Printer.swapQuotes
      (JSON.stringify (wellFormedStringify js) (Printer.swapQuotes str)) in
  exists out : jsstring,
    Printer.nodeStr js (VStr str) options = Ok out
    /\ (head out = Some SQUOTE <-> (length single < length double)%nat)
    /\ (head out = Some SQUOTE
        <-> (occurrences SQUOTE str < occurrences DQUOTE str)%nat)
    /\ (head out <> Some SQUOTE -> out = double /\ head out = Some DQUOTE)
    /\ (length single = length double -> head out = Some DQUOTE).
Proof.
  intros Hauto double single.
  assert (Hlen : (length single + occurrences DQUOTE str
                  = length double + occurrences SQUOTE str)%nat).
  { subst single double. rewrite length_swapQuotes. unfold JSON.stringify.
    cbn [length]. rewrite !length_app. cbn [length].
    pose proof (length_quoteBody_swapQuotes (wellFormedStringify js) str). lia. }
  assert (Hs : head single = Some SQUOTE) by reflexivity.
  assert (Hd : head double = Some DQUOTE) by reflexivity.
  unfold Printer.nodeStr. cbn [bind]. rewrite Hauto.
  fold double. fold single.
  destruct (length single <? length double)%nat eqn:Hlt.
  - apply Nat.ltb_lt in Hlt. exists single. rewrite Hs.
    repeat split; auto; try lia; try congruence.
  - apply Nat.ltb_ge in Hlt. exists double. rewrite Hd.
    repeat split; auto; try lia; try discriminate.
Qed.

Lemma nodeStr_auto_quote_witness :
  exists out : jsstring,
    Printer.nodeStr (mkEngine true (fun _ => [])  (fun _ => PrimFloat.nan))
      (VStr (lit "say 'hi'"))
      (mkOptions 2 80 (VStr (lit "auto")) true VUndef VUndef VUndef) = Ok out
    /\ head out = Some DQUOTE.
Proof.
  destruct (nodeStr_auto_quote
              (mkEngine true (fun _ => []) (fun _ => PrimFloat.nan))
              (mkOptions 2 80 (VStr (lit "auto")) true VUndef VUndef VUndef)
              (lit "say 'hi'") eq_refl)
    as (out & Hout & _ & _ & _ & Htie).
  exists out. split; [exact Hout|].
  cbv in Hout. injection Hout as <-. reflexivity.
Defined.

(** ** Dispatch on the kind *)

Lemma caseOf_app (t : value) (l1 l2 : list string) :
  caseOf t (l1 ++ l2) = caseOf t l1 || caseOf t l2.
Proof. unfold caseOf. apply existsb_app. Qed.

Lemma caseOf_false_In (t : value) (labels : list string) (k : string) :
  caseOf t labels = false -> In k labels -> isStr t k = false.
Proof.
  unfold caseOf. intros H Hin.
  destruct (isStr t k) eqn:E; [|reflexivity].
  assert (existsb (isStr t) labels = true) as H'
    by (apply existsb_exists; eauto).
  congruence.
Qed.

(** No label of [sub] matches when no label of a list that holds them all
    does. *)
Lemma caseOf_false_sub (t : value) (all sub : list string) :
  caseOf t all = false ->
  forallb (fun k => existsb (String.eqb k) all) sub = true ->
  caseOf t sub = false.
Proof.
  intros Hall Hsub. unfold caseOf.
  destruct (existsb (isStr t) sub) eqn:E; [|reflexivity].
  apply existsb_exists in E as (k & Hk & Hm).
  rewrite forallb_forall in Hsub. specialize (Hsub k Hk).
  apply existsb_exists in Hsub as (k' & Hk' & Heq).
  apply String.eqb_eq in Heq; subst k'.
  rewrite (caseOf_false_In t all k Hall Hk') in Hm. discriminate.
Qed.

Ltac no_case H :=
  repeat match goal with
  | |- context [caseOf ?t ?l] =>
      rewrite (caseOf_false_sub t _ l H eq_refl)
  end.

(** Deciding the tests of a [switch] once the kind is known. *)
Ltac dispatch :=
  repeat match goal with
  | |- context [caseOf (VStr (lit ?k)) ?l] =>
      let b := eval vm_compute in (caseOf (VStr (lit k)) l) in
      change (caseOf (VStr (lit k)) l) with b
  | |- context [isStr (VStr (lit ?k)) ?s] =>
      let b := eval vm_compute in (isStr (VStr (lit k)) s) in
      change (isStr (VStr (lit k)) s) with b
  end;
  cbv iota.

(** Entering the rule of a node: [Hn] gives the node the path stands on
    and [Ht] its kind. *)
Ltac enter_rule Hn Ht :=
  rewrite Hn; cbn [truthy negb getField]; cbv zeta; rewrite ?Ht; dispatch.

(** Reading fields and walking into them. *)
Ltac walk Hn :=
  unfold map_, call; cbn [descend];
  repeat (rewrite ?Hn;
          cbn [descend bind getProp getField getValue push frames root
               asList mapM elementPaths imap app List.concat]).

(** The rule of the literal kinds hands a string value to [nodeStr] and
    prints what it returns. *)
Lemma string_literal_rule (js : Engine) (ext : Externals) (options : Options)
    (path : Path) (print : Path -> result Doc) (fs : list (jsstring * value))
    (str : jsstring) :
  getValue path = VObj fs ->
  caseOf (assoc (lit "type") fs)
    ["BooleanLiteral"; "NumericLiteral"; "StringLiteral"; "Literal"] = true ->
  assoc (lit "value") fs = VStr str ->
  Printer.genericPrintNoParens js ext path options print
  = let! printed := Printer.nodeStr js (VStr str) options in Ok (Text printed).
Proof.
  intros Hn Hkind Hvalue.
  assert (Hcases : exists k,
             assoc (lit "type") fs = VStr (lit k)
             /\ In k ["BooleanLiteral"; "NumericLiteral"; "StringLiteral";
                      "Literal"]).
  { unfold caseOf in Hkind. apply existsb_exists in Hkind as (k & Hk & Hm).
    apply isStr_true in Hm. eauto. }
  destruct Hcases as (k & Ht & Hk).
  unfold Printer.genericPrintNoParens.
  cbn [In] in Hk. destruct Hk as [<- | [<- | [<- | [<- | []]]]];
    enter_rule Hn Ht; rewrite Hvalue; reflexivity.
Qed.

(** ** Substrings *)

Lemma startsWith_spec (needle s : jsstring) :
  JSString.startsWith needle s = true <-> exists post, s = needle ++ post.
Proof.
  revert s; induction needle as [|x needle IH]; intros s; simpl.
  - split; eauto.
  - destruct s as [|y s].
    + split; [discriminate | intros (post & H); discriminate].
    + rewrite andb_true_iff, N.eqb_eq, IH. split.
      * intros (-> & post & ->). eauto.
      * intros (post & [= -> ->]). eauto.
Qed.

Lemma includes_spec (s needle : jsstring) :
  JSString.includes s needle = true <-> JSString.contains s needle.
Proof.
  unfold JSString.contains. induction s as [|c s IH]; simpl.
  - rewrite orb_false_r, startsWith_spec. split.
    + intros (post & H). exists [], post. exact H.
    + intros (pre & post & H). destruct pre; simpl in H.
      * eauto.
      * discriminate.
  - rewrite orb_true_iff, startsWith_spec, IH. split.
    + intros [(post & H) | (pre & post & H)].
      * exists [], post. exact H.
      * exists (c :: pre), post. simpl. congruence.
    + intros (pre & post & H). destruct pre as [|c' pre]; simpl in H.
      * left. eauto.
      * right. injection H as -> ->. eauto.
Qed.

Lemma includes_false (s needle : jsstring) :
  JSString.includes s needle = false <-> ~ JSString.contains s needle.
Proof.
  rewrite <- includes_spec. destruct (JSString.includes s needle); split;
    congruence.
Qed.

(** ** C7: the delimiters of a template comment *)

(** C7. A mustache comment of the template dialect is printed between
    [{{!] and [}}] when its trimmed text contains neither [{{] nor [}}],
    and between [{{!--] and [--}}] when it contains either; this holds for
    both variants of the translator. *)
Theorem comment_delimiters (js : Engine) (path : Path) (options : Options)
    (print : Path -> result Doc) (fs : list (jsstring * value))
    (value : jsstring) :
  getValue path = VObj fs ->
  assoc (lit "type") fs = VStr (lit "MustacheCommentStatement") ->
  assoc (lit "value") fs = VStr value ->
  let text := JSString.trim value in
  let rendered (open close : string) : result Doc :=
    Ok (group (concat [txt open; line; Text text; line; txt close])) in
  (~ JSString.contains text (lit "{{") /\ ~ JSString.contains text (lit "}}") ->
   Handlebars.printPath js path options print = rendered "{{!" "}}"
   /\ Handlebars.printPath_part_000 path options print = rendered "{{!" "}}")
  /\
  (JSString.contains text (lit "{{") \/ JSString.contains text (lit "}}") ->
   Handlebars.printPath js path options print = rendered "{{!--" "--}}"
   /\ Handlebars.printPath_part_000 path options print = rendered "{{!--" "--}}").
Proof.
  intros Hn Ht Hv text rendered.
  assert (Hrun : forall b,
             JSString.includes text (lit "{{")
             || JSString.includes text (lit "}}") = b ->
             Handlebars.printPath js path options print
             = rendered (if b then "{{!--" else "{{!") (if b then "--}}" else "}}")
             /\ Handlebars.printPath_part_000 path options print
                = rendered (if b then "{{!--" else "{{!")
                    (if b then "--}}" else "}}")).
  { intros b Hb.
    unfold Handlebars.printPath, Handlebars.printPath_part_000.
    rewrite Hn. cbn [truthy negb getField]. rewrite Ht.
    cbn -[JSString.trim JSString.includes lit].
    rewrite Hv. cbn -[JSString.trim JSString.includes lit]. fold text.
    rewrite Hb. destruct b; split; reflexivity. }
  split.
  - intros [H1 H2]. apply (Hrun false).
    apply includes_false in H1, H2. rewrite H1, H2. reflexivity.
  - intros H. apply (Hrun true). apply orb_true_iff.
    rewrite !includes_spec. exact H.
Qed.

Lemma comment_delimiters_witness :
  Handlebars.printPath Sample.js (FastPath_from Sample.comment)
    Sample.options (fun _ => Ok (txt ""))
  = Ok (group (concat [txt "{{!--"; line; Text (lit "a {{b}}"); line;
                       txt "--}}"])).
Proof.
  refine (proj1 (proj2 (comment_delimiters Sample.js
                          (FastPath_from Sample.comment) Sample.options
                          (fun _ => Ok (txt ""))
                          _ (lit " a {{b}} ") eq_refl eq_refl eq_refl) _)).
  left. exists (lit "a "), (lit "b}}"). reflexivity.
Defined.

(** ** C4: a kind without a rule *)

(** C4. A node whose kind has no rule in the dispatch table makes the
    translation fail at once: [genericPrintNoParens] and [genericPrint] of
    the JavaScript translator return the error of the [default] case (or of
    the abstract kinds) and no document, and so do [printPath] of the
    template translator, its shorter variant, and the translation of a
    whole template tree. *)
Theorem unsupported_kind_aborts (js : Engine) (ext : Externals)
    (options : Options) (path : Path) (print : Path -> result Doc) :
  let n := getValue path in
  let t := getField n "type" in
  truthy n = true ->
  (forall s, n <> VStr s) ->
  (caseOf t Printer.ruleKinds = false ->
   exists e,
     (e = UnknownType t \/ e = UnprintableType t)
     /\ Printer.genericPrintNoParens js ext path options print = Err e
     /\ Printer.genericPrint js ext path options print = Err e)
  /\ (caseOf t Handlebars.ruleKinds = false ->
      Handlebars.printPath js path options print = Err (UnsupportedHandlebarsType t)
      /\ forall fuel,
          Handlebars.printAll js options (S fuel) path
          = Err (UnsupportedHandlebarsType t))
  /\ (caseOf t Handlebars.ruleKinds_part_000 = false ->
      Handlebars.printPath_part_000 path options print
      = Err (UnsupportedHandlebarsType t)).
Proof.
  intros n t Htruthy Hnostr.
  split; [|split].
  - intros Hno.
    assert (Hrun : Printer.genericPrintNoParens js ext path options print
                   = if caseOf t Printer.abstractKinds
                     then Err (UnprintableType t) else Err (UnknownType t)).
    { unfold Printer.genericPrintNoParens. fold n. rewrite Htruthy.
      cbn [negb]. destruct n eqn:En; try (exfalso; eapply Hnostr; eauto; fail);
        fold t; no_case Hno; reflexivity. }
    exists (if caseOf t Printer.abstractKinds
            then UnprintableType t else UnknownType t).
    unfold Printer.genericPrint. rewrite Hrun.
    destruct (caseOf t Printer.abstractKinds); cbn [bind]; auto.
  - intros Hno.
    assert (Hrun : forall pr,
               Handlebars.printPath js path options pr
               = Err (UnsupportedHandlebarsType t)).
    { intros pr. unfold Handlebars.printPath. fold n. rewrite Htruthy.
      cbn [negb]. destruct n eqn:En; try (exfalso; eapply Hnostr; eauto; fail);
        fold t; no_case Hno; reflexivity. }
    split; [apply Hrun | intros fuel; apply Hrun].
  - intros Hno. unfold Handlebars.printPath_part_000. fold n. rewrite Htruthy.
    cbn [negb]. destruct n eqn:En; try (exfalso; eapply Hnostr; eauto; fail);
      fold t; no_case Hno; reflexivity.
Qed.

Lemma unsupported_kind_aborts_witness :
  (exists e,
     (e = UnknownType (Sample.str "XMLText")
      \/ e = UnprintableType (Sample.str "XMLText"))
     /\ Printer.genericPrintNoParens Sample.js Sample.ext
          (FastPath_from (Sample.node "XMLText" [])) Sample.options
          (fun _ => Ok (txt "")) = Err e
     /\ Printer.genericPrint Sample.js Sample.ext
          (FastPath_from (Sample.node "XMLText" [])) Sample.options
          (fun _ => Ok (txt "")) = Err e)
  /\ Handlebars.printPath Sample.js (FastPath_from (Sample.node "XMLText" []))
       Sample.options (fun _ => Ok (txt ""))
     = Err (UnsupportedHandlebarsType (Sample.str "XMLText")).
Proof.
  pose proof (unsupported_kind_aborts Sample.js Sample.ext Sample.options
                (FastPath_from (Sample.node "XMLText" []))
                (fun _ => Ok (txt "")) eq_refl
                ltac:(intros s; discriminate)) as (Hjs & Hhbs & _).
  split.
  - exact (Hjs eq_refl).
  - exact (proj1 (Hhbs eq_refl)).
Defined.

(** An unknown kind below a known one: the error of the inner node is the
    result of the whole translation. *)
Example unknown_kind_inside_statement :
  Printer.printGenerically Sample.js Sample.ext Sample.options 3
    (FastPath_from
       (Sample.node "ExpressionStatement"
          [("expression", Sample.node "XMLText" [])]))
  = Err (UnknownType (Sample.str "XMLText")).
Proof. reflexivity. Qed.

(** ** C3: void elements *)

Lemma voidTagsAt_void (js : Engine) (tag : jsstring) :
  In tag (lit <$> Handlebars.voidTags) ->
  Handlebars.voidTagsAt js (VStr tag) = true.
Proof.
  intros Hin. unfold Handlebars.voidTagsAt. apply orb_true_iff. left.
  apply list_elem_of_In, list_elem_of_fmap in Hin as (t & -> & Ht).
  apply existsb_exists. exists t. split.
  - apply list_elem_of_In, Ht.
  - apply jseqb_refl.
Qed.

(** C3, as stated, fails: a [br] element that has a child recorded is
    printed with a closing tag, not in the self-closing form. *)
Lemma void_element_with_children_is_paired :
  Handlebars.printAll Sample.js Sample.options 3 (FastPath_from Sample.brWithChild)
  = Ok (Handlebars.pairedForm (txt "br")
          (concat [txt ""; Handlebars.indent (concat [])])
          (concat [txt "x"]))
  /\ forall attributes children,
       Handlebars.printAll Sample.js Sample.options 3 (FastPath_from Sample.brWithChild)
       <> Ok (Handlebars.voidForm (txt "br") attributes children).
Proof.
  split; [reflexivity | intros attributes children; discriminate].
Qed.

(** C3 (amended). Take an element whose [name], the key the translator
    looks up among the void tags, is its [tag] and is a void tag. Without
    children it is printed in the self-closing form [<tag attributes>],
    closed by [>], with no closing tag; with children recorded it is
    printed with its children and the closing tag [</tag>]. *)
Theorem void_element_self_closes (js : Engine) (path : Path)
    (options : Options) (print : Path -> result Doc)
    (fs : list (jsstring * value)) (tag : jsstring) (recorded : list value)
    (attributes children : Doc) :
  getValue path = VObj fs ->
  assoc (lit "type") fs = VStr (lit "ElementNode") ->
  assoc (lit "tag") fs = VStr tag ->
  assoc (lit "name") fs = VStr tag ->
  In tag (lit <$> Handlebars.voidTags) ->
  assoc (lit "children") fs = VArr recorded ->
  Handlebars.printChildren "children" path print = Ok children ->
  Handlebars.printAttributes path print = Ok attributes ->
  Handlebars.printPath js path options print
  = Ok (match recorded with
        | [] => Handlebars.voidForm (Text tag) attributes children
        | _ :: _ => Handlebars.pairedForm (Text tag) attributes children
        end)
  /\ (recorded = [] -> children = concat []).
Proof.
  intros Hn Ht Htag Hname Hvoid Hrec Hch Hattrs. split.
  - unfold Handlebars.printPath. enter_rule Hn Ht.
    rewrite Hname, (voidTagsAt_void js tag Hvoid), Hch, Hattrs, Hrec, Htag.
    destruct recorded; reflexivity.
  - intros ->. unfold Handlebars.printChildren in Hch. revert Hch.
    walk Hn. rewrite Hrec. walk Hn. intros [= <-]. reflexivity.
Qed.

Lemma void_element_self_closes_witness :
  Handlebars.printPath Sample.js (FastPath_from Sample.br) Sample.options
    (fun _ => Ok (txt ""))
  = Ok (Handlebars.voidForm (txt "br")
          (concat [txt ""; Handlebars.indent (concat [])]) (concat [])).
Proof.
  refine (proj1 (void_element_self_closes Sample.js (FastPath_from Sample.br)
                   Sample.options (fun _ => Ok (txt "")) _ (lit "br") []
                   (concat [txt ""; Handlebars.indent (concat [])])
                   (concat [])
                   eq_refl eq_refl eq_refl eq_refl _ eq_refl eq_refl eq_refl)).
  cbn. tauto.
Defined.

(** The lookup goes by [name], which the template parser does not record:
    a [br] element without that field gets the space-slash form. *)
Example void_element_without_name :
  Handlebars.printPath Sample.js
    (FastPath_from
       (Sample.node "ElementNode"
          [("tag", Sample.str "br"); ("attributes", VArr []);
           ("children", VArr [])]))
    Sample.options (fun _ => Ok (txt ""))
  = Ok (group (concat [txt "<"; txt "br";
                       concat [txt ""; Handlebars.indent (concat [])];
                       txt " />"; Handlebars.indent (concat []); hardline])).
Proof. reflexivity. Qed.

(** ** C5: call arguments *)

Lemma firstStringIs_true (d : Doc) (s : string) :
  firstStringIs d s = true <-> getFirstString d = Some (lit s).
Proof.
  unfold firstStringIs. destruct (getFirstString d) as [t|].
  - rewrite jseqb_eq. split; [intros -> | intros [= ->]]; reflexivity.
  - split; discriminate.
Qed.

(** C5, as stated, fails: the only argument of [f({})] prints as the one
    text [{}], a document that begins with [{], and it is not put between
    the parens as it is, but inside the indentation between two
    softlines. *)
Lemma call_with_empty_object_is_indented :
  let print (p : Path) : result Doc :=
    Printer.genericPrint Sample.js Sample.ext p Sample.options
      (fun _ => Ok (txt "")) in
  let path := FastPath_from WholeSample.callWithEmptyObject in
  let only := concat [txt "{}"] in
  let between (args : Doc) : result Doc :=
    Ok (concat [txt ""; multilineGroup (concat [txt "("; args; txt ")"])]) in
  map_ path print ["arguments"] = Ok [only]
  /\ (exists text, getFirstString only = Some text
                   /\ JSString.startsWith (lit "{") text = true)
  /\ Printer.genericPrintNoParens Sample.js Sample.ext path Sample.options print
     = between (concat [Printer.indent 2 (concat [softline; concat [only]]);
                        softline])
  /\ Printer.genericPrintNoParens Sample.js Sample.ext path Sample.options print
     <> between only.
Proof.
  cbv zeta. split; [reflexivity|]. split.
  - exists (lit "{}"). split; reflexivity.
  - split; [reflexivity | vm_compute; discriminate].
Qed.

(** C5 (amended). The arguments of a call are printed, after the callee,
    as an exclusive group between the parens: nothing for no argument; the
    document of the argument itself when there is one and the first text
    of its document is exactly [{]; otherwise, also for one argument whose
    first text only starts with [{], the arguments joined by a comma and a
    line, led by a softline inside an indentation and followed by a
    softline. *)
Theorem call_arguments (js : Engine) (ext : Externals) (options : Options)
    (path : Path) (print : Path -> result Doc) (fs : list (jsstring * value))
    (callee : Doc) (printed : list Doc) :
  getValue path = VObj fs ->
  assoc (lit "type") fs = VStr (lit "CallExpression") ->
  call path print ["callee"] = Ok callee ->
  map_ path print ["arguments"] = Ok printed ->
  let between (args : Doc) : Doc :=
    multilineGroup (concat [txt "("; args; txt ")"]) in
  let broken : Doc :=
    concat [Printer.indent (tabWidth options)
              (concat [softline; join (concat [txt ","; line]) printed]);
            softline] in
  exists arguments : Doc,
    Printer.genericPrintNoParens js ext path options print
    = Ok (concat [callee; arguments])
    /\ (printed = [] -> arguments = between (txt ""))
    /\ (forall only, printed = [only] ->
        getFirstString only = Some (lit "{") -> arguments = between only)
    /\ (forall only, printed = [only] ->
        getFirstString only <> Some (lit "{") -> arguments = between broken)
    /\ ((2 <= length printed)%nat -> arguments = between broken).
Proof.
  intros Hn Ht Hcallee Hargs between broken.
  unfold Printer.genericPrintNoParens. rewrite Hn. cbn [truthy negb getField].
  rewrite Ht. cbn -[lit call Printer.printArgumentsList].
  rewrite Hcallee. cbn [bind]. unfold Printer.printArgumentsList.
  rewrite Hargs. cbn [bind].
  eexists. split; [reflexivity|].
  fold broken.
  destruct printed as [|d [|d' printed']].
  - repeat split; try reflexivity; try discriminate; cbn [length]; lia.
  - cbn [length Nat.eqb andb nth].
    destruct (firstStringIs d "{") eqn:E.
    + apply firstStringIs_true in E.
      repeat split; try discriminate; try (cbn [length]; lia).
      * intros only [= <-] _. reflexivity.
      * intros only [= <-] Hne. contradiction.
    + assert (Hne : getFirstString d <> Some (lit "{")).
      { intros H. apply firstStringIs_true in H. congruence. }
      repeat split; try discriminate; try reflexivity.
      intros only [= <-] H. contradiction.
  - repeat split; try discriminate; reflexivity.
Qed.

Lemma call_arguments_witness :
  exists arguments : Doc,
    Printer.genericPrintNoParens Sample.js Sample.ext
      (FastPath_from
         (Sample.node "CallExpression"
            [("callee", Sample.str "f");
             ("arguments", VArr [Sample.str "{"])]))
      Sample.options (fun p => Ok (Text (ToString Sample.js (getValue p))))
    = Ok (concat [txt "f"; arguments])
    /\ arguments = multilineGroup (concat [txt "("; txt "{"; txt ")"]).
Proof.
  destruct (call_arguments Sample.js Sample.ext Sample.options
              (FastPath_from
                 (Sample.node "CallExpression"
                    [("callee", Sample.str "f");
                     ("arguments", VArr [Sample.str "{"])]))
              (fun p => Ok (Text (ToString Sample.js (getValue p))))
              _ (txt "f") [txt "{"] eq_refl eq_refl eq_refl eq_refl)
    as (arguments & Hrun & _ & Hone & _).
  exists arguments. split; [exact Hrun|].
  exact (Hone (txt "{") eq_refl eq_refl).
Defined.

(** ** C10: the empty object *)

(** C10. An object expression, object pattern or object type annotation
    without members (no properties and, for the type annotation, no
    indexers and no call properties) is printed as the text [{}], whatever
    its [exact] and [typeAnnotation] fields hold. *)
Theorem empty_object_braces (js : Engine) (ext : Externals) (options : Options)
    (path : Path) (print : Path -> result Doc) (fs : list (jsstring * value)) :
  getValue path = VObj fs ->
  let t := assoc (lit "type") fs in
  caseOf t ["ObjectExpression"; "ObjectPattern"; "ObjectTypeAnnotation"] = true ->
  assoc (lit "properties") fs = VArr [] ->
  (isStr t "ObjectTypeAnnotation" = true ->
   assoc (lit "indexers") fs = VArr []
   /\ assoc (lit "callProperties") fs = VArr []) ->
  Printer.genericPrintNoParens js ext path options print = Ok (txt "{}").
Proof.
  intros Hn t Hkind Hprops Htype.
  assert (Hcases : t = VStr (lit "ObjectExpression")
                   \/ t = VStr (lit "ObjectPattern")
                   \/ t = VStr (lit "ObjectTypeAnnotation")).
  { unfold caseOf in Hkind. cbn [existsb] in Hkind.
    rewrite !orb_true_iff, !isStr_true in Hkind.
    destruct Hkind as [H | [H | [H | H]]]; auto; discriminate. }
  unfold Printer.genericPrintNoParens.
  destruct Hcases as [E | [E | E]]; unfold t in E; enter_rule Hn E; walk Hn.
  - rewrite Hprops. reflexivity.
  - rewrite Hprops. reflexivity.
  - destruct Htype as [Hidx Hcall]; [unfold t; rewrite E; reflexivity|].
    rewrite Hidx. walk Hn. rewrite Hcall. walk Hn. rewrite Hprops. reflexivity.
Qed.

Lemma empty_object_braces_witness :
  Printer.genericPrintNoParens Sample.js Sample.ext
    (FastPath_from
       (Sample.node "ObjectTypeAnnotation"
          [("exact", VBool true); ("indexers", VArr []);
           ("callProperties", VArr []); ("properties", VArr []);
           ("typeAnnotation", Sample.node "TypeAnnotation" [])]))
    Sample.options (fun _ => Ok (txt "T"))
  = Ok (txt "{}").
Proof.
  apply (empty_object_braces Sample.js Sample.ext Sample.options
           (FastPath_from
              (Sample.node "ObjectTypeAnnotation"
                 [("exact", VBool true); ("indexers", VArr []);
                  ("callProperties", VArr []); ("properties", VArr []);
                  ("typeAnnotation", Sample.node "TypeAnnotation" [])]))
           (fun _ => Ok (txt "T")) _ eq_refl eq_refl eq_refl).
  intros _. split; reflexivity.
Defined.

(** ** C6: the semicolon of a variable declaration *)

Lemma getNodeHelper_node (ext : Externals) (path : Path) (count : nat) :
  Printer.getNodeHelper ext path count = VNull
  \/ Printer.Node_check ext (Printer.getNodeHelper ext path count) = true.
Proof.
  unfold Printer.getNodeHelper.
  destruct (nth_in_or_default count
              (List.filter (Printer.Node_check ext) (stackValues path)) VNull)
    as [Hin | ->]; [right | left; reflexivity].
  apply filter_In in Hin. tauto.
Qed.

(** On a node of the registry the guard of an optional kind is no
    restriction. *)
Lemma checkIfDefined_node (ext : Externals) (X : string) (v : value) :
  v = VNull \/ Printer.Node_check ext v = true ->
  Printer.checkIfDefined ext X v = isStr (getField v "type") X.
Proof.
  unfold Printer.checkIfDefined, Printer.Node_check. intros [-> | Hnode].
  - apply andb_false_r.
  - destruct (isStr (getField v "type") X) eqn:E.
    + apply isStr_true in E. rewrite E in Hnode. rewrite Hnode. reflexivity.
    + apply andb_false_r.
Qed.

(** C6, as stated, fails: a declaration in the head of a [for await] loop,
    a parent that is none of [for], [for-in] and [for-of], is printed
    without the semicolon. *)
Lemma for_await_head_without_semicolon :
  caseOf (getField (Printer.getParentNode Sample.ext Sample.inForAwait) "type")
    ["ForStatement"; "ForInStatement"; "ForOfStatement"] = false
  /\ Printer.genericPrintNoParens Sample.js Sample.ext Sample.inForAwait
       Sample.options (fun _ => Ok (txt "x"))
     = Ok (multilineGroup
             (concat [txt "const"; txt " "; txt "x";
                      Printer.indent 2 (concat [])])).
Proof. split; reflexivity. Qed.

(** C6 (amended). A variable declaration is printed without its closing
    semicolon exactly when its parent node is a [for], [for-in], [for-of]
    or [for await] statement; under every other parent, and without one,
    the printed parts end with [;]. *)
Theorem variable_declaration_semicolon (js : Engine) (ext : Externals)
    (options : Options) (path : Path) (print : Path -> result Doc)
    (fs : list (jsstring * value)) (kind : jsstring) (first : Doc)
    (rest : list Doc) :
  getValue path = VObj fs ->
  assoc (lit "type") fs = VStr (lit "VariableDeclaration") ->
  assoc (lit "kind") fs = VStr kind ->
  map_ path print ["declarations"] = Ok (first :: rest) ->
  namedTypes ext (lit "ForStatement") = true ->
  namedTypes ext (lit "ForInStatement") = true ->
  let parentKind := getField (Printer.getParentNode ext path) "type" in
  let declarators : list Doc :=
    [Text kind; txt " "; first;
     Printer.indent (tabWidth options)
       (concat ((fun p => concat [txt ","; line; p]) <$> rest))] in
  Printer.genericPrintNoParens js ext path options print
  = Ok (multilineGroup
          (concat
             (if caseOf parentKind
                   ["ForStatement"; "ForInStatement"; "ForOfStatement";
                    "ForAwaitStatement"]
              then declarators
              else declarators ++ [txt ";"]))).
Proof.
  intros Hn Ht Hkind Hdecls Hfor Hforin parentKind declarators.
  unfold Printer.genericPrintNoParens. enter_rule Hn Ht.
  rewrite Hdecls. cbn [bind]. unfold Printer.check. rewrite Hfor, Hforin.
  rewrite !(checkIfDefined_node ext _ _ (getNodeHelper_node ext path 1)).
  fold (Printer.getParentNode ext path). fold parentKind.
  rewrite Hkind. cbn [asDoc bind tail]. fold declarators.
  unfold caseOf. cbn [existsb].
  destruct (isStr parentKind "ForStatement"); cbn [bind orb]; [reflexivity|].
  destruct (isStr parentKind "ForInStatement"); cbn [bind orb]; [reflexivity|].
  destruct (isStr parentKind "ForOfStatement"); cbn [bind orb]; [reflexivity|].
  destruct (isStr parentKind "ForAwaitStatement"); reflexivity.
Qed.

Lemma variable_declaration_semicolon_witness :
  Printer.genericPrintNoParens Sample.js Sample.ext Sample.inProgram
    Sample.options (fun _ => Ok (txt "x"))
  = Ok (multilineGroup
          (concat [txt "const"; txt " "; txt "x";
                   Printer.indent 2 (concat []); txt ";"])).
Proof.
  exact (variable_declaration_semicolon Sample.js Sample.ext Sample.options
           Sample.inProgram (fun _ => Ok (txt "x")) _ (lit "const") (txt "x") []
           eq_refl eq_refl eq_refl eq_refl eq_refl eq_refl).
Defined.

(** ** C8: nothing to print *)

(** C8. Given a falsy value for the tree, [print] and [printGenerically]
    of the printer return, without an exception, the result whose code is
    the empty string and which has no source map. *)
Theorem falsy_ast_prints_empty (js : Engine) (ext : Externals)
    (explicitTabWidth : value) (options : Options) (fuel : nat) (ast : value) :
  truthy ast = false ->
  Printer.Printer_print js ext explicitTabWidth options fuel ast
  = Ok (mkPrintResult (lit "") None)
  /\ Printer.Printer_printGenerically js ext options fuel ast
     = Ok (mkPrintResult (lit "") None).
Proof.
  intros Hfalsy.
  unfold Printer.Printer_print, Printer.Printer_printGenerically.
  rewrite Hfalsy. split; reflexivity.
Qed.

Lemma falsy_ast_prints_empty_witness :
  Printer.Printer_print Sample.js Sample.ext VUndef Sample.options 0 VNull
  = Ok (mkPrintResult (lit "") None)
  /\ Printer.Printer_printGenerically Sample.js Sample.ext Sample.options 0
       (VNum PrimFloat.nan)
     = Ok (mkPrintResult (lit "") None).
Proof.
  split.
  - exact (proj1 (falsy_ast_prints_empty Sample.js Sample.ext VUndef
                    Sample.options 0 VNull eq_refl)).
  - exact (proj2 (falsy_ast_prints_empty Sample.js Sample.ext VUndef
                    Sample.options 0 (VNum PrimFloat.nan) eq_refl)).
Defined.

(** ** C9: the order of import specifiers *)

Lemma elementPaths_pathsFrom (q : Path) (l : list value) :
  elementPaths q l = pathsFrom q 0 l.
Proof.
  unfold elementPaths.
  assert (H : forall k, imap (fun i v => push q (Index (k + i)) v) l
                        = pathsFrom q k l).
  { induction l as [|v l IH]; intros k; [reflexivity|].
    cbn [imap pathsFrom]. rewrite Nat.add_0_r. f_equal.
    rewrite <- IH. apply imap_ext. intros i x _. cbn. f_equal. f_equal. lia. }
  apply (H 0%nat).
Qed.

Lemma pathsFrom_app (q : Path) (k : nat) (l1 l2 : list value) :
  pathsFrom q k (l1 ++ l2)
  = pathsFrom q k l1 ++ pathsFrom q (k + length l1) l2.
Proof.
  revert k; induction l1 as [|v l1 IH]; intros k; cbn [pathsFrom app length].
  - rewrite Nat.add_0_r. reflexivity.
  - rewrite IH. do 3 f_equal. lia.
Qed.

Lemma length_pathsFrom (q : Path) (k : nat) (l : list value) :
  length (pathsFrom q k l) = length l.
Proof.
  revert k; induction l as [|v l IH]; intros k; cbn [pathsFrom length]; auto.
Qed.

Lemma Forall_pathsFrom (P : value -> Prop) (q : Path) (k : nat) (l : list value) :
  Forall P l -> Forall (fun p => P (getValue p)) (pathsFrom q k l).
Proof.
  intros H; revert k; induction H; intros k; constructor; auto.
Qed.

Lemma mapM_length {A B} (f : A -> result B) (l : list A) (r : list B) :
  mapM f l = Ok r -> length r = length l.
Proof.
  revert r; induction l as [|a l IH]; intros r; cbn [mapM].
  - intros [= <-]. reflexivity.
  - destruct (f a); cbn [bind]; [|discriminate].
    destruct (mapM f l); cbn [bind]; [|discriminate].
    intros [= <-]. cbn [length]. f_equal. auto.
Qed.

Lemma mapM_app {A B} (f : A -> result B) (l1 l2 : list A) (r : list B) :
  mapM f (l1 ++ l2) = Ok r ->
  exists r1 r2, r = r1 ++ r2 /\ mapM f l1 = Ok r1 /\ mapM f l2 = Ok r2.
Proof.
  revert r; induction l1 as [|a l1 IH]; intros r; cbn [mapM app].
  - intros H. exists [], r. auto.
  - destruct (f a) as [b|]; cbn [bind]; [|discriminate].
    destruct (mapM f (l1 ++ l2)) as [r'|] eqn:E; cbn [bind]; [|discriminate].
    intros [= <-]. destruct (IH r' eq_refl) as (r1 & r2 & -> & -> & ->).
    exists (b :: r1), r2. auto.
Qed.

Lemma mapM_Forall {A B} (f : A -> result B) (l : list A) (r : list B) :
  mapM f l = Ok r -> Forall (fun a => exists b, f a = Ok b) l.
Proof.
  revert r; induction l as [|a l IH]; intros r; cbn [mapM]; [constructor|].
  destruct (f a) as [b|] eqn:E; cbn [bind]; [|discriminate].
  destruct (mapM f l) as [r'|]; cbn [bind]; [|discriminate].
  intros _. constructor; eauto.
Qed.

Lemma commaFrom_app (k : nat) (xs ys : list (list Doc)) :
  Printer.commaFrom k (xs ++ ys)
  = Printer.commaFrom k xs ++ Printer.commaFrom (k + length xs) ys.
Proof.
  revert k; induction xs as [|x xs IH]; intros k;
    cbn [Printer.commaFrom app length].
  - rewrite Nat.add_0_r. reflexivity.
  - rewrite IH, <- !app_assoc.
    replace (k + S (length xs))%nat with (S k + length xs)%nat by lia.
    reflexivity.
Qed.

Section ImportLoop.

Context (ext : Externals) (options : Options) (print : Path -> result Doc).

Hypothesis default_defined : namedTypes ext (lit "ImportDefaultSpecifier") = true.
Hypothesis namespace_defined :
  namedTypes ext (lit "ImportNamespaceSpecifier") = true.
Hypothesis named_defined : namedTypes ext (lit "ImportSpecifier") = true.

Let leftBrace : Doc := if objectCurlySpacing options then txt "{ " else txt "{".

Let sepOf (p : Path) : list Doc :=
  match getName p with
  | Some (Index (S _)) => [txt ", "]
  | _ => []
  end.

(** One turn of the loop on a default or namespace specifier. *)
Lemma importSpecifiers_bare (p : Path) (rest : list Path) (found : bool)
    (parts : list Doc) (d : Doc) :
  Printer.isDefaultOrNamespace (getValue p) ->
  print p = Ok d ->
  Printer.importSpecifiers ext options print (p :: rest) found parts
  = if found then Err AssertionError
    else Printer.importSpecifiers ext options print rest false
           (parts ++ sepOf p ++ [d]).
Proof.
  intros Hkind Hprint. cbn [Printer.importSpecifiers]. unfold Printer.check.
  rewrite default_defined, namespace_defined. cbn [bind].
  assert (Hcheck : (let! isDefault
                    := Ok (isStr (getField (getValue p) "type")
                             "ImportDefaultSpecifier")
                    in if isDefault then Ok true
                       else Ok (isStr (getField (getValue p) "type")
                                  "ImportNamespaceSpecifier"))
                   = Ok true).
  { destruct Hkind as [-> | ->]; reflexivity. }
  cbn [bind] in Hcheck.
  destruct (isStr (getField (getValue p) "type") "ImportDefaultSpecifier");
    [|injection Hcheck as ->];
    cbn [bind]; (destruct found; [reflexivity|]);
    cbn [bind fst snd]; rewrite Hprint; cbn [bind];
    unfold sepOf; destruct (getName p) as [[|[|]]|];
    rewrite <- ?app_assoc; reflexivity.
Qed.

(** One turn of the loop on a named specifier. *)
Lemma importSpecifiers_named (p : Path) (rest : list Path) (found : bool)
    (parts : list Doc) (d : Doc) :
  Printer.isNamedSpecifier (getValue p) ->
  print p = Ok d ->
  Printer.importSpecifiers ext options print (p :: rest) found parts
  = Printer.importSpecifiers ext options print rest true
      (parts ++ sepOf p ++ (if found then [] else [leftBrace]) ++ [d]).
Proof.
  intros Hkind Hprint. cbn [Printer.importSpecifiers]. unfold Printer.check.
  rewrite default_defined, namespace_defined, named_defined.
  red in Hkind. rewrite Hkind. dispatch. cbn [bind].
  destruct found; cbn [bind fst snd]; rewrite Hprint; cbn [bind];
    unfold sepOf, leftBrace; destruct (getName p) as [[|[|]]|];
    rewrite <- ?app_assoc; reflexivity.
Qed.

Let specifier (p : Path) : Prop :=
  (Printer.isNamedSpecifier (getValue p)
   \/ Printer.isDefaultOrNamespace (getValue p))
  /\ exists d, print p = Ok d.

(** After a named specifier a default or namespace one fails the
    assertion. *)
Lemma importSpecifiers_found (ps : list Path) (parts : list Doc) :
  Forall specifier ps ->
  Exists (fun p => Printer.isDefaultOrNamespace (getValue p)) ps ->
  Printer.importSpecifiers ext options print ps true parts
  = Err AssertionError.
Proof.
  intros Hall; revert parts; induction Hall as [|p ps [Hkind [d Hd]] Hall IH];
    intros parts Hex.
  - inversion Hex.
  - destruct Hkind as [Hnamed | Hbare].
    + rewrite (importSpecifiers_named p ps true parts d Hnamed Hd).
      apply IH. inversion Hex as [? ? Hp | ? ? Hps]; subst; [|exact Hps].
      red in Hnamed. destruct Hp as [Hp | Hp]; rewrite Hnamed in Hp;
        discriminate Hp.
    + rewrite (importSpecifiers_bare p ps true parts d Hbare Hd). reflexivity.
Qed.

Lemma importSpecifiers_misordered (ps1 : list Path) (pn : Path)
    (rest : list Path) (found : bool) (parts : list Doc) :
  Forall specifier (ps1 ++ pn :: rest) ->
  Printer.isNamedSpecifier (getValue pn) ->
  Exists (fun p => Printer.isDefaultOrNamespace (getValue p)) rest ->
  Printer.importSpecifiers ext options print (ps1 ++ pn :: rest) found parts
  = Err AssertionError.
Proof.
  intros Hall Hpn Hex. revert found parts.
  induction ps1 as [|p ps1 IH]; intros found parts; cbn [app] in *.
  - inversion Hall as [|? ? [_ [d Hd]] Hrest]; subst.
    rewrite (importSpecifiers_named pn rest found parts d Hpn Hd).
    apply importSpecifiers_found; assumption.
  - inversion Hall as [|? ? [Hkind [d Hd]] Hrest]; subst.
    destruct Hkind as [Hnamed | Hbare].
    + rewrite (importSpecifiers_named p _ found parts d Hnamed Hd).
      apply IH, Hrest.
    + rewrite (importSpecifiers_bare p _ found parts d Hbare Hd).
      destruct found; [reflexivity | apply IH, Hrest].
Qed.

Lemma sepOf_pathsFrom (q : Path) (k : nat) (v : value) :
  sepOf (push q (Index k) v) = Printer.sepAt k.
Proof. destruct k; reflexivity. Qed.

(** The default and namespace specifiers at the head of the list. *)
Lemma importSpecifiers_bare_run (q : Path) (ds : list value) (k : nat)
    (pds : list Doc) (rest : list Path) (parts : list Doc) :
  Forall Printer.isDefaultOrNamespace ds ->
  mapM print (pathsFrom q k ds) = Ok pds ->
  Printer.importSpecifiers ext options print (pathsFrom q k ds ++ rest)
    false parts
  = Printer.importSpecifiers ext options print rest false
      (parts ++ Printer.commaFrom k ((fun d => [d]) <$> pds)).
Proof.
  intros Hds; revert k pds parts.
  induction Hds as [|v ds Hv Hds IH]; intros k pds parts;
    cbn [pathsFrom mapM app].
  - intros [= <-]. cbn. rewrite app_nil_r. reflexivity.
  - destruct (print (push q (Index k) v)) as [d|] eqn:Hd; cbn [bind];
      [|discriminate].
    destruct (mapM print (pathsFrom q (S k) ds)) as [pds'|] eqn:Hrest;
      cbn [bind]; [|discriminate].
    intros [= <-].
    rewrite (importSpecifiers_bare (push q (Index k) v) _ false parts d Hv Hd).
    rewrite (IH (S k) pds' _ Hrest), sepOf_pathsFrom.
    cbn [fmap list_fmap Printer.commaFrom]. rewrite <- !app_assoc. reflexivity.
Qed.

(** The named specifiers once the brace is open. *)
Lemma importSpecifiers_named_run (q : Path) (ns : list value) (k : nat)
    (pns : list Doc) (parts : list Doc) :
  Forall Printer.isNamedSpecifier ns ->
  mapM print (pathsFrom q k ns) = Ok pns ->
  Printer.importSpecifiers ext options print (pathsFrom q k ns) true parts
  = Ok (true, parts ++ Printer.commaFrom k ((fun d => [d]) <$> pns)).
Proof.
  intros Hns; revert k pns parts.
  induction Hns as [|v ns Hv Hns IH]; intros k pns parts;
    cbn [pathsFrom mapM].
  - intros [= <-]. cbn. rewrite app_nil_r. reflexivity.
  - destruct (print (push q (Index k) v)) as [d|] eqn:Hd; cbn [bind];
      [|discriminate].
    destruct (mapM print (pathsFrom q (S k) ns)) as [pns'|] eqn:Hrest;
      cbn [bind]; [|discriminate].
    intros [= <-].
    rewrite (importSpecifiers_named (push q (Index k) v) _ true parts d Hv Hd).
    rewrite (IH (S k) pns' _ Hrest), sepOf_pathsFrom.
    cbn [fmap list_fmap Printer.commaFrom app]. rewrite <- !app_assoc.
    reflexivity.
Qed.

(** The first named specifier opens the brace. *)
Lemma importSpecifiers_named_first (q : Path) (v : value) (ns : list value)
    (k : nat) (pn : Doc) (pns : list Doc) (parts : list Doc) :
  Forall Printer.isNamedSpecifier (v :: ns) ->
  mapM print (pathsFrom q k (v :: ns)) = Ok (pn :: pns) ->
  Printer.importSpecifiers ext options print (pathsFrom q k (v :: ns))
    false parts
  = Ok (true,
        parts ++ Printer.commaFrom k
                   ([leftBrace; pn] :: ((fun d => [d]) <$> pns))).
Proof.
  intros Hns. inversion Hns as [|? ? Hv Hns']; subst. cbn [pathsFrom mapM].
  destruct (print (push q (Index k) v)) as [d|] eqn:Hd; cbn [bind];
    [|discriminate].
  destruct (mapM print (pathsFrom q (S k) ns)) as [pns'|] eqn:Hrest;
    cbn [bind]; [|discriminate].
  intros [= <- <-].
  rewrite (importSpecifiers_named (push q (Index k) v) _ false parts d Hv Hd).
  rewrite (importSpecifiers_named_run q ns (S k) pns' _ Hns' Hrest).
  rewrite sepOf_pathsFrom. cbn [Printer.commaFrom app].
  rewrite <- !app_assoc. reflexivity.
Qed.

End ImportLoop.

(** Whatever the registry and the callback do, the loop does not get past
    a default or namespace specifier that follows a named one. *)
Lemma importSpecifiers_turn (ext : Externals) (options : Options)
    (print : Path -> result Doc) (p : Path) (rest : list Path) (found : bool)
    (parts : list Doc) :
  is_Err (Printer.importSpecifiers ext options print (p :: rest) found parts)
  \/ exists found' parts',
       Printer.importSpecifiers ext options print (p :: rest) found parts
       = Printer.importSpecifiers ext options print rest found' parts'
       /\ (found = true -> found' = true)
       /\ (Printer.isNamedSpecifier (getValue p) -> found' = true)
       /\ (Printer.isDefaultOrNamespace (getValue p) -> found = false).
Proof.
  cbn [Printer.importSpecifiers]. unfold Printer.check.
  destruct (namedTypes ext (lit "ImportDefaultSpecifier"));
    cbn [bind]; [|left; exact I].
  destruct (isStr (getField (getValue p) "type") "ImportDefaultSpecifier")
    eqn:Edef; cbn [bind].
  { destruct found; cbn [bind]; [left; exact I|].
    destruct (print p); cbn [bind fst snd]; [right | left; exact I].
    do 2 eexists. split; [reflexivity|]. repeat split; auto.
    intros Hn. red in Hn. rewrite Hn in Edef. discriminate Edef. }
  destruct (namedTypes ext (lit "ImportNamespaceSpecifier"));
    cbn [bind]; [|left; exact I].
  destruct (isStr (getField (getValue p) "type") "ImportNamespaceSpecifier")
    eqn:Ens; cbn [bind].
  { destruct found; cbn [bind]; [left; exact I|].
    destruct (print p); cbn [bind fst snd]; [right | left; exact I].
    do 2 eexists. split; [reflexivity|]. repeat split; auto.
    intros Hn. red in Hn. rewrite Hn in Ens. discriminate Ens. }
  destruct (namedTypes ext (lit "ImportSpecifier"));
    cbn [bind]; [|left; exact I].
  destruct (isStr (getField (getValue p) "type") "ImportSpecifier");
    cbn [bind]; [|left; exact I].
  assert (Hbare : Printer.isDefaultOrNamespace (getValue p) -> found = false).
  { intros [H | H]; rewrite H in *; discriminate. }
  destruct found; cbn [bind fst snd];
    (destruct (print p); cbn [bind]; [right | left; exact I]);
    do 2 eexists; (split; [reflexivity|]); repeat split; auto.
Qed.

Lemma importSpecifiers_found_is_Err (ext : Externals) (options : Options)
    (print : Path -> result Doc) (ps : list Path) (parts : list Doc) :
  Exists (fun p => Printer.isDefaultOrNamespace (getValue p)) ps ->
  is_Err (Printer.importSpecifiers ext options print ps true parts).
Proof.
  revert parts; induction ps as [|p ps IH]; intros parts Hex.
  - inversion Hex.
  - destruct (importSpecifiers_turn ext options print p ps true parts)
      as [Herr | (found' & parts' & -> & Hkeep & _ & Hbare)]; [exact Herr|].
    rewrite (Hkeep eq_refl).
    inversion Hex as [? ? Hp | ? ? Hps]; subst.
    + specialize (Hbare Hp). discriminate.
    + apply IH, Hps.
Qed.

Lemma importSpecifiers_misordered_is_Err (ext : Externals) (options : Options)
    (print : Path -> result Doc) (ps1 : list Path) (pn : Path)
    (rest : list Path) (found : bool) (parts : list Doc) :
  Printer.isNamedSpecifier (getValue pn) ->
  Exists (fun p => Printer.isDefaultOrNamespace (getValue p)) rest ->
  is_Err (Printer.importSpecifiers ext options print (ps1 ++ pn :: rest)
            found parts).
Proof.
  intros Hpn Hex. revert found parts.
  induction ps1 as [|p ps1 IH]; intros found parts; cbn [app].
  - destruct (importSpecifiers_turn ext options print pn rest found parts)
      as [Herr | (found' & parts' & -> & _ & Hnamed & _)]; [exact Herr|].
    rewrite (Hnamed Hpn). apply importSpecifiers_found_is_Err, Hex.
  - destruct (importSpecifiers_turn ext options print p (ps1 ++ pn :: rest)
                found parts)
      as [Herr | (found' & parts' & -> & _)]; [exact Herr | apply IH].
Qed.

(** C9. In an import declaration a default or namespace specifier that
    follows a named one aborts the translation: the rule returns an error
    and no document, and the error is the failed assertion whenever the
    registry knows the three specifier kinds, every element is a specifier
    and each of them prints. Conversely, when the default and namespace
    specifiers come first, the rule succeeds and the named specifiers stand
    between one opening and one closing brace. *)
Theorem import_specifier_order (js : Engine) (ext : Externals)
    (options : Options) (path : Path) (print : Path -> result Doc)
    (fs : list (jsstring * value)) (l : list value) :
  getValue path = VObj fs ->
  assoc (lit "type") fs = VStr (lit "ImportDeclaration") ->
  assoc (lit "specifiers") fs = VArr l ->
  let run := Printer.genericPrintNoParens js ext path options print in
  let q := push path (Field "specifiers") (VArr l) in
  let registry :=
    namedTypes ext (lit "ImportDefaultSpecifier") = true
    /\ namedTypes ext (lit "ImportNamespaceSpecifier") = true
    /\ namedTypes ext (lit "ImportSpecifier") = true in
  let importKind := assoc (lit "importKind") fs in
  let keyword : list Doc :=
    txt "import "
    :: (if truthy importKind && negb (isStr importKind "value")
        then [Text (ToString js importKind ++ lit " ")]
        else []) in
  let leftBrace := if objectCurlySpacing options then txt "{ " else txt "{" in
  let rightBrace := if objectCurlySpacing options then txt " }" else txt "}" in
  (Printer.misordered l ->
   is_Err run
   /\ (registry ->
       Forall (fun v => Printer.isNamedSpecifier v
                        \/ Printer.isDefaultOrNamespace v) l ->
       (exists printed, mapM print (elementPaths q l) = Ok printed) ->
       run = Err AssertionError))
  /\ (forall (bare named : list value) (printedBare printedNamed : list Doc)
             (source : Doc),
        l = bare ++ named ->
        Forall Printer.isDefaultOrNamespace bare ->
        Forall Printer.isNamedSpecifier named ->
        registry ->
        mapM print (elementPaths q l) = Ok (printedBare ++ printedNamed) ->
        length printedBare = length bare ->
        call path print ["source"] = Ok source ->
        run = Ok (concat
                    (keyword
                     ++ match l with
                        | [] => []
                        | _ :: _ =>
                            Printer.importClause leftBrace rightBrace
                              printedBare printedNamed
                            ++ [txt " from "]
                        end
                     ++ [source; txt ";"]))).
Proof.
  intros Hn Ht Hspec run q registry importKind keyword leftBrace rightBrace.
  assert (Hrun : run =
    let! parts :=
      if Nat.eqb (length l) 0 then Ok keyword
      else
        let! state :=
          Printer.importSpecifiers ext options print (pathsFrom q 0 l) false
            keyword in
        Ok ((if state.1 then state.2 ++ [rightBrace] else state.2)
            ++ [txt " from "]) in
    let! source := call path print ["source"] in
    Ok (concat (parts ++ [source; txt ";"]))).
  { unfold run, Printer.genericPrintNoParens. enter_rule Hn Ht.
    rewrite Hspec. cbn [truthy lengthOf bind lengthPositive].
    rewrite <- elementPaths_pathsFrom.
    unfold keyword, importKind.
    destruct (truthy (assoc (lit "importKind") fs)
              && negb (isStr (assoc (lit "importKind") fs) "value"));
      destruct (Nat.eqb (length l) 0); cbn [negb];
      unfold call; cbn [descend bind getProp getField]; rewrite Hn;
      cbn [descend bind getProp getField getValue push frames];
      rewrite ?Hspec; reflexivity. }
  split.
  - intros (l1 & n & l2 & d & l3 & El & Hnamed & Hbare).
    assert (Hex : Exists (fun p => Printer.isDefaultOrNamespace (getValue p))
                    (pathsFrom q (0 + length l1 + 1) (l2 ++ d :: l3))).
    { rewrite pathsFrom_app. apply Exists_app. right. left. exact Hbare. }
    assert (Hpaths : pathsFrom q 0 l
                     = pathsFrom q 0 l1
                       ++ push q (Index (0 + length l1)) n
                       :: pathsFrom q (0 + length l1 + 1) (l2 ++ d :: l3)).
    { rewrite El, pathsFrom_app. cbn [pathsFrom]. do 3 f_equal. lia. }
    assert (Hlen : Nat.eqb (length l) 0 = false).
    { rewrite El, length_app. cbn [length]. apply Nat.eqb_neq. lia. }
    rewrite Hrun, Hlen, Hpaths. split.
    + pose proof (importSpecifiers_misordered_is_Err ext options print
                    (pathsFrom q 0 l1) (push q (Index (0 + length l1)) n)
                    _ false keyword Hnamed Hex) as Herr.
      match type of Herr with
      | is_Err ?r => destruct r; [destruct Herr | exact I]
      end.
    + intros (Hdef & Hns & Hnm) Hall (printed & Hprinted).
      rewrite elementPaths_pathsFrom in Hprinted.
      apply mapM_Forall in Hprinted.
      apply (Forall_pathsFrom _ q 0%nat) in Hall.
      pose proof (proj2 (Forall_and _ _) (conj Hall Hprinted)) as Hboth.
      cbv beta in Hboth. rewrite Hpaths in Hboth.
      rewrite (importSpecifiers_misordered ext options print Hdef Hns Hnm
                 _ _ _ false keyword Hboth Hnamed Hex).
      reflexivity.
  - intros bare named printedBare printedNamed source El Hbare Hnamed
      (Hdef & Hns & Hnm) Hprinted Hlen Hsource.
    rewrite Hrun, Hsource. rewrite elementPaths_pathsFrom in Hprinted.
    rewrite El, pathsFrom_app in Hprinted. rewrite El at 2.
    rewrite pathsFrom_app.
    apply mapM_app in Hprinted as (r1 & r2 & Happ & Hr1 & Hr2).
    assert (Hr1len := mapM_length _ _ _ Hr1).
    assert (Hpl := length_pathsFrom q 0 bare).
    apply app_inj_1 in Happ as [<- <-]; [|lia].
    unfold Printer.importClause.
    rewrite (importSpecifiers_bare_run ext options print Hdef Hns
               q bare 0 printedBare _ keyword Hbare Hr1).
    destruct named as [|v named'].
    + cbn [pathsFrom mapM] in Hr2. injection Hr2 as <-.
      cbn [pathsFrom Printer.importSpecifiers bind fst snd].
      rewrite !app_nil_r. rewrite app_nil_r in El. rewrite El.
      destruct bare; cbn [length Nat.eqb bind fst snd]; [reflexivity|].
      rewrite <- !app_assoc. reflexivity.
    + destruct printedNamed as [|pn pns];
        [apply mapM_length in Hr2; discriminate Hr2|].
      rewrite (importSpecifiers_named_first ext options print Hdef Hns Hnm
                 q v named' _ pn pns _ Hnamed Hr2).
      assert (Hcons : exists x l', l = x :: l').
      { rewrite El. destruct bare; cbn [app]; eauto. }
      destruct Hcons as (x & l' & ->).
      cbn [length Nat.eqb bind fst snd]. rewrite commaFrom_app, length_fmap.
      rewrite Hlen, <- !app_assoc. reflexivity.
Qed.

Lemma import_specifier_order_witness :
  Printer.genericPrintNoParens Sample.js Sample.ext
    (FastPath_from Sample.importOrdered) Sample.options Sample.printName
  = Ok (concat [txt "import "; txt "Foo"; txt ", "; txt "{ "; txt "a";
                txt ", "; txt "b"; txt " }"; txt " from "; txt "m"; txt ";"])
  /\ Printer.genericPrintNoParens Sample.js Sample.ext
       (FastPath_from Sample.importMisordered) Sample.options Sample.printName
     = Err AssertionError.
Proof.
  split.
  - refine (proj2 (import_specifier_order Sample.js Sample.ext Sample.options
                     (FastPath_from Sample.importOrdered) Sample.printName
                     _ _ eq_refl eq_refl eq_refl)
              [Sample.defaultSpecifier "Foo"]
              [Sample.namedSpecifier "a"; Sample.namedSpecifier "b"]
              [txt "Foo"] [txt "a"; txt "b"] (txt "m")
              eq_refl _ _ (conj eq_refl (conj eq_refl eq_refl))
              eq_refl eq_refl eq_refl).
    + repeat constructor.
    + repeat constructor.
  - refine (proj2 (proj1 (import_specifier_order Sample.js Sample.ext
                            Sample.options
                            (FastPath_from Sample.importMisordered)
                            Sample.printName _ _ eq_refl eq_refl eq_refl) _)
              (conj eq_refl (conj eq_refl eq_refl)) _ _).
    + exists [], (Sample.namedSpecifier "a"), [Sample.namedSpecifier "b"],
        (Sample.defaultSpecifier "Foo"), [].
      split; [reflexivity | split; [reflexivity | left; reflexivity]].
    + repeat (constructor; [first [left; reflexivity | right; left; reflexivity]|]).
      constructor.
    + eexists. reflexivity.
Defined.

(** ** C2: what the translation writes *)

Module StoreFacts.
Import Store.

Lemma onlyMethodValues_refl (σ : store) : onlyMethodValues σ σ.
Proof. intros l. left. reflexivity. Qed.

Lemma isMethodKind_value (fs : gmap (list N) sval) (v : sval) :
  isMethodKind fs -> isMethodKind (<[lit "value" := v]> fs).
Proof.
  unfold isMethodKind.
  intros [H | H]; [left | right]; rewrite lookup_insert_ne; auto; discriminate.
Qed.

Lemma onlyMethodValues_trans (σ1 σ2 σ3 : store) :
  onlyMethodValues σ1 σ2 -> onlyMethodValues σ2 σ3 -> onlyMethodValues σ1 σ3.
Proof.
  intros H12 H23 l.
  destruct (H12 l) as [E12 | (fs & E1 & Hk & E2)],
           (H23 l) as [E23 | (fs' & E2' & Hk' & E3)].
  - left. congruence.
  - right. exists fs'. rewrite <- E12. auto.
  - right. exists fs. rewrite E23. auto.
  - right. exists fs. rewrite E2 in E2'. injection E2' as <-.
    rewrite E3, insert_insert_eq. auto.
Qed.

Lemma preserves_ret {A} (a : A) : preserves (ret a).
Proof. intros σ. apply onlyMethodValues_refl. Qed.

Lemma preserves_throw {A} (e : error) : preserves (@throw A e).
Proof. intros σ. apply onlyMethodValues_refl. Qed.

Lemma bind_step {A B} (m : M A) (k : A -> M B) (σ : store) :
  onlyMethodValues σ (m σ).2 ->
  (forall a, preserves (k a)) ->
  onlyMethodValues σ (bindM m k σ).2.
Proof.
  intros Hm Hk. unfold bindM. destruct (m σ) as [[a | e] σ']; cbn [snd] in *.
  - eapply onlyMethodValues_trans; [exact Hm | apply Hk].
  - exact Hm.
Qed.

Lemma preserves_bind {A B} (m : M A) (k : A -> M B) :
  preserves m -> (forall a, preserves (k a)) -> preserves (bindM m k).
Proof. intros Hm Hk σ. apply bind_step; auto. Qed.

Lemma preserves_getField (v : sval) (k : string) : preserves (getField v k).
Proof. intros σ. apply onlyMethodValues_refl. Qed.

Lemma preserves_getProp (v : sval) (k : string) : preserves (getProp v k).
Proof.
  destruct v; first [apply preserves_throw | apply preserves_getField].
Qed.

Lemma preserves_elementsOf (v : sval) : preserves (elementsOf v).
Proof.
  intros σ. unfold elementsOf.
  destruct v; try apply onlyMethodValues_refl.
  destruct (σ !! l) as [[|]|]; apply onlyMethodValues_refl.
Qed.

Lemma preserves_getNode (ext : Externals) (path : Path) :
  preserves (getNode ext path).
Proof. intros σ. apply onlyMethodValues_refl. Qed.

Lemma preserves_descend (p : Path) (names : list string) :
  preserves (descend p names).
Proof.
  revert p; induction names as [|k names IH]; intros p; cbn [descend].
  - apply preserves_ret.
  - apply preserves_bind; [apply preserves_getProp | intros v; apply IH].
Qed.

Lemma preserves_call {A} (p : Path) (fn : Path -> M A) (names : list string) :
  (forall q, preserves (fn q)) -> preserves (call p fn names).
Proof.
  intros Hfn. apply preserves_bind; [apply preserves_descend | exact Hfn].
Qed.

Lemma preserves_mapM {A B} (f : A -> M B) (l : list A) :
  (forall a, preserves (f a)) -> preserves (mapM_ f l).
Proof.
  intros Hf. induction l as [|a l IH]; cbn [mapM_].
  - apply preserves_ret.
  - apply preserves_bind; [apply Hf | intros b].
    apply preserves_bind; [exact IH | intros bs; apply preserves_ret].
Qed.

Lemma preserves_map {A} (p : Path) (fn : Path -> M A) (names : list string) :
  (forall q, preserves (fn q)) -> preserves (map_ p fn names).
Proof.
  intros Hfn. apply preserves_bind; [apply preserves_descend | intros q].
  apply preserves_bind; [apply preserves_elementsOf | intros l].
  apply preserves_mapM, Hfn.
Qed.

Lemma preserves_assertFunctionExpression (ext : Externals) (v : sval) :
  preserves (assertFunctionExpression ext v).
Proof.
  unfold assertFunctionExpression.
  destruct (namedTypes ext (lit "FunctionExpression"));
    [|apply preserves_throw].
  apply preserves_bind; [apply preserves_getField | intros t].
  destruct (isStr t "FunctionExpression");
    [apply preserves_ret | apply preserves_throw].
Qed.

Create HintDb preserves.

#[global] Hint Resolve preserves_ret preserves_throw preserves_getField
  preserves_getProp preserves_elementsOf preserves_getNode preserves_descend
  preserves_assertFunctionExpression : preserves.

(** Splitting a computation into its steps. *)
Ltac preserve :=
  repeat first
    [ solve [eauto with preserves]
    | apply preserves_call; intros ?
    | apply preserves_map; intros ?
    | apply preserves_mapM; intros ?
    | apply preserves_bind; [|intros ?]
    | match goal with
      | |- preserves (if ?c then _ else _) => destruct c
      end ].

Lemma preserves_printDefaults (print : Path -> M Doc) (defaults : list Path)
    (printed : list Doc) :
  respects print -> preserves (printDefaults print defaults printed).
Proof.
  intros Hprint. revert printed.
  induction defaults as [|p defaults IH]; intros printed;
    cbn [printDefaults]; [preserve|].
  destruct (getName p) as [[|i]|]; auto.
  destruct (printed !! i); auto.
  destruct (negb (isEmpty d) && truthy (getValue p)); auto.
  apply preserves_bind; [apply Hprint | intros ?; apply IH].
Qed.

Lemma preserves_printFunctionParams (path : Path) (print : Path -> M Doc) :
  respects print -> preserves (printFunctionParams path print).
Proof.
  intros Hprint. unfold printFunctionParams.
  pose proof (fun ds pr => preserves_printDefaults print ds pr Hprint).
  unfold respects in Hprint. preserve.
Qed.

Lemma preserves_printReturnType (path : Path) (print : Path -> M Doc) :
  respects print -> preserves (printReturnType path print).
Proof.
  intros Hprint. unfold printReturnType. unfold respects in Hprint. preserve.
Qed.

(** The assignment [node.value = node] on a node of a method kind. *)
Lemma setField_value_self (node type : sval) (σ : store) :
  type = fieldOf σ node "type" ->
  isStr type "ObjectMethod" || isStr type "ClassMethod" = true ->
  onlyMethodValues σ (setField node "value" node σ).2.
Proof.
  intros -> Hkind. unfold setField.
  destruct node as [| | | | |l]; try apply onlyMethodValues_refl.
  cbn [fieldOf] in Hkind.
  destruct (σ !! l) as [[fs|]|] eqn:El; try apply onlyMethodValues_refl.
  cbn [snd]. intros l'. destruct (decide (l' = l)) as [-> | Hne].
  - right. exists fs. split; [exact El|]. split; [|apply lookup_insert_eq].
    unfold isMethodKind, isStr in *.
    destruct (fs !! lit "type") as [[| | | |t|]|]; cbn [default] in Hkind;
      try discriminate.
    apply orb_true_iff in Hkind as [H | H]; apply jseqb_eq in H; subst t;
      auto.
  - left. apply lookup_insert_ne. congruence.
Qed.

End StoreFacts.


(** The two method printers alone: when the callback writes nothing
    else, then after [printMethod] and after [printObjectMethod], whether
    they return or throw, every node of the store is as it was before or
    is a method node with its [value] field set to itself, and no node is
    added or removed. *)
Theorem printMethod_writes_only_value (ext : Externals) (path : Store.Path)
    (options : Options) (print : Store.Path -> Store.M Doc) (σ : Store.store) :
  Store.respects print ->
  let unchangedOrMarked (σ' : Store.store) : Prop :=
    forall l : Store.loc,
      σ' !! l = σ !! l
      \/ exists fs,
           σ !! l = Some (Store.Obj fs)
           /\ Store.isMethodKind fs
           /\ σ' !! l = Some (Store.Obj (<[lit "value" := Store.SRef l]> fs)) in
  unchangedOrMarked (Store.printMethod ext path options print σ).2
  /\ unchangedOrMarked (Store.printObjectMethod ext path options print σ).2.
Proof.
  intros Hprint unchangedOrMarked.
  pose proof (StoreFacts.preserves_printFunctionParams) as Hparams.
  pose proof (StoreFacts.preserves_printReturnType) as Hreturn.
  assert (Hmethod : Store.preserves (Store.printMethod ext path options print)).
  { clear σ unchangedOrMarked. intros σ.
    unfold Store.printMethod.
    apply StoreFacts.bind_step; [apply StoreFacts.preserves_getNode|].
    intros node. apply StoreFacts.preserves_bind;
      [apply StoreFacts.preserves_getProp|].
    intros kind σ1. unfold Store.bindM at 1. unfold Store.getField at 1.
    cbv iota beta.
    apply StoreFacts.bind_step.
    - destruct (Store.isStr (Store.fieldOf σ1 node "type") "ObjectMethod"
                || Store.isStr (Store.fieldOf σ1 node "type") "ClassMethod")
        eqn:Hkind.
      + apply (StoreFacts.setField_value_self node _ σ1 eq_refl Hkind).
      + StoreFacts.preserve.
    - intros _. unfold Store.respects in Hprint. StoreFacts.preserve. }
  split; [apply Hmethod|].
  change (Store.onlyMethodValues σ
            (Store.printObjectMethod ext path options print σ).2).
  revert σ unchangedOrMarked. intros σ _. revert σ.
  change (Store.preserves (Store.printObjectMethod ext path options print)).
  unfold Store.printObjectMethod. unfold Store.respects in Hprint.
  StoreFacts.preserve.
Qed.

Lemma printMethod_writes_only_value_witness :
  (Store.printObjectMethod Sample.ext Sample.methodPath Sample.options
     Sample.printKind Sample.methodStore).2 !! 1%positive
  = Sample.methodStore !! 1%positive
  \/ exists fs,
       Sample.methodStore !! 1%positive = Some (Store.Obj fs)
       /\ Store.isMethodKind fs
       /\ (Store.printObjectMethod Sample.ext Sample.methodPath Sample.options
             Sample.printKind Sample.methodStore).2 !! 1%positive
          = Some (Store.Obj (<[lit "value" := Store.SRef 1%positive]> fs)).
Proof.
  apply (proj2 (printMethod_writes_only_value Sample.ext Sample.methodPath
                  Sample.options Sample.printKind Sample.methodStore
                  (fun p σ => StoreFacts.onlyMethodValues_refl σ))).
Defined.

(** ** C2: what a print call writes to the tree *)

Module WholeFacts.
Import Store StoreFacts Whole.

Lemma preserves_lift {A} (r : result A) : preserves (lift r).
Proof. intros σ. apply onlyMethodValues_refl. Qed.

Lemma preserves_read {A} (f : store -> A) : preserves (read f).
Proof. intros σ. apply onlyMethodValues_refl. Qed.

Lemma preserves_lengthOf (v : sval) : preserves (lengthOf v).
Proof.
  intros σ. unfold lengthOf. destruct v; try apply onlyMethodValues_refl.
  destruct (σ !! l) as [[|]|]; apply onlyMethodValues_refl.
Qed.

Lemma preserves_first (v : sval) : preserves (first v).
Proof.
  intros σ. unfold first. destruct v as [| | | |[|c s]|l];
    try apply onlyMethodValues_refl.
  destruct (σ !! l) as [[fs|[|x es]]|]; apply onlyMethodValues_refl.
Qed.

#[global] Hint Resolve preserves_lift preserves_read preserves_lengthOf
  preserves_first : preserves.




Section Frame.

Context (js : Engine) (ext : Externals) (host : Host).







Lemma preserves_getNodeHelper (path : Path) (count : nat) :
  preserves (getNodeHelper ext path count).
Proof. apply preserves_read. Qed.



Variables (options : Options) (print : Path -> M Doc).

Hypothesis Hprint : forall p, preserves (print p).











End Frame.



Section Dispatch.

Context (js : Engine) (ext : Externals) (host : Host).





Section PrinterObject.

Context (explicitTabWidth : sval) (options : Options).

(** What is assumed of [comments.js], which is not among the sources: the
    comments are printed around what the callback prints, and the nodes
    are only read. *)
Hypothesis Hcomments :
  forall (path : Path) (print : Path -> M Doc),
    respects print -> preserves (comments_printComments host path print).





End PrinterObject.

End Dispatch.

End WholeFacts.

(** A print of [({ m() {} })] by [Printer.printGenerically] completes, and
    the method node has itself as [value] afterwards. *)
Example whole_print_marks_method :
  let run :=
    Whole.Printer_printGenerically Sample.js Sample.ext WholeSample.host
      Sample.options 8 (Store.SRef 1%positive) WholeSample.objectStore in
  run.1 = Ok (mkPrintResult [] None)
  /\ Store.fieldOf WholeSample.objectStore (Store.SRef 3%positive) "value"
     = Store.SUndef
  /\ Store.fieldOf run.2 (Store.SRef 3%positive) "value"
     = Store.SRef 3%positive.
Proof. cbv zeta. repeat split; vm_compute; reflexivity. Qed.



(** * Further properties *)

(** ** Quotes *)

Lemma swapQuotes_twice (str : jsstring) :
  Printer.swapQuotes (Printer.swapQuotes str) = str.
Proof.
  induction str as [|c str IH]; [reflexivity|].
  rewrite !swapQuotes_cons, IH. f_equal.
  destruct (c =? DQUOTE) eqn:E1; [apply N.eqb_eq in E1; subst; reflexivity|].
  destruct (c =? SQUOTE) eqn:E2; [apply N.eqb_eq in E2; subst; reflexivity|].
  rewrite E1, E2. reflexivity.
Qed.

(** X1. [swapQuotes] is its own inverse and keeps the length; it turns
    every double quote into a single one and every single quote into a
    double one, so the two counts change places. *)
Theorem swapQuotes_involutive (str : jsstring) :
  Printer.swapQuotes (Printer.swapQuotes str) = str
  /\ length (Printer.swapQuotes str) = length str
  /\ occurrences SQUOTE (Printer.swapQuotes str) = occurrences DQUOTE str
  /\ occurrences DQUOTE (Printer.swapQuotes str) = occurrences SQUOTE str.
Proof.
  split; [apply swapQuotes_twice|]. split; [apply length_swapQuotes|].
  induction str as [|c str [IH1 IH2]]; [split; reflexivity|].
  rewrite swapQuotes_cons. cbn [occurrences]. rewrite IH1, IH2.
  destruct (c =? DQUOTE) eqn:E1.
  { apply N.eqb_eq in E1; subst c. split; reflexivity. }
  destruct (c =? SQUOTE) eqn:E2.
  { apply N.eqb_eq in E2; subst c. split; reflexivity. }
  rewrite E1, E2. split; reflexivity.
Qed.

Lemma swapQuotes_app (a b : jsstring) :
  Printer.swapQuotes (a ++ b) = Printer.swapQuotes a ++ Printer.swapQuotes b.
Proof. unfold Printer.swapQuotes. apply fmap_app. Qed.

Lemma hexDigit_range (n : N) :
  n < 16 ->
  (48 <= JSON.hexDigit n <= 57) \/ (97 <= JSON.hexDigit n <= 102).
Proof.
  intros Hn. unfold JSON.hexDigit. destruct (n <? 10) eqn:E.
  - apply N.ltb_lt in E. left. lia.
  - apply N.ltb_ge in E. right. lia.
Qed.

Lemma hexValue_hexDigit (n : N) :
  n < 16 -> StringLiteral.hexValue (JSON.hexDigit n) = Some n.
Proof.
  intros Hn. unfold StringLiteral.hexValue, JSON.hexDigit.
  destruct (n <? 10) eqn:E.
  - apply N.ltb_lt in E.
    rewrite (proj2 (N.leb_le 48 (48 + n))), (proj2 (N.leb_le (48 + n) 57))
      by lia.
    cbn [andb]. f_equal. lia.
  - apply N.ltb_ge in E.
    rewrite (proj2 (N.leb_gt (87 + n) 57)) by lia. rewrite andb_false_r.
    rewrite (proj2 (N.leb_le 97 (87 + n))), (proj2 (N.leb_le (87 + n) 102))
      by lia.
    cbn [andb]. f_equal. lia.
Qed.

Lemma hex4_UnicodeEscape (c : N) :
  c < 65536 ->
  StringLiteral.hex4 (JSON.hexDigit ((c / 4096) mod 16))
    (JSON.hexDigit ((c / 256) mod 16)) (JSON.hexDigit ((c / 16) mod 16))
    (JSON.hexDigit (c mod 16))
  = Some c.
Proof.
  intros Hc. unfold StringLiteral.hex4.
  rewrite !hexValue_hexDigit by (apply N.mod_lt; discriminate).
  f_equal.
  pose proof (N.div_mod c 16 ltac:(discriminate)) as H1.
  pose proof (N.div_mod (c / 16) 16 ltac:(discriminate)) as H2.
  rewrite N.Div0.div_div in H2. change (16 * 16) with 256 in H2.
  pose proof (N.div_mod (c / 256) 16 ltac:(discriminate)) as H3.
  rewrite N.Div0.div_div in H3. change (256 * 16) with 4096 in H3.
  assert (H4 : c / 4096 < 16).
  { apply N.Div0.div_lt_upper_bound. exact Hc. }
  rewrite (N.mod_small (c / 4096) 16 H4) in *.
  pose proof (N.mod_lt (c / 256) 16 ltac:(discriminate)).
  pose proof (N.mod_lt (c / 16) 16 ltac:(discriminate)).
  pose proof (N.mod_lt c 16 ltac:(discriminate)).
  lia.
Qed.

Lemma decode_raw (q c : N) (rest : jsstring) :
  (c =? BACKSLASH) = false -> (c =? q) = false ->
  (c =? 10) = false -> (c =? 13) = false ->
  StringLiteral.decode q (c :: rest)
  = option_map (cons c) (StringLiteral.decode q rest).
Proof.
  intros H1 H2 H3 H4. cbn [StringLiteral.decode].
  rewrite H1, H2, H3, H4. reflexivity.
Qed.

Lemma decode_escape (q e : N) (rest : jsstring) :
  (e =? 117) = false -> StringLiteral.unread e = false ->
  StringLiteral.decode q (BACKSLASH :: e :: rest)
  = option_map (cons (StringLiteral.escaped e)) (StringLiteral.decode q rest).
Proof.
  intros H H'. cbn [StringLiteral.decode].
  change (BACKSLASH =? BACKSLASH) with true. cbv iota. rewrite H, H'.
  reflexivity.
Qed.

Lemma decode_UnicodeEscape (q c : N) (rest : jsstring) :
  c < 65536 ->
  StringLiteral.decode q (JSON.UnicodeEscape c ++ rest)
  = option_map (cons c) (StringLiteral.decode q rest).
Proof.
  intros Hc. unfold JSON.UnicodeEscape. cbn [app StringLiteral.decode].
  change (BACKSLASH =? BACKSLASH) with true. change (117 =? 117) with true.
  cbv iota. rewrite (hex4_UnicodeEscape c Hc). reflexivity.
Qed.

Lemma swapQuotes_UnicodeEscape (c : N) :
  Printer.swapQuotes (JSON.UnicodeEscape c) = JSON.UnicodeEscape c.
Proof.
  unfold JSON.UnicodeEscape. rewrite !swapQuotes_cons.
  change (BACKSLASH =? DQUOTE) with false. change (BACKSLASH =? SQUOTE) with false.
  change (117 =? DQUOTE) with false. change (117 =? SQUOTE) with false.
  cbv iota.
  assert (H : forall n, n < 16 ->
            (if JSON.hexDigit n =? DQUOTE then SQUOTE
             else if JSON.hexDigit n =? SQUOTE then DQUOTE
             else JSON.hexDigit n) = JSON.hexDigit n).
  { intros n Hn. pose proof (hexDigit_range n Hn) as Hr.
    unfold DQUOTE, SQUOTE in *.
    rewrite (proj2 (N.eqb_neq (JSON.hexDigit n) 34)) by lia.
    rewrite (proj2 (N.eqb_neq (JSON.hexDigit n) 39)) by lia. reflexivity. }
  rewrite !H by (apply N.mod_lt; discriminate). reflexivity.
Qed.

Section Rendering.

(** The rendering with single quotes ([single = true]) swaps the quotes
    of what [JSON.stringify] made of the swapped string. *)
Variable single : bool.

Let delimiter : N := if single then SQUOTE else DQUOTE.
Let swapped (s : jsstring) : jsstring :=
  if single then Printer.swapQuotes s else s.

Lemma swapped_app (a b : jsstring) : swapped (a ++ b) = swapped a ++ swapped b.
Proof. unfold swapped. destruct single; [apply swapQuotes_app | reflexivity]. Qed.

Lemma swapped_surrogate (c : N) :
  55296 <= c -> swapped [c] = [c].
Proof.
  intros Hc. unfold swapped. destruct single; [|reflexivity].
  rewrite swapQuotes_cons. unfold DQUOTE, SQUOTE.
  rewrite (proj2 (N.eqb_neq c 34)), (proj2 (N.eqb_neq c 39)) by lia.
  reflexivity.
Qed.

Lemma decode_surrogate (c : N) (rest : jsstring) :
  55296 <= c ->
  StringLiteral.decode delimiter (c :: rest)
  = option_map (cons c) (StringLiteral.decode delimiter rest).
Proof.
  intros Hc. apply decode_raw; apply N.eqb_neq;
    unfold delimiter, BACKSLASH, SQUOTE, DQUOTE; destruct single; lia.
Qed.

Lemma decode_quoteCodeUnit (c : N) (rest : jsstring) :
  StringLiteral.decode delimiter (swapped (JSON.quoteCodeUnit c) ++ rest)
  = option_map (app (swapped [c])) (StringLiteral.decode delimiter rest).
Proof.
  assert (Hopt : forall (o : option jsstring) x,
             option_map (cons x) o = option_map (app [x]) o)
    by (intros [s|] x; reflexivity).
  unfold JSON.quoteCodeUnit.
  repeat match goal with
  | |- context [if ?x =? ?k then _ else _] =>
      lazymatch x with
      | c => destruct (x =? k) eqn:?;
             [ match goal with H : (c =? _) = true |- _ =>
                 apply N.eqb_eq in H; subst c end;
               unfold swapped, delimiter; destruct single;
               vm_compute (Printer.swapQuotes _) ;
               cbn [app]; 
               first [ rewrite decode_escape by reflexivity; reflexivity
                     | rewrite decode_raw by reflexivity; reflexivity ]
             | ]
      end
  end.
  destruct (c <? 32) eqn:Hlt.
  - apply N.ltb_lt in Hlt.
    assert (Hsw : swapped (JSON.UnicodeEscape c) = JSON.UnicodeEscape c).
    { unfold swapped. destruct single;
        [apply swapQuotes_UnicodeEscape | reflexivity]. }
    rewrite Hsw, decode_UnicodeEscape by lia.
    assert (Hc : swapped [c] = [c]).
    { unfold swapped. destruct single; [|reflexivity].
      rewrite swapQuotes_cons.
      repeat match goal with H : (c =? _) = false |- _ => rewrite H end.
      assert (E : (c =? SQUOTE) = false)
        by (apply N.eqb_neq; unfold SQUOTE; lia).
      rewrite E. reflexivity. }
    rewrite Hc. apply Hopt.
  - apply N.ltb_ge in Hlt.
    repeat match goal with
    | H : (c =? _) = false |- _ => apply N.eqb_neq in H
    end.
    unfold swapped, delimiter. destruct single.
    + rewrite swapQuotes_cons. destruct (c =? DQUOTE) eqn:E1;
        [apply N.eqb_eq in E1; contradiction|].
      destruct (c =? SQUOTE) eqn:E2.
      * apply N.eqb_eq in E2; subst c. cbn [app Printer.swapQuotes].
        rewrite decode_raw by reflexivity. apply Hopt.
      * cbn [app Printer.swapQuotes]. 
        rewrite decode_raw; [apply Hopt | | | | ];
          try (apply N.eqb_neq; unfold BACKSLASH in *; lia); assumption.
    + cbn [app]. rewrite decode_raw; [apply Hopt | | | | ];
        apply N.eqb_neq; unfold BACKSLASH, DQUOTE in *; lia.
Qed.

(** What a parser reads from the body of the rendering is the string. *)
Lemma decode_quoteBody (wf : bool) (t : jsstring) :
  Forall (fun c => c < 65536) t ->
  StringLiteral.decode delimiter (swapped (JSON.quoteBody wf t))
  = Some (swapped t).
Proof.
  remember (length t) as n eqn:Hn.
  assert (Hle : (length t <= n)%nat) by lia. clear Hn.
  revert t Hle. induction n as [|n IH]; intros [|c rest] Hle Hall;
    simpl in Hle; try lia;
    try (unfold swapped; destruct single; reflexivity).
  apply Forall_cons in Hall as [Hc Hrest].
  assert (IHrest := IH rest ltac:(lia) Hrest).
  assert (Hcons : swapped (c :: rest)
                  = swapped [c] ++ swapped rest)
    by (rewrite <- swapped_app; reflexivity).
  assert (Hesc : swapped (JSON.UnicodeEscape c) = JSON.UnicodeEscape c).
  { unfold swapped. destruct single;
      [apply swapQuotes_UnicodeEscape | reflexivity]. }
  assert (Hescaped : forall s,
    StringLiteral.decode delimiter (swapped s) = Some (swapped rest) ->
    55296 <= c ->
    StringLiteral.decode delimiter
      (swapped (JSON.UnicodeEscape c ++ s))
    = Some (swapped (c :: rest))).
  { intros s Hs Hsur. rewrite swapped_app, Hesc, decode_UnicodeEscape by exact Hc.
    fold delimiter. rewrite Hs, Hcons, swapped_surrogate by exact Hsur.
    reflexivity. }
  cbn [JSON.quoteBody].
  destruct (wf && JSON.isLeadingSurrogate c) eqn:Hlead.
  - apply andb_true_iff in Hlead as [_ Hlead].
    unfold JSON.isLeadingSurrogate in Hlead.
    apply andb_true_iff in Hlead as [Hlo Hhi].
    apply N.leb_le in Hlo. apply N.leb_le in Hhi.
    destruct rest as [|d rest'].
    + rewrite <- (app_nil_r (JSON.UnicodeEscape c)).
      apply Hescaped; [|exact Hlo].
      unfold swapped; destruct single; reflexivity.
    + destruct (JSON.isTrailingSurrogate d) eqn:Ht.
      * unfold JSON.isTrailingSurrogate in Ht.
        apply andb_true_iff in Ht as [Hdlo Hdhi].
        apply N.leb_le in Hdlo. apply N.leb_le in Hdhi.
        apply Forall_cons in Hrest as [Hd Hrest'].
        simpl in Hle.
        assert (IH' := IH rest' ltac:(lia) Hrest').
        change (c :: d :: JSON.quoteBody wf rest')
          with ([c] ++ [d] ++ JSON.quoteBody wf rest').
        change (c :: d :: rest') with ([c] ++ [d] ++ rest').
        rewrite !swapped_app.
        rewrite !swapped_surrogate by lia. cbn [app].
        fold delimiter.
        rewrite !decode_surrogate by lia.
        fold delimiter. rewrite IH'. reflexivity.
      * apply Hescaped; [exact IHrest | exact Hlo].
  - destruct (wf && JSON.isTrailingSurrogate c) eqn:Htrail.
    + apply andb_true_iff in Htrail as [_ Htrail].
      unfold JSON.isTrailingSurrogate in Htrail.
      apply andb_true_iff in Htrail as [Hlo _]. apply N.leb_le in Hlo.
      apply Hescaped; [exact IHrest | lia].
    + rewrite swapped_app, decode_quoteCodeUnit.
      fold delimiter. rewrite IHrest, Hcons. reflexivity.
Qed.

End Rendering.

Lemma swapQuotes_stringify (wf : bool) (t : jsstring) :
  Printer.swapQuotes (JSON.stringify wf t)
  = SQUOTE :: Printer.swapQuotes (JSON.quoteBody wf t) ++ [SQUOTE].
Proof.
  unfold JSON.stringify. rewrite swapQuotes_cons, swapQuotes_app. reflexivity.
Qed.

Lemma swapQuotes_code_units (s : jsstring) :
  Forall (fun c => c < 65536) s ->
  Forall (fun c => c < 65536) (Printer.swapQuotes s).
Proof.
  induction 1 as [|c s Hc _ IH]; [constructor|].
  rewrite swapQuotes_cons. constructor; [|exact IH].
  destruct (c =? DQUOTE); [reflexivity|].
  destruct (c =? SQUOTE); [reflexivity | exact Hc].
Qed.

(** X2. Whatever the quote option and the engine, [nodeStr] prints a
    string of 16-bit code units as a literal between two equal quotes,
    single or double, and a parser reads the string back from what is
    between them: no quote, backslash, line break or control character of
    the string is lost or ends the literal early. *)
Theorem nodeStr_round_trip (js : Engine) (options : Options) (str : jsstring) :
  Forall (fun c => c < 65536) str ->
  exists (q : N) (body : jsstring),
    Printer.nodeStr js (VStr str) options = Ok (q :: body ++ [q])
    /\ (q = SQUOTE \/ q = DQUOTE)
    /\ StringLiteral.decode q body = Some str.
Proof.
  intros Hstr.
  pose proof (decode_quoteBody false (wellFormedStringify js) str Hstr) as Hd.
  pose proof (decode_quoteBody true (wellFormedStringify js)
                (Printer.swapQuotes str) (swapQuotes_code_units str Hstr)) as Hs.
  cbv beta iota in Hd, Hs.
  rewrite (swapQuotes_twice str) in Hs.
  unfold Printer.nodeStr. cbn [bind].
  rewrite swapQuotes_stringify. unfold JSON.stringify.
  destruct (isStr (quote options) "auto").
  - match goal with |- context [if ?b then _ else _] => destruct b end.
    + exists SQUOTE. eexists. split; [reflexivity|]. split; [left; reflexivity | exact Hs].
    + exists DQUOTE. eexists. split; [reflexivity|]. split; [right; reflexivity | exact Hd].
  - destruct (isStr (quote options) "single").
    + exists SQUOTE. eexists. split; [reflexivity|]. split; [left; reflexivity | exact Hs].
    + exists DQUOTE. eexists. split; [reflexivity|]. split; [right; reflexivity | exact Hd].
Qed.

Lemma nodeStr_round_trip_witness :
  exists (q : N) (body : jsstring),
    Printer.nodeStr Sample.js (VStr (10 :: lit "it's \ here")) Sample.options
    = Ok (q :: body ++ [q])
    /\ (q = SQUOTE \/ q = DQUOTE)
    /\ StringLiteral.decode q body = Some (10 :: lit "it's \ here").
Proof.
  apply (nodeStr_round_trip Sample.js Sample.options (10 :: lit "it's \ here")).
  repeat constructor.
Defined.

(** X3. Outside [auto] the quote option alone picks the delimiter: the
    single quote under [single], the double quote under [double] and
    under any other value of the option; the literal is at least two units
    longer than the string. What is not a string is refused, whatever the
    option. *)
Theorem nodeStr_quote_option (js : Engine) (options : Options) :
  isStr (quote options) "auto" = false ->
  (forall str : jsstring,
     exists out : jsstring,
       Printer.nodeStr js (VStr str) options = Ok out
       /\ head out = Some (if isStr (quote options) "single"
                           then SQUOTE else DQUOTE)
       /\ last out = head out
       /\ (length str + 2 <= length out)%nat)
  /\ (forall v : value,
        (forall s, v <> VStr s) ->
        Printer.nodeStr js v options = Err (TypeAssertion "string")).
Proof.
  intros Hauto. split.
  - intros str. unfold Printer.nodeStr. cbn [bind]. rewrite Hauto.
    assert (Hlen : forall t, (length t <= length (JSON.quoteBody (wellFormedStringify js) t))%nat).
    { intros t. remember (length t) as n eqn:Hn.
      assert (Hle : (length t <= n)%nat) by lia.
      rewrite Hn. clear Hn. revert t Hle.
      induction n as [|n IH]; intros [|c rest] Hle; simpl in Hle; try lia;
        try (simpl; lia).
      assert (IHrest := IH rest ltac:(lia)).
      assert (Hq : (1 <= length (JSON.quoteCodeUnit c))%nat).
      { unfold JSON.quoteCodeUnit.
        repeat match goal with
        | |- context [if ?b then _ else _] => destruct b
        end; simpl; lia. }
      cbn [JSON.quoteBody].
      destruct (wellFormedStringify js && JSON.isLeadingSurrogate c).
      - destruct rest as [|d rest']; [simpl; lia|].
        destruct (JSON.isTrailingSurrogate d).
        + simpl in Hle. assert (IH' := IH rest' ltac:(lia)).
          cbn [length]. lia.
        + rewrite length_app. cbn [length JSON.UnicodeEscape] in *. lia.
      - destruct (wellFormedStringify js && JSON.isTrailingSurrogate c);
          rewrite length_app; cbn [length JSON.UnicodeEscape] in *; lia. }
    destruct (isStr (quote options) "single").
    + eexists. split; [reflexivity|]. rewrite swapQuotes_stringify.
      split; [reflexivity|]. split.
      * cbn [head]. change (SQUOTE :: ?l ++ [SQUOTE]) with ((SQUOTE :: l) ++ [SQUOTE]).
        rewrite last_snoc. reflexivity.
      * cbn [length]. rewrite length_app, length_swapQuotes. cbn [length].
        pose proof (Hlen (Printer.swapQuotes str)) as H.
        rewrite length_swapQuotes in H. lia.
    + eexists. split; [reflexivity|]. unfold JSON.stringify.
      split; [reflexivity|]. split.
      * cbn [head]. change (DQUOTE :: ?l ++ [DQUOTE]) with ((DQUOTE :: l) ++ [DQUOTE]).
        rewrite last_snoc. reflexivity.
      * cbn [length]. rewrite length_app. cbn [length].
        pose proof (Hlen str). lia.
  - intros v Hv. destruct v; try reflexivity. exfalso. eapply Hv; reflexivity.
Qed.

Lemma nodeStr_quote_option_witness :
  (exists out : jsstring,
     Printer.nodeStr Sample.js (VStr (lit "a"))
       (mkOptions 2 80 (VStr (lit "single")) true VUndef VUndef VUndef) = Ok out
     /\ head out = Some SQUOTE)
  /\ Printer.nodeStr Sample.js VNull
       (mkOptions 2 80 (VStr (lit "single")) true VUndef VUndef VUndef)
     = Err (TypeAssertion "string").
Proof.
  pose proof (nodeStr_quote_option Sample.js
                (mkOptions 2 80 (VStr (lit "single")) true VUndef VUndef VUndef)
                eq_refl) as [Hs Hv].
  split.
  - destruct (Hs (lit "a")) as (out & Hout & Hhead & _).
    exists out. split; [exact Hout | exact Hhead].
  - apply Hv. intros s; discriminate.
Defined.

(** ** Parentheses and decorators *)



(** X5. A node with decorators of its own, outside an export
    declaration, is never put between parentheses, whatever [needsParens]
    says: every decorator is printed in order, each followed by a line,
    and the node after them. A decorator that cannot be printed fails the
    node. *)
Theorem decorated_node_without_parentheses (js : Engine) (ext : Externals)
    (options : Options) (path : Path) (printPath : Path -> result Doc)
    (d : Doc) (decorators : list value) :
  Printer.genericPrintNoParens js ext path options printPath = Ok d ->
  isEmpty d = false ->
  getField (getValue path) "decorators" = VArr decorators ->
  decorators <> [] ->
  truthy (getParentExportDeclaration ext path) = false ->
  let q := push path (Field "decorators") (VArr decorators) in
  Printer.genericPrint js ext path options printPath
  = let! printed := mapM printPath (elementPaths q decorators) in
    Ok (concat (flat_map (fun p => [p; line]) printed ++ [d])).
Proof.
  intros Hd Hempty Hdec Hsome Hparent q.
  assert (Hnode : exists fs, getValue path = VObj fs).
  { destruct (getValue path); try discriminate Hdec. eauto. }
  destruct Hnode as (fs & Hn).
  unfold Printer.genericPrint. rewrite Hd. cbn [bind].
  rewrite Hempty, Hdec, Hn. cbn [truthy negb orb lengthOf bind lengthPositive].
  rewrite Hparent.
  destruct decorators as [|x l]; [contradiction|].
  cbn [length Nat.eqb negb andb]. cbv iota.
  unfold map_. cbn [descend bind]. rewrite Hn. cbn [getProp bind].
  rewrite Hn in Hdec. rewrite Hdec.
  cbn [getValue push frames asList bind]. reflexivity.
Qed.

Lemma decorated_node_without_parentheses_witness :
  Printer.genericPrint Sample.js
    (mkExternals (fun _ => true) (fun _ => true) (fun _ => VUndef)
       (fun _ => false) (fun path print => print path)
       (fun _ _ => Ok (VStr [])) (fun _ _ => Ok (VStr []))
       (fun _ _ _ => Ok VUndef) (fun _ _ => Ok VUndef)
       (fun _ _ _ _ => Ok (txt "")))
    (FastPath_from
       (Sample.node "Literal"
          [("value", Sample.str "a");
           ("decorators", VArr [Sample.node "Decorator" []])]))
    Sample.options (fun _ => Ok (txt "@d"))
  = Ok (concat [txt "@d"; line; Text (DQUOTE :: lit "a" ++ [DQUOTE])]).
Proof.
  exact (decorated_node_without_parentheses Sample.js
           (mkExternals (fun _ => true) (fun _ => true) (fun _ => VUndef)
              (fun _ => false) (fun path print => print path)
              (fun _ _ => Ok (VStr [])) (fun _ _ => Ok (VStr []))
              (fun _ _ _ => Ok VUndef) (fun _ _ => Ok VUndef)
              (fun _ _ _ _ => Ok (txt "")))
           Sample.options
           (FastPath_from
              (Sample.node "Literal"
                 [("value", Sample.str "a");
                  ("decorators", VArr [Sample.node "Decorator" []])]))
           (fun _ => Ok (txt "@d")) (Text (DQUOTE :: lit "a" ++ [DQUOTE]))
           [Sample.node "Decorator" []]
           eq_refl eq_refl eq_refl ltac:(discriminate) eq_refl).
Defined.

(** X6. An empty statement and a [Noop] print as the empty text: no
    parentheses, no decorators and no semicolon are put around them, and
    the callback is not asked for anything. *)
Theorem empty_statement_prints_nothing (js : Engine) (ext : Externals)
    (options : Options) (path : Path) (printPath : Path -> result Doc)
    (fs : list (jsstring * value)) :
  getValue path = VObj fs ->
  caseOf (assoc (lit "type") fs) ["Noop"; "EmptyStatement"] = true ->
  Printer.genericPrintNoParens js ext path options printPath = Ok (txt "")
  /\ Printer.genericPrint js ext path options printPath = Ok (txt "").
Proof.
  intros Hn Hkind.
  assert (Hrun : Printer.genericPrintNoParens js ext path options printPath
                 = Ok (txt "")).
  { unfold caseOf in Hkind. apply existsb_exists in Hkind as (k & Hk & Hm).
    apply isStr_true in Hm. unfold Printer.genericPrintNoParens.
    cbn [In] in Hk. destruct Hk as [<- | [<- | []]];
      enter_rule Hn Hm; reflexivity. }
  split; [exact Hrun|].
  unfold Printer.genericPrint. rewrite Hrun. cbn [bind].
  rewrite orb_true_r. reflexivity.
Qed.

Lemma empty_statement_prints_nothing_witness :
  Printer.genericPrint Sample.js Sample.ext
    (FastPath_from
       (Sample.node "EmptyStatement"
          [("decorators", VArr [Sample.node "Decorator" []])]))
    Sample.options (fun _ => Err TypeError)
  = Ok (txt "").
Proof.
  exact (proj2 (empty_statement_prints_nothing Sample.js Sample.ext
                  Sample.options
                  (FastPath_from
                     (Sample.node "EmptyStatement"
                        [("decorators", VArr [Sample.node "Decorator" []])]))
                  (fun _ => Err TypeError) _ eq_refl eq_refl)).
Defined.

(** ** Statement sequences *)

Lemma statements_filter (print : Path -> result Doc) (stmtPaths : list Path)
    (printed : list Doc) :
  Rules.statements print stmtPaths printed
  = let! rest := mapM print (List.filter Rules.printable stmtPaths) in
    Ok (printed ++ rest).
Proof.
  revert printed. induction stmtPaths as [|p ps IH]; intros printed;
    cbn [Rules.statements List.filter mapM bind].
  - rewrite app_nil_r. reflexivity.
  - unfold Rules.printable at 1.
    destruct (truthy (getValue p)); cbn [negb andb]; [|apply IH].
    destruct (isStr (getField (getValue p) "type") "EmptyStatement");
      cbn [negb]; [apply IH|].
    cbn [mapM]. destruct (print p) as [d|e]; cbn [bind]; [|reflexivity].
    rewrite IH. destruct (mapM print _); cbn [bind]; [|reflexivity].
    rewrite <- app_assoc. reflexivity.
Qed.

Lemma printStatementSequence_run (path : Path) (options : Options)
    (print : Path -> result Doc) (l : list value) :
  getValue path = VArr l ->
  Rules.printStatementSequence path options print
  = let! printed :=
      mapM print (List.filter Rules.printable (pathsFrom path 0 l)) in
    Ok (join hardline printed).
Proof.
  intros Hl. unfold Rules.printStatementSequence. rewrite Hl.
  cbn [asList bind]. rewrite statements_filter, elementPaths_pathsFrom.
  destruct (mapM print _); reflexivity.
Qed.

(** X7. [printStatementSequence] prints the statements of a list in
    order and joins them with hard lines; the falsy entries and the empty
    statements of the list are dropped before printing: the callback is not
    called on them and they leave no separator behind. The statements
    that are printed keep the index they have in the list. *)
Theorem printStatementSequence_filter (path : Path) (options : Options)
    (print : Path -> result Doc) (l : list value) :
  getValue path = VArr l ->
  Rules.printStatementSequence path options print
  = let! printed :=
      mapM print (List.filter Rules.printable (pathsFrom path 0 l)) in
    Ok (join hardline printed).
Proof. apply printStatementSequence_run. Qed.

Lemma printStatementSequence_filter_witness :
  Rules.printStatementSequence
    (FastPath_from
       (VArr [Sample.node "EmptyStatement" []; VNull;
              Sample.node "DebuggerStatement" []]))
    Sample.options
    (fun p => match getName p with
              | Some (Index 2) => Ok (txt "debugger;")
              | _ => Err TypeError
              end)
  = Ok (concat [txt "debugger;"]).
Proof.
  exact (printStatementSequence_filter
           (FastPath_from
              (VArr [Sample.node "EmptyStatement" []; VNull;
                     Sample.node "DebuggerStatement" []]))
           Sample.options
           (fun p => match getName p with
                     | Some (Index 2) => Ok (txt "debugger;")
                     | _ => Err TypeError
                     end)
           _ eq_refl).
Defined.



(** ** Clauses *)

Lemma adjustClause_first_string (clause : Doc) (options : Options) :
  getFirstString (Rules.adjustClause clause options) = getFirstString clause.
Proof.
  unfold Rules.adjustClause.
  destruct (firstStringIs clause "{"); cbn; destruct (getFirstString clause);
    reflexivity.
Qed.

(** X9. [adjustClause] keeps the text a clause begins with, so the rule
    of [if] reads off the adjusted consequent what the consequent itself
    begins with: a consequent that begins with a brace stays on the line
    of the condition and is followed by [else] on the same line; any other
    consequent is indented on a line of its own and [else] starts a new
    line. *)
Theorem if_else_layout (path : Path) (options : Options)
    (print : Path -> result Doc) (fs : list (jsstring * value))
    (consequent test alternate : Doc) :
  getValue path = VObj fs ->
  truthy (assoc (lit "alternate") fs) = true ->
  let at_ (k : string) := push path (Field k) (assoc (lit k) fs) in
  print (at_ "consequent") = Ok consequent ->
  print (at_ "test") = Ok test ->
  print (at_ "alternate") = Ok alternate ->
  let head := [
    txt "if (";
    group (concat [
      Printer.indent (tabWidth options) (concat [softline; test]);
      softline
    ]);
    txt ")"
  ] in
  (forall d, getFirstString (Rules.adjustClause d options) = getFirstString d)
  /\ Rules.IfStatement path options print
     = Ok (concat (head ++
             if firstStringIs consequent "{"
             then [concat [txt " "; consequent];
                   txt " else";
                   Rules.adjustClause alternate options]
             else [Printer.indent (tabWidth options)
                     (concat [hardline; consequent]);
                   Text (10 :: lit "else");
                   Rules.adjustClause alternate options])).
Proof.
  intros Hn Halt at_ Hc Ht Ha head.
  split; [intros d; apply adjustClause_first_string|].
  unfold Rules.IfStatement, call. cbn [descend bind]. rewrite Hn.
  cbn [getProp getField bind]. fold (at_ "consequent"). rewrite Hc.
  cbn [bind]. fold (at_ "test"). rewrite Ht. cbn [bind]. rewrite Halt.
  fold (at_ "alternate"). rewrite Ha. cbn [bind].
  unfold firstStringIs at 1. rewrite adjustClause_first_string.
  fold (firstStringIs consequent "{").
  unfold Rules.adjustClause at 1 2.
  destruct (firstStringIs consequent "{"); reflexivity.
Qed.

Lemma if_else_layout_witness :
  Rules.IfStatement
    (FastPath_from
       (Sample.node "IfStatement"
          [("test", Sample.str "t"); ("consequent", Sample.str "c");
           ("alternate", Sample.str "a")]))
    Sample.options
    (fun p => match getValue p with VStr s => Ok (Text s) | _ => Err TypeError end)
  = Ok (concat [
      txt "if (";
      group (concat [
        Printer.indent 2 (concat [softline; txt "t"]);
        softline
      ]);
      txt ")";
      Printer.indent 2 (concat [hardline; txt "c"]);
      Text (10 :: lit "else");
      Printer.indent 2 (concat [hardline; txt "a"])
    ]).
Proof.
  exact (proj2 (if_else_layout
                  (FastPath_from
                     (Sample.node "IfStatement"
                        [("test", Sample.str "t"); ("consequent", Sample.str "c");
                         ("alternate", Sample.str "a")]))
                  Sample.options
                  (fun p => match getValue p with
                            | VStr s => Ok (Text s)
                            | _ => Err TypeError
                            end)
                  _ (txt "c") (txt "t") (txt "a")
                  eq_refl eq_refl eq_refl eq_refl eq_refl)).
Defined.

(** ** Template literals *)

Lemma split_cons (sep : N) (s : jsstring) :
  exists segment segments, split sep s = segment :: segments.
Proof.
  destruct s as [|c s]; cbn [split]; [eauto|].
  destruct (c =? sep); [eauto|]. destruct (split sep s); eauto.
Qed.

Lemma joinWith_split (sep : N) (s : jsstring) :
  joinWith sep (split sep s) = s.
Proof.
  induction s as [|c s IH]; [reflexivity|]. cbn [split].
  destruct (split_cons sep s) as (segment & segments & Hs).
  rewrite Hs in *. destruct (c =? sep) eqn:Hc.
  - apply N.eqb_eq in Hc; subst c.
    change (joinWith sep ([] :: segment :: segments))
      with (sep :: joinWith sep (segment :: segments)).
    rewrite IH. reflexivity.
  - rewrite <- IH. destruct segments; reflexivity.
Qed.

Lemma split_segments (sep : N) (s : jsstring) :
  Forall (fun segment => ~ In sep segment) (split sep s).
Proof.
  induction s as [|c s IH]; cbn [split].
  - repeat constructor. intros [].
  - destruct (c =? sep) eqn:Hc.
    + constructor; [intros []|exact IH].
    + apply N.eqb_neq in Hc.
      destruct (split sep s) as [|segment segments].
      * repeat constructor. intros [H|[]]. congruence.
      * apply Forall_cons in IH as [Hseg Hrest]. constructor; [|exact Hrest].
        intros [H|H]; [congruence | contradiction].
Qed.

Lemma length_split (sep : N) (s : jsstring) :
  length (split sep s) = S (occurrences sep s).
Proof.
  induction s as [|c s IH]; [reflexivity|]. cbn [split occurrences].
  destruct (c =? sep); [cbn [length]; congruence|].
  destruct (split sep s); cbn [length] in *; congruence.
Qed.

(** X10. A template element is printed as its raw text cut at the line
    feeds, the pieces joined by literal lines: there is one piece more than
    there are line feeds, no piece holds a line feed, and the pieces put
    together again around line feeds are the raw text. *)
Theorem template_element_lines (path : Path) (fs vs : list (jsstring * value))
    (raw : jsstring) :
  getValue path = VObj fs ->
  assoc (lit "value") fs = VObj vs ->
  assoc (lit "raw") vs = VStr raw ->
  exists segments : list jsstring,
    Rules.TemplateElement path = Ok (join literalline (Text <$> segments))
    /\ length segments = S (occurrences 10 raw)
    /\ Forall (fun segment => ~ In 10 segment) segments
    /\ joinWith 10 segments = raw.
Proof.
  intros Hn Hv Hraw. exists (split 10 raw). split.
  - unfold Rules.TemplateElement. rewrite Hn. cbn [getField]. rewrite Hv.
    cbn [getProp getField bind]. rewrite Hraw. reflexivity.
  - split; [apply length_split|].
    split; [apply split_segments | apply joinWith_split].
Qed.

Lemma template_element_lines_witness :
  exists segments : list jsstring,
    Rules.TemplateElement
      (FastPath_from
         (Sample.node "TemplateElement"
            [("value", VObj [(lit "raw", VStr (lit "a" ++ 10 :: lit "b"))])]))
    = Ok (join literalline (Text <$> segments))
    /\ length segments = 2%nat.
Proof.
  destruct (template_element_lines
              (FastPath_from
                 (Sample.node "TemplateElement"
                    [("value",
                      VObj [(lit "raw", VStr (lit "a" ++ 10 :: lit "b"))])]))
              _ _ (lit "a" ++ 10 :: lit "b") eq_refl eq_refl eq_refl)
    as (segments & Hrun & Hlen & _).
  exists segments. split; [exact Hrun | exact Hlen].
Defined.

Lemma getName_pathsFrom (q : Path) (k : nat) (v : value) :
  getName (push q (Index k) v) = Some (Index k).
Proof. reflexivity. Qed.

Lemma quasis_interleave (print : Path -> result Doc) (expressions : list Doc)
    (q : Path) (l : list value) :
  forall (k : nat) (parts printed : list Doc),
    mapM print (pathsFrom q k l) = Ok printed ->
    Rules.quasis print expressions (pathsFrom q k l) parts
    = Ok (parts ++ Rules.interleave printed (drop k expressions)).
Proof.
  induction l as [|v l IH]; intros k parts printed; cbn [pathsFrom mapM].
  - intros [= <-]. cbn [Rules.quasis Rules.interleave]. rewrite app_nil_r.
    reflexivity.
  - destruct (print (push q (Index k) v)) as [d|] eqn:Hd; cbn [bind];
      [|discriminate].
    destruct (mapM print (pathsFrom q (S k) l)) as [ds|] eqn:Hds; cbn [bind];
      [|discriminate].
    intros [= <-]. cbn [Rules.quasis]. rewrite Hd. cbn [bind].
    rewrite getName_pathsFrom.
    destruct (expressions !! k) as [e|] eqn:He.
    + rewrite (IH (S k) _ ds Hds).
      rewrite (drop_S expressions e k He). cbn [Rules.interleave].
      rewrite <- !app_assoc. reflexivity.
    + rewrite (IH (S k) _ ds Hds).
      apply lookup_ge_None in He.
      rewrite !drop_ge by lia. cbn [Rules.interleave].
      rewrite <- !app_assoc. reflexivity.
Qed.

(** X11. A template literal is printed between two backticks as its
    quasis in order, each followed by the expression of the same index
    between [${] and [}] as long as there is one. An expression whose
    index no quasi has is printed and dropped. *)
Theorem template_literal_interleaves (path : Path)
    (print : Path -> result Doc) (fs : list (jsstring * value))
    (es qs : list value) (expressions printed : list Doc) :
  getValue path = VObj fs ->
  assoc (lit "expressions") fs = VArr es ->
  assoc (lit "quasis") fs = VArr qs ->
  mapM print (pathsFrom (push path (Field "expressions") (VArr es)) 0 es)
  = Ok expressions ->
  mapM print (pathsFrom (push path (Field "quasis") (VArr qs)) 0 qs)
  = Ok printed ->
  Rules.TemplateLiteral path print
  = Ok (concat (txt "`" :: Rules.interleave printed expressions ++ [txt "`"]))
  /\ (length (Rules.interleave printed expressions)
      = length printed + 3 * min (length printed) (length expressions))%nat.
Proof.
  intros Hn He Hq Hes Hqs. split.
  - unfold Rules.TemplateLiteral, map_. cbn [descend bind]. rewrite Hn.
    cbn [getProp getField bind]. rewrite He, Hq.
    cbn [getValue push frames asList bind].
    rewrite !elementPaths_pathsFrom, Hes. cbn [bind].
    rewrite (quasis_interleave print expressions _ qs 0 _ printed Hqs).
    cbn [bind drop app]. reflexivity.
  - clear. revert expressions.
    induction printed as [|p ps IH]; intros [|e es]; cbn [Rules.interleave length];
      try reflexivity.
    + rewrite IH. cbn [length]. lia.
    + rewrite IH. lia.
Qed.

Lemma template_literal_interleaves_witness :
  Rules.TemplateLiteral
    (FastPath_from
       (Sample.node "TemplateLiteral"
          [("expressions", VArr [Sample.str "x"; Sample.str "y"]);
           ("quasis", VArr [Sample.str "a"])]))
    (fun p => match getValue p with VStr s => Ok (Text s) | _ => Err TypeError end)
  = Ok (concat [txt "`"; txt "a"; txt "${"; txt "x"; txt "}"; txt "`"]).
Proof.
  exact (proj1 (template_literal_interleaves
                  (FastPath_from
                     (Sample.node "TemplateLiteral"
                        [("expressions", VArr [Sample.str "x"; Sample.str "y"]);
                         ("quasis", VArr [Sample.str "a"])]))
                  (fun p => match getValue p with
                            | VStr s => Ok (Text s)
                            | _ => Err TypeError
                            end)
                  _ [Sample.str "x"; Sample.str "y"] [Sample.str "a"]
                  [txt "x"; txt "y"] [txt "a"]
                  eq_refl eq_refl eq_refl eq_refl eq_refl)).
Defined.

(** ** Text of a template *)

Lemma trimStart_split (s : jsstring) :
  exists w, s = w ++ JSString.trimStart s
            /\ forallb JSString.isSpace w = true.
Proof.
  induction s as [|c s (w & Hs & Hw)]; cbn [JSString.trimStart].
  - exists []. split; reflexivity.
  - destruct (JSString.isSpace c) eqn:Hc.
    + exists (c :: w). cbn [app forallb]. rewrite Hc, Hw, <- Hs.
      split; reflexivity.
    + exists []. split; reflexivity.
Qed.

Lemma trimStart_head (s : jsstring) (c : N) :
  head (JSString.trimStart s) = Some c -> JSString.isSpace c = false.
Proof.
  induction s as [|x s IH]; cbn [JSString.trimStart]; [discriminate|].
  destruct (JSString.isSpace x) eqn:Hx; [exact IH|].
  intros [= <-]. exact Hx.
Qed.

Lemma trimStart_fixed (s : jsstring) :
  (forall c, head s = Some c -> JSString.isSpace c = false) ->
  JSString.trimStart s = s.
Proof.
  destruct s as [|c s]; [reflexivity|]. intros H. cbn [JSString.trimStart].
  rewrite (H c eq_refl). reflexivity.
Qed.

Lemma trimEnd_split (s : jsstring) :
  exists w, s = JSString.trimEnd s ++ w
            /\ forallb JSString.isSpace w = true.
Proof.
  unfold JSString.trimEnd.
  destruct (trimStart_split (rev s)) as (w & Hs & Hw).
  exists (rev w). split.
  - rewrite <- rev_app_distr, <- Hs, rev_involutive. reflexivity.
  - rewrite forallb_forall in *. intros x Hx. apply Hw.
    apply in_rev. exact Hx.
Qed.

Lemma last_rev_head (s : jsstring) : last (rev s) = head s.
Proof.
  destruct s as [|c s]; [reflexivity|]. cbn [rev head]. apply last_snoc.
Qed.

Lemma head_rev_last (s : jsstring) : head (rev s) = last s.
Proof. rewrite <- (rev_involutive s) at 2. symmetry. apply last_rev_head. Qed.

Lemma trimEnd_last (s : jsstring) (c : N) :
  last (JSString.trimEnd s) = Some c -> JSString.isSpace c = false.
Proof.
  unfold JSString.trimEnd. rewrite last_rev_head. apply trimStart_head.
Qed.

Lemma trimEnd_fixed (s : jsstring) :
  (forall c, last s = Some c -> JSString.isSpace c = false) ->
  JSString.trimEnd s = s.
Proof.
  intros H. unfold JSString.trimEnd. rewrite trimStart_fixed.
  - apply rev_involutive.
  - intros c. rewrite head_rev_last. apply H.
Qed.

Lemma trim_ends (s : jsstring) (c : N) :
  head (JSString.trim s) = Some c \/ last (JSString.trim s) = Some c ->
  JSString.isSpace c = false.
Proof.
  unfold JSString.trim. intros [H|H]; [|exact (trimEnd_last _ _ H)].
  destruct (trimEnd_split (JSString.trimStart s)) as (w & Hs & _).
  apply (trimStart_head s). rewrite Hs.
  destruct (JSString.trimEnd (JSString.trimStart s)); [discriminate|exact H].
Qed.

Lemma inkOf_app (a b : jsstring) : inkOf (a ++ b) = inkOf a ++ inkOf b.
Proof. apply List.filter_app. Qed.

Lemma inkOf_blank (w : jsstring) :
  forallb JSString.isSpace w = true -> inkOf w = [].
Proof.
  induction w as [|c w IH]; [reflexivity|]. cbn [forallb inkOf List.filter].
  intros H. apply andb_true_iff in H as [Hc Hw]. rewrite Hc. cbn [negb].
  apply IH. exact Hw.
Qed.

Lemma inkOf_trim (s : jsstring) : inkOf (JSString.trim s) = inkOf s.
Proof.
  unfold JSString.trim.
  destruct (trimStart_split s) as (w1 & H1 & Hw1).
  destruct (trimEnd_split (JSString.trimStart s)) as (w2 & H2 & Hw2).
  rewrite H1 at 2. rewrite H2 at 2.
  rewrite !inkOf_app, (inkOf_blank w1 Hw1), (inkOf_blank w2 Hw2), app_nil_r.
  reflexivity.
Qed.

Lemma inkOf_collapseSpaces (b : bool) (s : jsstring) :
  inkOf (JSString.collapseSpaces b s) = inkOf s.
Proof.
  revert b. induction s as [|c s IH]; intros b; [reflexivity|].
  cbn [JSString.collapseSpaces]. destruct (JSString.isSpace c) eqn:Hc.
  - rewrite inkOf_app, IH. cbn [inkOf List.filter]. rewrite Hc. cbn [negb].
    destruct b; reflexivity.
  - cbn [inkOf List.filter]. rewrite Hc. cbn [negb]. f_equal. apply IH.
Qed.

Lemma singleSpaced_collapseSpaces (b : bool) (s : jsstring) :
  singleSpaced b (JSString.collapseSpaces b s) = true.
Proof.
  revert b. induction s as [|c s IH]; intros b; [reflexivity|].
  cbn [JSString.collapseSpaces]. destruct (JSString.isSpace c) eqn:Hc.
  - destruct b; cbn [app]; [apply IH|].
    cbn [singleSpaced]. change (JSString.isSpace 32) with true. cbv iota.
    rewrite IH. reflexivity.
  - cbn [singleSpaced]. rewrite Hc. apply IH.
Qed.

Lemma collapseSpaces_fixed (b : bool) (s : jsstring) :
  singleSpaced b s = true -> JSString.collapseSpaces b s = s.
Proof.
  revert b. induction s as [|c s IH]; intros b; [reflexivity|].
  cbn [singleSpaced JSString.collapseSpaces].
  destruct (JSString.isSpace c) eqn:Hc.
  - intros H. apply andb_true_iff in H as [H Hs].
    apply andb_true_iff in H as [H32 Hb]. apply N.eqb_eq in H32; subst c.
    destruct b; [discriminate|]. cbn [app]. rewrite (IH true Hs). reflexivity.
  - intros H. rewrite (IH false H). reflexivity.
Qed.

Lemma singleSpaced_any (b : bool) (s : jsstring) :
  singleSpaced b s = true -> singleSpaced false s = true.
Proof.
  destruct s as [|c s]; [reflexivity|]. cbn [singleSpaced].
  destruct (JSString.isSpace c); [|auto].
  intros H. apply andb_true_iff in H as [H Hs].
  apply andb_true_iff in H as [H32 _]. rewrite H32, Hs. reflexivity.
Qed.

Lemma singleSpaced_suffix (b : bool) (w s : jsstring) :
  singleSpaced b (w ++ s) = true -> singleSpaced false s = true.
Proof.
  revert b. induction w as [|c w IH]; intros b; cbn [app].
  - apply singleSpaced_any.
  - cbn [singleSpaced]. destruct (JSString.isSpace c); [|apply IH].
    intros H. apply andb_true_iff in H as [_ Hs]. exact (IH true Hs).
Qed.

Lemma singleSpaced_prefix (b : bool) (s w : jsstring) :
  singleSpaced b (s ++ w) = true -> singleSpaced b s = true.
Proof.
  revert b. induction s as [|c s IH]; intros b; [reflexivity|].
  cbn [app singleSpaced]. destruct (JSString.isSpace c); [|apply IH].
  intros H. apply andb_true_iff in H as [H Hs]. rewrite H. exact (IH true Hs).
Qed.

Lemma singleSpaced_trim (s : jsstring) :
  singleSpaced false s = true -> singleSpaced false (JSString.trim s) = true.
Proof.
  intros H. unfold JSString.trim.
  destruct (trimStart_split s) as (w1 & H1 & _).
  destruct (trimEnd_split (JSString.trimStart s)) as (w2 & H2 & _).
  rewrite H1 in H. apply singleSpaced_suffix in H. rewrite H2 in H.
  exact (singleSpaced_prefix _ _ _ H).
Qed.

Lemma singleSpaced_plain (b : bool) (s : jsstring) :
  singleSpaced b s = true ->
  Forall (fun c => JSString.isSpace c = true -> c = 32) s.
Proof.
  revert b. induction s as [|c s IH]; intros b; [constructor|].
  cbn [singleSpaced]. destruct (JSString.isSpace c) eqn:Hc.
  - intros H. apply andb_true_iff in H as [H Hs].
    apply andb_true_iff in H as [H32 _]. apply N.eqb_eq in H32.
    constructor; [auto | exact (IH true Hs)].
  - intros H. constructor; [congruence | exact (IH false H)].
Qed.

Lemma singleSpaced_apart (b : bool) (pre post : jsstring) (x y : N) :
  singleSpaced b (pre ++ x :: y :: post) = true ->
  JSString.isSpace x && JSString.isSpace y = false.
Proof.
  revert b. induction pre as [|c pre IH]; intros b; cbn [app singleSpaced].
  - destruct (JSString.isSpace x); [|reflexivity].
    destruct (JSString.isSpace y); [|reflexivity].
    rewrite !andb_false_r. discriminate.
  - destruct (JSString.isSpace c); [|apply IH].
    intros H. apply andb_true_iff in H as [_ Hs]. exact (IH true Hs).
Qed.

(** X12. The text of a template is printed with its white space
    normalised: every run of white space becomes one plain space, none is
    left at either end, and the other units are kept in their order.
    Printing what was printed changes nothing. *)
Theorem text_node_normalised (js : Engine) (path : Path) (options : Options)
    (print : Path -> result Doc) (fs : list (jsstring * value))
    (chars : jsstring) :
  getValue path = VObj fs ->
  assoc (lit "type") fs = VStr (lit "TextNode") ->
  assoc (lit "chars") fs = VStr chars ->
  exists text : jsstring,
    Handlebars.printPath js path options print = Ok (Text text)
    /\ Forall (fun c => JSString.isSpace c = true -> c = 32) text
    /\ (forall pre post x y,
          text = pre ++ x :: y :: post ->
          JSString.isSpace x && JSString.isSpace y = false)
    /\ (forall c, head text = Some c \/ last text = Some c ->
                  JSString.isSpace c = false)
    /\ inkOf text = inkOf chars
    /\ JSString.trim (JSString.collapseSpaces false text) = text.
Proof.
  intros Hn Ht Hc.
  set (text := JSString.trim (JSString.collapseSpaces false chars)).
  assert (Hs : singleSpaced false text = true)
    by apply singleSpaced_trim, singleSpaced_collapseSpaces.
  exists text. split; [|split; [|split; [|split; [|split]]]].
  - unfold Handlebars.printPath. enter_rule Hn Ht. rewrite Hc. reflexivity.
  - exact (singleSpaced_plain _ _ Hs).
  - intros pre post x y E. rewrite E in Hs. exact (singleSpaced_apart _ _ _ _ _ Hs).
  - apply trim_ends.
  - unfold text. rewrite inkOf_trim. apply inkOf_collapseSpaces.
  - rewrite (collapseSpaces_fixed _ _ Hs). unfold JSString.trim.
    rewrite trimStart_fixed, trimEnd_fixed; [reflexivity| |];
      intros c H; apply (trim_ends (JSString.collapseSpaces false chars));
      fold text; auto.
Qed.

Lemma text_node_normalised_witness :
  exists text : jsstring,
    Handlebars.printPath Sample.js
      (FastPath_from
         (Sample.node "TextNode"
            [("chars", VStr (10 :: 32 :: lit "a" ++ 9 :: 9 :: lit "b "))]))
      Sample.options (fun _ => Err TypeError)
    = Ok (Text text)
    /\ inkOf text = lit "ab".
Proof.
  destruct (text_node_normalised Sample.js
              (FastPath_from
                 (Sample.node "TextNode"
                    [("chars", VStr (10 :: 32 :: lit "a" ++ 9 :: 9 :: lit "b "))]))
              Sample.options (fun _ => Err TypeError) _
              (10 :: 32 :: lit "a" ++ 9 :: 9 :: lit "b ")
              eq_refl eq_refl eq_refl)
    as (text & Hrun & _ & _ & _ & Hink & _).
  exists text. split; [exact Hrun | exact Hink].
Defined.

(** X13. An attribute whose value is no text node cannot be printed:
    the translation fails with the error that names the kind of the value,
    or with a type error when the attribute has no value at all, and the
    callback is not asked for anything. *)
Theorem attribute_value_kinds (js : Engine) (path : Path) (options : Options)
    (print : Path -> result Doc) (fs : list (jsstring * value)) :
  getValue path = VObj fs ->
  assoc (lit "type") fs = VStr (lit "AttrNode") ->
  let value := assoc (lit "value") fs in
  isStr (getField value "type") "TextNode" = false ->
  Handlebars.printPath js path options print
  = match value with
    | VUndef | VNull => Err TypeError
    | _ => Err (UnsupportedAttributeType (getField value "type"))
    end.
Proof.
  intros Hn Ht value Hv. unfold Handlebars.printPath. enter_rule Hn Ht.
  fold value. destruct value; cbn [getProp bind]; try reflexivity;
    rewrite Hv; reflexivity.
Qed.

Lemma attribute_value_kinds_witness :
  Handlebars.printPath Sample.js
    (FastPath_from
       (Sample.node "AttrNode"
          [("name", Sample.str "class");
           ("value", Sample.node "MustacheStatement" [])]))
    Sample.options (fun _ => Ok (txt ""))
  = Err (UnsupportedAttributeType (Sample.str "MustacheStatement")).
Proof.
  exact (attribute_value_kinds Sample.js
           (FastPath_from
              (Sample.node "AttrNode"
                 [("name", Sample.str "class");
                  ("value", Sample.node "MustacheStatement" [])]))
           Sample.options (fun _ => Ok (txt "")) _ eq_refl eq_refl eq_refl).
Defined.

(** ** The translation of a whole template *)

Lemma fueled_bind {A B} (r : result A) (k : A -> result B) :
  fueled r -> (forall a, r = Ok a -> fueled (k a)) -> fueled (bind r k).
Proof.
  intros Hr Hk. destruct r as [a|e]; cbn [bind].
  - apply Hk. reflexivity.
  - intros [= ->]. apply Hr. reflexivity.
Qed.

Lemma fueled_mapM {A B} (f : A -> result B) (l : list A) :
  Forall (fun a => fueled (f a)) l -> fueled (mapM f l).
Proof.
  induction 1 as [|a l Ha _ IH]; cbn [mapM]; [discriminate|].
  apply fueled_bind; [exact Ha|]. intros b _.
  apply fueled_bind; [exact IH|]. discriminate.
Qed.

Lemma depth_assoc (k : jsstring) (fs : list (jsstring * value)) :
  (depth (assoc k fs) < depth (VObj fs))%nat.
Proof.
  cbn [depth]. apply Nat.lt_succ_r.
  induction fs as [|[k' x] fs IH]; cbn [assoc depth]; [lia|].
  destruct (jseqb k k'); lia.
Qed.

Lemma depth_elements (q : Path) (l : list value) (k : nat) :
  Forall (fun p => (depth (getValue p) < depth (VArr l))%nat) (pathsFrom q k l).
Proof.
  cbn [depth].
  revert k. induction l as [|x l IH]; intros k; cbn [pathsFrom]; constructor.
  - cbn [getValue push frames]. lia.
  - eapply Forall_impl; [apply IH|]. cbn beta. intros p Hp. lia.
Qed.

Section Fuel.

Context (js : Engine) (options : Options).

Variables (path : Path) (fs : list (jsstring * value)).
Variable print : Path -> result Doc.

Hypothesis Hn : getValue path = VObj fs.
Hypothesis Hprint :
  forall q, (depth (getValue q) < depth (VObj fs))%nat -> fueled (print q).

Lemma fueled_call (k : string) : fueled (call path print [k]).
Proof.
  unfold call. cbn [descend]. rewrite Hn. cbn [getProp getField bind].
  apply Hprint. cbn [getValue push frames]. apply depth_assoc.
Qed.

Lemma fueled_map (k : string) : fueled (map_ path print [k]).
Proof.
  unfold map_. cbn [descend]. rewrite Hn. cbn [getProp getField bind].
  cbn [getValue push frames].
  pose proof (depth_assoc (lit k) fs) as Hk.
  destruct (assoc (lit k) fs) as [| | | | |l|] eqn:E; cbn [asList bind];
    try discriminate.
  rewrite elementPaths_pathsFrom. apply fueled_mapM.
  eapply Forall_impl; [apply depth_elements|]. cbn beta.
  intros p Hp. apply Hprint. lia.
Qed.

End Fuel.

Lemma fueled_simple {A} (r : result A) :
  (forall e, r = Err e -> e = TypeError \/ e = InvalidDocument) -> fueled r.
Proof.
  intros H E. destruct (H _ E); discriminate.
Qed.

Lemma fueled_getProp (v : value) (k : string) : fueled (getProp v k).
Proof. destruct v; discriminate. Qed.

Lemma fueled_asDoc (v : value) : fueled (asDoc v).
Proof. destruct v; discriminate. Qed.

Lemma fueled_asString (v : value) : fueled (asString v).
Proof. destruct v; discriminate. Qed.

Lemma fueled_asList (v : value) : fueled (asList v).
Proof. destruct v; discriminate. Qed.

Lemma fueled_lengthOf (v : value) : fueled (lengthOf v).
Proof. destruct v; discriminate. Qed.

Ltac fuel_step :=
  match goal with
  | |- fueled (Ok _) => discriminate
  | |- fueled (Err _) => discriminate
  | |- fueled (getProp _ _) => apply fueled_getProp
  | |- fueled (asDoc _) => apply fueled_asDoc
  | |- fueled (asString _) => apply fueled_asString
  | |- fueled (asList _) => apply fueled_asList
  | |- fueled (lengthOf _) => apply fueled_lengthOf
  | |- fueled (mapM asDoc _) =>
      apply fueled_mapM, Forall_forall; intros ? _; apply fueled_asDoc
  | |- fueled (call _ _ _) => eapply fueled_call; eassumption
  | |- fueled (map_ _ _ _) => eapply fueled_map; eassumption
  | |- fueled (bind _ _) => apply fueled_bind; [|intros ? _]
  | |- fueled (if ?b then _ else _) => destruct b
  end.

Lemma printPath_fueled (js : Engine) (options : Options) (path : Path)
    (print : Path -> result Doc) :
  (forall q, (depth (getValue q) < depth (getValue path))%nat ->
             fueled (print q)) ->
  fueled (Handlebars.printPath js path options print).
Proof.
  intros Hprint. unfold Handlebars.printPath.
  destruct (truthy (getValue path)); cbn [negb]; [|discriminate].
  destruct (getValue path) as [| | | | |l|fs] eqn:Hn; try discriminate.
  unfold Handlebars.printChildren, Handlebars.printAttributes.
  rewrite ?Hn.
  repeat fuel_step.
Qed.

Lemma refines_refl {A} (r : result A) : refines r r.
Proof. right. reflexivity. Qed.

Lemma refines_bind {A B} (r1 r2 : result A) (k1 k2 : A -> result B) :
  refines r1 r2 -> (forall a, refines (k1 a) (k2 a)) ->
  refines (bind r1 k1) (bind r2 k2).
Proof.
  intros [-> | ->] Hk; [left; reflexivity|].
  destruct r2; cbn [bind]; [apply Hk | apply refines_refl].
Qed.

Lemma refines_mapM {A B} (f g : A -> result B) (l : list A) :
  (forall a, refines (f a) (g a)) -> refines (mapM f l) (mapM g l).
Proof.
  intros H. induction l as [|a l IH]; cbn [mapM]; [apply refines_refl|].
  apply refines_bind; [apply H|]. intros b.
  apply refines_bind; [exact IH|]. intros bs. apply refines_refl.
Qed.

Lemma refines_call (path : Path) (f g : Path -> result Doc)
    (names : list string) :
  (forall q, refines (f q) (g q)) ->
  refines (call path f names) (call path g names).
Proof.
  intros H. unfold call. apply refines_bind; [apply refines_refl | exact H].
Qed.

Lemma refines_map (path : Path) (f g : Path -> result Doc)
    (names : list string) :
  (forall q, refines (f q) (g q)) ->
  refines (map_ path f names) (map_ path g names).
Proof.
  intros H. unfold map_. apply refines_bind; [apply refines_refl|]. intros q.
  apply refines_bind; [apply refines_refl|]. intros l.
  apply refines_mapM. exact H.
Qed.

Ltac refine_step H :=
  match goal with
  | |- refines ?r ?r => apply refines_refl
  | |- refines (call _ _ _) (call _ _ _) => apply refines_call; exact H
  | |- refines (map_ _ _ _) (map_ _ _ _) => apply refines_map; exact H
  | |- refines (bind _ _) (bind _ _) => apply refines_bind; [|intros ?]
  | |- refines (if ?b then _ else _) (if ?b then _ else _) => destruct b
  end.

Lemma printPath_refines (js : Engine) (options : Options) (path : Path)
    (f g : Path -> result Doc) :
  (forall q, refines (f q) (g q)) ->
  refines (Handlebars.printPath js path options f)
          (Handlebars.printPath js path options g).
Proof.
  intros H. unfold Handlebars.printPath.
  destruct (truthy (getValue path)); cbn [negb]; [|apply refines_refl].
  unfold Handlebars.printChildren, Handlebars.printAttributes.
  destruct (getValue path); repeat refine_step H.
Qed.

Lemma printAll_more_fuel (js : Engine) (options : Options) (fuel k : nat) :
  forall path,
    refines (Handlebars.printAll js options fuel path)
            (Handlebars.printAll js options (fuel + k) path).
Proof.
  induction fuel as [|fuel IH]; intros path; [left; reflexivity|].
  cbn [Nat.add Handlebars.printAll]. apply printPath_refines. exact IH.
Qed.

(** X14. The translation of a whole template ends on every tree: with
    more fuel than the tree is high it never stops for want of fuel, and
    its result, a document or the error of a node, is the same for every
    such amount of fuel. *)
Theorem printAll_terminates (js : Engine) (options : Options) (path : Path)
    (fuel : nat) :
  (depth (getValue path) < fuel)%nat ->
  Handlebars.printAll js options fuel path <> Err OutOfFuel
  /\ Handlebars.printAll js options fuel path
     = Handlebars.printAll js options (S (depth (getValue path))) path.
Proof.
  intros Hfuel.
  assert (Hends : forall n p, (depth (getValue p) < n)%nat ->
                    fueled (Handlebars.printAll js options n p)).
  { induction n as [|n IH]; intros p Hp; [lia|].
    cbn [Handlebars.printAll]. apply printPath_fueled.
    intros q Hq. apply IH. lia. }
  split; [exact (Hends fuel path Hfuel)|].
  destruct (printAll_more_fuel js options (S (depth (getValue path)))
              (fuel - S (depth (getValue path))) path) as [H|H].
  - exfalso. apply (Hends (S (depth (getValue path))) path); [lia | exact H].
  - rewrite H. f_equal. lia.
Qed.

Lemma printAll_terminates_witness :
  Handlebars.printAll Sample.js Sample.options 9
    (FastPath_from Sample.brWithChild)
  = Handlebars.printAll Sample.js Sample.options
      (S (depth Sample.brWithChild)) (FastPath_from Sample.brWithChild).
Proof.
  refine (proj2 (printAll_terminates Sample.js Sample.options
                   (FastPath_from Sample.brWithChild) 9 _)).
  vm_compute. lia.
Defined.

(** ** Methods and the tree *)

Module ReadFacts.
Import Store.

Lemma readsOnly_ret {A} (a : A) : readsOnly (ret a).
Proof. intros σ. reflexivity. Qed.

Lemma readsOnly_throw {A} (e : error) : readsOnly (@throw A e).
Proof. intros σ. reflexivity. Qed.

Lemma readsOnly_bind {A B} (m : M A) (k : A -> M B) :
  readsOnly m -> (forall a, readsOnly (k a)) -> readsOnly (bindM m k).
Proof.
  intros Hm Hk σ. unfold bindM. specialize (Hm σ).
  destruct (m σ) as [[a | e] σ']; cbn [snd] in *; subst σ'; [apply Hk|].
  reflexivity.
Qed.

Lemma readsOnly_getField (v : sval) (k : string) : readsOnly (getField v k).
Proof. intros σ. reflexivity. Qed.

Lemma readsOnly_getProp (v : sval) (k : string) : readsOnly (getProp v k).
Proof. destruct v; intros σ; reflexivity. Qed.

Lemma readsOnly_elementsOf (v : sval) : readsOnly (elementsOf v).
Proof.
  intros σ. unfold elementsOf. destruct v; try reflexivity.
  destruct (σ !! l) as [[|]|]; reflexivity.
Qed.

Lemma readsOnly_getNode (ext : Externals) (path : Path) :
  readsOnly (getNode ext path).
Proof. intros σ. reflexivity. Qed.

Lemma readsOnly_descend (p : Path) (names : list string) :
  readsOnly (descend p names).
Proof.
  revert p; induction names as [|k names IH]; intros p; cbn [descend].
  - apply readsOnly_ret.
  - apply readsOnly_bind; [apply readsOnly_getProp | intros v; apply IH].
Qed.

Lemma readsOnly_call {A} (p : Path) (fn : Path -> M A) (names : list string) :
  (forall q, readsOnly (fn q)) -> readsOnly (call p fn names).
Proof.
  intros Hfn. apply readsOnly_bind; [apply readsOnly_descend | exact Hfn].
Qed.

Lemma readsOnly_mapM {A B} (f : A -> M B) (l : list A) :
  (forall a, readsOnly (f a)) -> readsOnly (mapM_ f l).
Proof.
  intros Hf. induction l as [|a l IH]; cbn [mapM_].
  - apply readsOnly_ret.
  - apply readsOnly_bind; [apply Hf | intros b].
    apply readsOnly_bind; [exact IH | intros bs; apply readsOnly_ret].
Qed.

Lemma readsOnly_map {A} (p : Path) (fn : Path -> M A) (names : list string) :
  (forall q, readsOnly (fn q)) -> readsOnly (map_ p fn names).
Proof.
  intros Hfn. apply readsOnly_bind; [apply readsOnly_descend | intros q].
  apply readsOnly_bind; [apply readsOnly_elementsOf | intros l].
  apply readsOnly_mapM, Hfn.
Qed.

Lemma readsOnly_assertFunctionExpression (ext : Externals) (v : sval) :
  readsOnly (assertFunctionExpression ext v).
Proof.
  unfold assertFunctionExpression.
  destruct (namedTypes ext (lit "FunctionExpression"));
    [|apply readsOnly_throw].
  apply readsOnly_bind; [apply readsOnly_getField | intros t].
  destruct (isStr t "FunctionExpression");
    [apply readsOnly_ret | apply readsOnly_throw].
Qed.

Create HintDb readsOnly.

#[global] Hint Resolve readsOnly_ret readsOnly_throw readsOnly_getField
  readsOnly_getProp readsOnly_elementsOf readsOnly_getNode readsOnly_descend
  readsOnly_assertFunctionExpression : readsOnly.

Ltac reads :=
  repeat first
    [ solve [eauto with readsOnly]
    | apply readsOnly_call; intros ?
    | apply readsOnly_map; intros ?
    | apply readsOnly_mapM; intros ?
    | apply readsOnly_bind; [|intros ?]
    | match goal with
      | |- readsOnly (if ?c then _ else _) => destruct c
      end ].

Lemma readsOnly_printDefaults (print : Path -> M Doc) (defaults : list Path)
    (printed : list Doc) :
  (forall p, readsOnly (print p)) ->
  readsOnly (printDefaults print defaults printed).
Proof.
  intros Hprint. revert printed.
  induction defaults as [|p defaults IH]; intros printed;
    cbn [printDefaults]; [reads|].
  destruct (getName p) as [[|i]|]; auto.
  destruct (printed !! i); auto.
  destruct (negb (isEmpty d) && truthy (getValue p)); auto.
  apply readsOnly_bind; [apply Hprint | intros ?; apply IH].
Qed.

Lemma readsOnly_printFunctionParams (path : Path) (print : Path -> M Doc) :
  (forall p, readsOnly (print p)) ->
  readsOnly (printFunctionParams path print).
Proof.
  intros Hprint. unfold printFunctionParams.
  pose proof (fun ds pr => readsOnly_printDefaults print ds pr Hprint).
  reads.
Qed.

Lemma readsOnly_printReturnType (path : Path) (print : Path -> M Doc) :
  (forall p, readsOnly (print p)) -> readsOnly (printReturnType path print).
Proof. intros Hprint. unfold printReturnType. reads. Qed.

End ReadFacts.

(** X15. The translation of methods writes to the tree only through
    the assignment of [printMethod] to a node of kind [ObjectMethod] or
    [ClassMethod]. With a callback that writes nothing, [printMethod] on a
    node of any other kind, and [printObjectMethod] on a property that is
    no method and no accessor, leave the store exactly as it was, whether
    they return or throw. *)
Theorem method_translation_reads_only (ext : Externals) (path : Store.Path)
    (options : Options) (print : Store.Path -> Store.M Doc) (σ : Store.store) :
  (forall p, readsOnly (print p)) ->
  (let node := nth 0 (List.filter (Store.Node_check ext σ)
                        (Store.stackValues path)) Store.SNull in
   Store.isStr (Store.fieldOf σ node "type") "ObjectMethod"
   || Store.isStr (Store.fieldOf σ node "type") "ClassMethod" = false ->
   (Store.printMethod ext path options print σ).2 = σ)
  /\ (let objMethod := Store.getValue path in
      Store.truthy (Store.fieldOf σ objMethod "method")
      || Store.isStr (Store.fieldOf σ objMethod "kind") "get"
      || Store.isStr (Store.fieldOf σ objMethod "kind") "set" = false ->
      (Store.printObjectMethod ext path options print σ).2 = σ).
Proof.
  intros Hprint.
  pose proof (fun p => ReadFacts.readsOnly_printFunctionParams p print Hprint)
    as Hparams.
  pose proof (fun p => ReadFacts.readsOnly_printReturnType p print Hprint)
    as Hreturn.
  split.
  - intros node Hkind.
    unfold Store.printMethod. unfold Store.bindM at 1.
    unfold Store.getNode at 1. cbv iota beta. fold node.
    unfold Store.bindM at 1.
    destruct (Store.getProp node "kind" σ) as [[kind|e] σ1] eqn:Ek.
    + assert (σ1 = σ) as ->.
      { pose proof (ReadFacts.readsOnly_getProp node "kind" σ) as H.
        rewrite Ek in H. exact H. }
      unfold Store.bindM at 1. unfold Store.getField at 1. cbv iota beta.
      rewrite Hkind.
      match goal with
      | |- (?m σ).2 = σ => enough (H : readsOnly m) by apply H
      end.
      ReadFacts.reads.
    + pose proof (ReadFacts.readsOnly_getProp node "kind" σ) as H.
      rewrite Ek in H. exact H.
  - intros objMethod Hkind.
    unfold Store.printObjectMethod. fold objMethod.
    unfold Store.bindM at 1.
    destruct (Store.getProp objMethod "async" σ) as [[async|e] σ1] eqn:Ea.
    + assert (σ1 = σ) as ->.
      { pose proof (ReadFacts.readsOnly_getProp objMethod "async" σ) as H.
        rewrite Ea in H. exact H. }
      unfold Store.bindM at 1. unfold Store.getField at 1. cbv iota beta.
      unfold Store.bindM at 1. unfold Store.getField at 1. cbv iota beta.
      unfold Store.bindM at 1. unfold Store.getField at 1. cbv iota beta.
      rewrite Hkind.
      match goal with
      | |- (?m σ).2 = σ => enough (H : readsOnly m) by apply H
      end.
      ReadFacts.reads.
    + pose proof (ReadFacts.readsOnly_getProp objMethod "async" σ) as H.
      rewrite Ea in H. exact H.
Qed.

Lemma method_translation_reads_only_witness :
  (Store.printObjectMethod Sample.ext
     (Store.mkPath (Store.SRef 4%positive) []) Sample.options
     Sample.printKind Sample.methodStore).2
  = Sample.methodStore.
Proof.
  apply (proj2 (method_translation_reads_only Sample.ext
                  (Store.mkPath (Store.SRef 4%positive) []) Sample.options
                  Sample.printKind Sample.methodStore
                  (fun p σ => eq_refl))).
  vm_compute. reflexivity.
Defined.

(** X16. A method whose [kind] is none of those [printMethod] knows
    fails its assertion after the node was written to: on a node of kind
    [ObjectMethod] or [ClassMethod] the translation throws, the callback
    was never called, and the node is left with itself as its [value]. *)
Theorem printMethod_unknown_kind (ext : Externals) (path : Store.Path)
    (options : Options) (print : Store.Path -> Store.M Doc) (σ : Store.store)
    (l : Store.loc) (fs : gmap (list N) Store.sval) (kind : Store.sval) :
  nth 0 (List.filter (Store.Node_check ext σ) (Store.stackValues path))
    Store.SNull = Store.SRef l ->
  σ !! l = Some (Store.Obj fs) ->
  Store.isMethodKind fs ->
  fs !! lit "kind" = Some kind ->
  Store.truthy kind = true ->
  existsb (Store.isStr kind) ["init"; "method"; "constructor"; "get"; "set"]
  = false ->
  Store.printMethod ext path options print σ
  = (Err AssertionError,
     <[l := Store.Obj (<[lit "value" := Store.SRef l]> fs)]> σ).
Proof.
  intros Hnode Hl Hkind Hk Htruthy Hnone.
  cbn [existsb] in Hnone. rewrite !orb_false_iff in Hnone.
  destruct Hnone as (Hinit & Hmethod & Hctor & Hget & Hset & _).
  assert (Htype : Store.isStr (Store.fieldOf σ (Store.SRef l) "type")
                    "ObjectMethod"
                  || Store.isStr (Store.fieldOf σ (Store.SRef l) "type")
                       "ClassMethod" = true).
  { cbn [Store.fieldOf]. rewrite Hl.
    destruct Hkind as [-> | ->]; reflexivity. }
  unfold Store.printMethod. unfold Store.bindM at 1.
  unfold Store.getNode at 1. cbv iota beta. rewrite Hnode.
  unfold Store.bindM at 1. cbn [Store.getProp]. unfold Store.getField at 1.
  cbv iota beta.
  unfold Store.bindM at 1. unfold Store.getField at 1. cbv iota beta.
  rewrite Htype.
  unfold Store.bindM at 1. unfold Store.setField at 1. rewrite Hl.
  cbv iota beta.
  set (σ1 := <[l := Store.Obj (<[lit "value" := Store.SRef l]> fs)]> σ).
  assert (H1 : σ1 !! l = Some (Store.Obj (<[lit "value" := Store.SRef l]> fs)))
    by apply lookup_insert_eq.
  unfold Store.bindM at 1. unfold Store.getField at 1. cbv iota beta.
  assert (Hvalue : Store.fieldOf σ1 (Store.SRef l) "value" = Store.SRef l).
  { cbn [Store.fieldOf]. rewrite H1.
    assert (E : <[lit "value" := Store.SRef l]> fs !! lit "value"
                = Some (Store.SRef l)) by apply lookup_insert_eq.
    rewrite E. reflexivity. }
  rewrite Hvalue.
  unfold Store.bindM at 1. cbn [Store.getProp]. unfold Store.getField at 1.
  cbv iota beta.
  assert (Hkind' : Store.fieldOf σ (Store.SRef l) "kind" = kind).
  { cbn [Store.fieldOf]. rewrite Hl, Hk. reflexivity. }
  rewrite Hkind', Htruthy, Hinit, Hmethod, Hctor, Hget, Hset.
  reflexivity.
Qed.

Lemma printMethod_unknown_kind_witness :
  Store.printMethod Sample.ext Sample.methodPath Sample.options
    (fun _ => Store.throw TypeError) oddMethodStore
  = (Err AssertionError,
     <[1%positive :=
         Store.Obj (<[lit "value" := Store.SRef 1%positive]>
                      {[ lit "type" := Store.SStr (lit "ClassMethod");
                         lit "kind" := Store.SStr (lit "static") ]})]>
       oddMethodStore).
Proof.
  apply (printMethod_unknown_kind Sample.ext Sample.methodPath Sample.options
           (fun _ => Store.throw TypeError) oddMethodStore 1%positive
           {[ lit "type" := Store.SStr (lit "ClassMethod");
              lit "kind" := Store.SStr (lit "static") ]}
           (Store.SStr (lit "static"))).
  - vm_compute. reflexivity.
  - vm_compute. reflexivity.
  - right. vm_compute. reflexivity.
  - vm_compute. reflexivity.
  - reflexivity.
  - reflexivity.
Defined.

(** X17. Outside the method kinds [printMethod] asks that the [value]
    of the node is a function expression before it prints anything: when
    it is not, the translation fails with the assertion of that type, the
    callback was never called and the store is as it was. *)
Theorem printMethod_value_assertion (ext : Externals) (path : Store.Path)
    (options : Options) (print : Store.Path -> Store.M Doc) (σ : Store.store)
    (l : Store.loc) :
  nth 0 (List.filter (Store.Node_check ext σ) (Store.stackValues path))
    Store.SNull = Store.SRef l ->
  let node := Store.SRef l in
  Store.isStr (Store.fieldOf σ node "type") "ObjectMethod"
  || Store.isStr (Store.fieldOf σ node "type") "ClassMethod" = false ->
  namedTypes ext (lit "FunctionExpression") = true ->
  Store.isStr (Store.fieldOf σ (Store.fieldOf σ node "value") "type")
    "FunctionExpression" = false ->
  Store.printMethod ext path options print σ
  = (Err (TypeAssertion "FunctionExpression"), σ).
Proof.
  intros Hnode node Hkind Hknown Hvalue.
  unfold Store.printMethod. unfold Store.bindM at 1.
  unfold Store.getNode at 1. cbv iota beta. rewrite Hnode. fold node.
  unfold Store.bindM at 1. cbn [Store.getProp node].
  unfold Store.getField at 1. cbv iota beta.
  unfold Store.bindM at 1. unfold Store.getField at 1. cbv iota beta.
  fold node. rewrite Hkind.
  unfold Store.bindM at 1. unfold Store.bindM at 1.
  unfold Store.getField at 1. cbv iota beta.
  unfold Store.assertFunctionExpression. rewrite Hknown.
  unfold Store.bindM at 1. unfold Store.getField at 1. cbv iota beta.
  rewrite Hvalue. reflexivity.
Qed.

Lemma printMethod_value_assertion_witness :
  Store.printMethod Sample.ext (Store.mkPath (Store.SRef 4%positive) [])
    Sample.options (fun _ => Store.throw TypeError) Sample.methodStore
  = (Err (TypeAssertion "FunctionExpression"), Sample.methodStore).
Proof.
  apply (printMethod_value_assertion Sample.ext
           (Store.mkPath (Store.SRef 4%positive) []) Sample.options
           (fun _ => Store.throw TypeError) Sample.methodStore 4%positive).
  - vm_compute. reflexivity.
  - vm_compute. reflexivity.
  - reflexivity.
  - vm_compute. reflexivity.
Defined.

(** X18. After [printMethod] has run on a node of kind [ObjectMethod]
    or [ClassMethod], whether it returned or threw, the [value] of the node
    is the node itself, as long as the callback writes nothing else. *)
Theorem printMethod_marks_node (ext : Externals) (path : Store.Path)
    (options : Options) (print : Store.Path -> Store.M Doc) (σ : Store.store)
    (l : Store.loc) (fs : gmap (list N) Store.sval) :
  Store.respects print ->
  nth 0 (List.filter (Store.Node_check ext σ) (Store.stackValues path))
    Store.SNull = Store.SRef l ->
  σ !! l = Some (Store.Obj fs) ->
  Store.isMethodKind fs ->
  Store.fieldOf (Store.printMethod ext path options print σ).2
    (Store.SRef l) "value"
  = Store.SRef l.
Proof.
  intros Hprint Hnode Hl Hkind.
  pose proof (StoreFacts.preserves_printFunctionParams) as Hparams.
  pose proof (StoreFacts.preserves_printReturnType) as Hreturn.
  assert (Htype : Store.isStr (Store.fieldOf σ (Store.SRef l) "type")
                    "ObjectMethod"
                  || Store.isStr (Store.fieldOf σ (Store.SRef l) "type")
                       "ClassMethod" = true).
  { cbn [Store.fieldOf]. rewrite Hl.
    destruct Hkind as [-> | ->]; reflexivity. }
  unfold Store.printMethod. unfold Store.bindM at 1.
  unfold Store.getNode at 1. cbv iota beta. rewrite Hnode.
  unfold Store.bindM at 1. cbn [Store.getProp]. unfold Store.getField at 1.
  cbv iota beta.
  unfold Store.bindM at 1. unfold Store.getField at 1. cbv iota beta.
  rewrite Htype.
  unfold Store.bindM at 1. unfold Store.setField at 1. rewrite Hl.
  cbv iota beta.
  set (σ1 := <[l := Store.Obj (<[lit "value" := Store.SRef l]> fs)]> σ).
  assert (H1 : σ1 !! l = Some (Store.Obj (<[lit "value" := Store.SRef l]> fs)))
    by apply lookup_insert_eq.
  match goal with
  | |- Store.fieldOf (?m σ1).2 _ _ = _ =>
      assert (Hrest : Store.onlyMethodValues σ1 (m σ1).2);
      [ enough (H : Store.preserves m) by apply H
      | set (σ' := (m σ1).2) in * ]
  end.
  { unfold Store.respects in Hprint. StoreFacts.preserve. }
  assert (Hself : forall gs : gmap (list N) Store.sval,
             default Store.SUndef
               (<[lit "value" := Store.SRef l]> gs !! lit "value")
             = Store.SRef l).
  { intros gs.
    assert (E : <[lit "value" := Store.SRef l]> gs !! lit "value"
                = Some (Store.SRef l)) by apply lookup_insert_eq.
    rewrite E. reflexivity. }
  cbn [Store.fieldOf].
  destruct (Hrest l) as [E | (gs & _ & _ & E)]; rewrite E; [rewrite H1|];
    apply Hself.
Qed.

Lemma printMethod_marks_node_witness :
  Store.fieldOf
    (Store.printMethod Sample.ext Sample.methodPath Sample.options
       Sample.printKind Sample.methodStore).2
    (Store.SRef 1%positive) "value"
  = Store.SRef 1%positive.
Proof.
  eapply (printMethod_marks_node Sample.ext Sample.methodPath Sample.options
            Sample.printKind Sample.methodStore 1%positive).
  - intros p σ. apply StoreFacts.onlyMethodValues_refl.
  - vm_compute. reflexivity.
  - vm_compute. reflexivity.
  - left. vm_compute. reflexivity.
Defined.

(** ** Mustaches *)

Lemma mapM_asDoc_strings (parts : list jsstring) :
  mapM asDoc (VStr <$> parts) = Ok (Text <$> parts).
Proof.
  induction parts as [|s parts IH]; [reflexivity|].
  cbn [fmap list_fmap mapM asDoc bind] in *. rewrite IH. reflexivity.
Qed.

(** X19. A mustache statement over a path expression prints, through
    the translation of the whole tree, as the parts of the path joined by
    dots between [{{] and [}}], whatever fuel beyond two levels is
    given. *)
Theorem mustache_path (js : Engine) (options : Options) (path : Path)
    (fs ps : list (jsstring * value)) (parts : list jsstring) (fuel : nat) :
  getValue path = VObj fs ->
  assoc (lit "type") fs = VStr (lit "MustacheStatement") ->
  assoc (lit "path") fs = VObj ps ->
  assoc (lit "type") ps = VStr (lit "PathExpression") ->
  assoc (lit "parts") ps = VArr (VStr <$> parts) ->
  Handlebars.printAll js options (S (S fuel)) path
  = Ok (group (concat [txt "{{"; join (txt ".") (Text <$> parts); txt "}}"])).
Proof.
  intros Hn Ht Hp Hpt Hparts.
  cbn [Handlebars.printAll]. unfold Handlebars.printPath at 1.
  enter_rule Hn Ht. unfold call. cbn [descend bind]. rewrite Hn.
  cbn [getProp getField bind]. rewrite Hp.
  unfold Handlebars.printPath.
  cbn [getValue push frames truthy negb getField]. cbv zeta.
  rewrite Hpt. dispatch. rewrite Hparts. cbn [asList bind].
  rewrite mapM_asDoc_strings. reflexivity.
Qed.

Lemma mustache_path_witness :
  Handlebars.printAll Sample.js Sample.options 2
    (FastPath_from
       (Sample.node "MustacheStatement"
          [("path",
            Sample.node "PathExpression"
              [("parts", VArr [Sample.str "user"; Sample.str "name"])])]))
  = Ok (group (concat [txt "{{"; join (txt ".") [txt "user"; txt "name"];
                       txt "}}"])).
Proof.
  exact (mustache_path Sample.js Sample.options
           (FastPath_from
              (Sample.node "MustacheStatement"
                 [("path",
                   Sample.node "PathExpression"
                     [("parts", VArr [Sample.str "user"; Sample.str "name"])])]))
           _ _ [lit "user"; lit "name"] 0 eq_refl eq_refl eq_refl eq_refl
           eq_refl).
Defined.

(** ** Exports *)

(** X20. An export declaration prints [export], then [default] when
    the node is a default export, then its declaration when it has one:
    the specifiers and the source are then not printed. Without a
    declaration and without specifiers nothing follows: the source is
    dropped and the callback is not called. What is no declaration is
    refused. *)
Theorem export_declaration_forms (js : Engine) (isDeclaration : value -> bool)
    (path : Path) (options : Options) (print : Path -> result Doc)
    (fs : list (jsstring * value)) :
  getValue path = VObj fs ->
  let decl := VObj fs in
  let head :=
    txt "export "
    :: (if truthy (assoc (lit "default") fs)
           || isStr (assoc (lit "type") fs) "ExportDefaultDeclaration"
        then [txt "default "] else []) in
  let run := Exports.printExportDeclaration js isDeclaration path options print in
  (isDeclaration decl = false -> run = Err (TypeAssertion "Declaration"))
  /\ (isDeclaration decl = true ->
      truthy (assoc (lit "declaration") fs) = true ->
      run = let! declaration :=
              print (push path (Field "declaration")
                       (assoc (lit "declaration") fs)) in
            Ok (concat (head ++ [declaration])))
  /\ (isDeclaration decl = true ->
      truthy (assoc (lit "declaration") fs) = false ->
      truthy (assoc (lit "specifiers") fs) = false
      \/ assoc (lit "specifiers") fs = VArr [] ->
      run = Ok (concat head)).
Proof.
  intros Hn decl head run. subst run head.
  unfold Exports.printExportDeclaration. rewrite Hn. fold decl.
  cbn [getField decl]. split; [|split].
  - intros ->. reflexivity.
  - intros -> ->. cbn [negb]. unfold call. cbn [descend bind]. rewrite Hn.
    cbn [getProp getField bind].
    destruct (truthy (assoc (lit "default") fs)
              || isStr (assoc (lit "type") fs) "ExportDefaultDeclaration");
      reflexivity.
  - intros -> -> Hspec. cbn [negb].
    destruct (truthy (assoc (lit "default") fs)
              || isStr (assoc (lit "type") fs) "ExportDefaultDeclaration");
      destruct Hspec as [-> | ->]; reflexivity.
Qed.

Lemma export_declaration_forms_witness :
  Exports.printExportDeclaration Sample.js (fun _ => true)
    (FastPath_from
       (Sample.node "ExportNamedDeclaration"
          [("specifiers", VArr []); ("source", Sample.str "m")]))
    Sample.options (fun _ => Err TypeError)
  = Ok (concat [txt "export "]).
Proof.
  refine (proj2 (proj2 (export_declaration_forms Sample.js (fun _ => true)
                          (FastPath_from
                             (Sample.node "ExportNamedDeclaration"
                                [("specifiers", VArr []);
                                 ("source", Sample.str "m")]))
                          Sample.options (fun _ => Err TypeError) _ eq_refl))
            eq_refl eq_refl _).
  right. reflexivity.
Defined.
